(** * FuelFlow: the sale, purchase and receivable flows of [server/routes.ts]

    A shallow embedding of the request handlers of [server/routes.ts] that
    record sales, purchase orders, journal entries and deletions of
    customers and suppliers, over the tables of [shared/schema.ts].

    Conventions of the embedding.
    - A handler is a function from the store (the database tables) to the
      store after the request and the HTTP response.  Storage calls are
      sequenced in a state-and-exception monad; a [throw] keeps the writes
      made before it, as the handlers run outside any database transaction.
    - Decimal columns travel as strings in the TypeScript code.  A decimal
      string is represented by the number that [parseFloat] reads from it.
      Where the arithmetic on it is done by the storage layer (the balance
      of a customer, the stock of a tank), the number is an exact rational
      or [NaN], as the specification words it.  Where the code at hand
      computes with it in JavaScript (the totals of a purchase order, the
      sums of a journal entry), the number is an IEEE 754 binary64 value
      ([Double.t]) and every operation rounds as JavaScript does.  Rounding
      of [decimal(p,s)] columns by the database is outside the model.
    - [server/storage.ts] is not part of the sources at hand; each storage
      operation used by the handlers is modelled from the specification and
      from the column constraints of [shared/schema.ts]. *)

From Stdlib Require Import QArith String SpecFloat.
From stdpp Require Import gmap strings list fin_maps pretty.

Local Open Scope string_scope.
Local Open Scope list_scope.

(** ** Decimal amounts as the storage layer keeps them

    The amounts that only the storage layer adds and subtracts (the
    outstanding balance of a customer, the stock of a tank) are exact
    rationals; the handlers of [server/routes.ts] parse them, compare them
    with zero and pass them on, and do no arithmetic on them.  [NaN] is
    what [parseFloat] makes of a missing string. *)

Inductive number : Type :=
  | NaN
  | Num (q : Q).

(** The sum that the storage layer stores. *)
Definition num_add (a b : number) : number :=
  match a, b with
  | Num x, Num y => Num (x + y)%Q
  | _, _ => NaN
  end.

(** The difference that the storage layer stores. *)
Definition num_sub (a b : number) : number :=
  match a, b with
  | Num x, Num y => Num (x - y)%Q
  | _, _ => NaN
  end.

(** [a > b]: false as soon as one side is [NaN]. *)
Definition num_gtb (a b : number) : bool :=
  match a, b with
  | Num x, Num y => negb (Qle_bool x y)
  | _, _ => false
  end.

(** Two numbers denote the same value. *)
Definition num_equiv (a b : number) : Prop :=
  match a, b with
  | Num x, Num y => (x == y)%Q
  | NaN, NaN => True
  | _, _ => False
  end.

Definition zero : number := Num 0.

(** A decimal string, held as the number it reads as.  A field of type
    [option decimal] is [None] when the string is absent ([undefined] or
    [null]; for a form input, left empty): the falsy cases of JavaScript. *)
Definition decimal : Type := number.

(** [parseFloat(x)]; [parseFloat(undefined)] is [NaN]. *)
Definition parseFloat (x : option decimal) : number :=
  match x with
  | Some d => d
  | None => NaN
  end.

(** [x || '0'] *)
Definition or_zero (x : option decimal) : option decimal :=
  match x with
  | Some d => Some d
  | None => Some zero
  end.

(** [n.toString()] *)
Definition toString (n : number) : decimal := n.

(** Truthiness of an optional string: present and not empty. *)
Definition truthy (x : option string) : bool :=
  match x with
  | Some s => negb (String.eqb s "")
  | None => false
  end.

(** ** JavaScript numbers as the code computes with them

    The numbers of JavaScript are the binary64 values of IEEE 754: signed
    zeros, infinities, [NaN] and the finite values [(-1)^s * m * 2^e] with a
    mantissa of 53 bits.  Every operation rounds its exact result to the
    nearest value, ties to even.  A decimal string that JavaScript code
    reads or writes is held as the value that [parseFloat] reads from it:
    [n.toString()] writes the shortest string that reads back as [n], but
    for [-0], which it writes as "0". *)
Module Double.

Definition prec : Z := 53%Z.

Definition emax : Z := 1024%Z.

Definition t : Type := spec_float.

Definition NaN : t := S754_nan.

(** The literal [0]. *)
Definition zero : t := S754_zero false.

(** [a + b] *)
Definition add (a b : t) : t := SFadd prec emax a b.

(** [a - b] *)
Definition sub (a b : t) : t := SFsub prec emax a b.

(** [a * b] *)
Definition mul (a b : t) : t := SFmul prec emax a b.

(** [a / b] *)
Definition div (a b : t) : t := SFdiv prec emax a b.

(** [Math.abs(a)] *)
Definition abs (a : t) : t := SFabs a.

(** [a < b]: false as soon as one side is [NaN]. *)
Definition ltb (a b : t) : bool := SFltb a b.

(** [a > b]: false as soon as one side is [NaN]. *)
Definition gtb (a b : t) : bool := SFltb b a.

(** [a === b] on numbers: [NaN] is not equal to itself, and [-0] is equal
    to [0]. *)
Definition eqb (a b : t) : bool := SFeqb a b.

(** The value of an integer literal, or of a string of digits. *)
Definition of_Z (n : Z) : t := binary_normalize prec emax n 0%Z false.

(** The value that a decimal literal or [parseFloat] of a decimal string
    denotes: [of_decimal 17 2] is [0.17].  For at most 15 digits and a scale
    of at most 22 both integers are binary64 values, and the quotient,
    rounded once, is the value nearest to the decimal. *)
Definition of_decimal (digits : Z) (scale : nat) : t :=
  div (of_Z digits) (of_Z (10 ^ Z.of_nat scale)%Z).

(** The literal [0.01]. *)
Definition cent : t := of_decimal 1 2.

(** The rational that a finite value is, exactly. *)
Definition exact (a : t) : option Q :=
  match a with
  | S754_zero _ => Some 0%Q
  | S754_finite s m e =>
      let mantissa := if s then Zneg m else Zpos m in
      Some (match e with
            | Zneg p => Qmake mantissa (2 ^ p)%positive
            | _ => Qmake (mantissa * 2 ^ e)%Z 1
            end)
  | S754_infinity _ | S754_nan => None
  end.

(** [parseFloat(x)]; [parseFloat(undefined)] is [NaN]. *)
Definition parseFloat (x : option t) : t :=
  match x with
  | Some d => d
  | None => NaN
  end.

(** [x || '0'] *)
Definition or_zero (x : option t) : option t :=
  match x with
  | Some d => Some d
  | None => Some zero
  end.

(** [n.toString()], as the value that the string reads back as: [n]
    itself, and [0] for [-0]. *)
Definition toString (n : t) : t :=
  match n with
  | S754_zero _ => zero
  | _ => n
  end.

End Double.

(** ** Tables of [shared/schema.ts]

    Only the columns read or written by the modelled handlers are kept.  Rows
    of tables looked up by primary key are held in a map from the key; rows
    of tables that are appended to are held in insertion order. *)

Inductive PaymentMethod : Type := cash | card | credit | fleet.

(** [paymentMethodEnum] *)
Definition paymentMethodEnum (s : string) : option PaymentMethod :=
  if String.eqb s "cash" then Some cash
  else if String.eqb s "card" then Some card
  else if String.eqb s "credit" then Some credit
  else if String.eqb s "fleet" then Some fleet
  else None.

Definition is_credit (p : PaymentMethod) : bool :=
  match p with credit => true | _ => false end.

Module Customer.
Record t : Type := mk {
  name : string;
  outstandingAmount : option decimal
}.
End Customer.

Module Supplier.
Record t : Type := mk {
  name : string;
  outstandingAmount : option decimal
}.
End Supplier.

Module Tank.
Record t : Type := mk {
  stationId : string;
  productId : string;
  currentStock : option decimal
}.
End Tank.

Module Settings.
Record t : Type := mk {
  taxEnabled : option bool;
  taxRate : option Double.t;
  currencyCode : string
}.
End Settings.

Module SalesTransaction.
Record t : Type := mk {
  id : string;
  invoiceNumber : string;
  stationId : string;
  customerId : string;
  userId : string;
  paymentMethod : PaymentMethod;
  subtotal : decimal;
  taxAmount : option decimal;
  totalAmount : decimal;
  paidAmount : option decimal;
  outstandingAmount : option decimal
}.
End SalesTransaction.

Module SalesTransactionItem.
Record t : Type := mk {
  id : string;
  transactionId : string;
  productId : string;
  tankId : option string;
  quantity : decimal;
  unitPrice : decimal;
  totalPrice : decimal
}.
End SalesTransactionItem.

Inductive MovementType : Type := MoveIn | MoveOut | MoveAdjustment.

Module StockMovement.
Record t : Type := mk {
  id : string;
  tankId : string;
  stationId : string;
  userId : string;
  movementType : MovementType;
  quantity : decimal;
  previousStock : decimal;
  newStock : decimal;
  referenceId : option string;
  referenceType : option string
}.
End StockMovement.

Module PurchaseOrder.
Record t : Type := mk {
  id : string;
  orderNumber : string;
  stationId : string;
  supplierId : string;
  userId : string;
  orderDate : Z;
  expectedDeliveryDate : option Z;
  status : string;
  subtotal : Double.t;
  taxAmount : option Double.t;
  totalAmount : Double.t;
  notes : string
}.
End PurchaseOrder.

Module PurchaseOrderItem.
Record t : Type := mk {
  id : string;
  orderId : string;
  productId : string;
  tankId : option string;
  quantity : Double.t;
  unitPrice : Double.t;
  totalPrice : Double.t
}.
End PurchaseOrderItem.

(** The database.  [customers], [suppliers] and [tanks] are keyed by [id];
    [settings] by [stationId], which the schema declares unique.  [nextId]
    numbers the rows created so far and feeds [gen_random_uuid]. *)
Record Store : Type := mkStore {
  customers : gmap string Customer.t;
  suppliers : gmap string Supplier.t;
  tanks : gmap string Tank.t;
  settings : gmap string Settings.t;
  salesTransactions : list SalesTransaction.t;
  salesTransactionItems : list SalesTransactionItem.t;
  stockMovements : list StockMovement.t;
  purchaseOrders : list PurchaseOrder.t;
  purchaseOrderItems : list PurchaseOrderItem.t;
  nextId : nat
}.

Definition with_customers (f : gmap string Customer.t -> gmap string Customer.t) (s : Store) : Store :=
  mkStore (f (customers s)) (suppliers s) (tanks s) (settings s) (salesTransactions s)
    (salesTransactionItems s) (stockMovements s) (purchaseOrders s) (purchaseOrderItems s) (nextId s).

Definition with_suppliers (f : gmap string Supplier.t -> gmap string Supplier.t) (s : Store) : Store :=
  mkStore (customers s) (f (suppliers s)) (tanks s) (settings s) (salesTransactions s)
    (salesTransactionItems s) (stockMovements s) (purchaseOrders s) (purchaseOrderItems s) (nextId s).

Definition with_tanks (f : gmap string Tank.t -> gmap string Tank.t) (s : Store) : Store :=
  mkStore (customers s) (suppliers s) (f (tanks s)) (settings s) (salesTransactions s)
    (salesTransactionItems s) (stockMovements s) (purchaseOrders s) (purchaseOrderItems s) (nextId s).

Definition with_settings (f : gmap string Settings.t -> gmap string Settings.t) (s : Store) : Store :=
  mkStore (customers s) (suppliers s) (tanks s) (f (settings s)) (salesTransactions s)
    (salesTransactionItems s) (stockMovements s) (purchaseOrders s) (purchaseOrderItems s) (nextId s).

Definition with_salesTransactions (f : list SalesTransaction.t -> list SalesTransaction.t) (s : Store) : Store :=
  mkStore (customers s) (suppliers s) (tanks s) (settings s) (f (salesTransactions s))
    (salesTransactionItems s) (stockMovements s) (purchaseOrders s) (purchaseOrderItems s) (nextId s).

Definition with_salesTransactionItems (f : list SalesTransactionItem.t -> list SalesTransactionItem.t) (s : Store) : Store :=
  mkStore (customers s) (suppliers s) (tanks s) (settings s) (salesTransactions s)
    (f (salesTransactionItems s)) (stockMovements s) (purchaseOrders s) (purchaseOrderItems s) (nextId s).

Definition with_stockMovements (f : list StockMovement.t -> list StockMovement.t) (s : Store) : Store :=
  mkStore (customers s) (suppliers s) (tanks s) (settings s) (salesTransactions s)
    (salesTransactionItems s) (f (stockMovements s)) (purchaseOrders s) (purchaseOrderItems s) (nextId s).

Definition with_purchaseOrders (f : list PurchaseOrder.t -> list PurchaseOrder.t) (s : Store) : Store :=
  mkStore (customers s) (suppliers s) (tanks s) (settings s) (salesTransactions s)
    (salesTransactionItems s) (stockMovements s) (f (purchaseOrders s)) (purchaseOrderItems s) (nextId s).

Definition with_purchaseOrderItems (f : list PurchaseOrderItem.t -> list PurchaseOrderItem.t) (s : Store) : Store :=
  mkStore (customers s) (suppliers s) (tanks s) (settings s) (salesTransactions s)
    (salesTransactionItems s) (stockMovements s) (purchaseOrders s) (f (purchaseOrderItems s)) (nextId s).

Definition with_nextId (f : nat -> nat) (s : Store) : Store :=
  mkStore (customers s) (suppliers s) (tanks s) (settings s) (salesTransactions s)
    (salesTransactionItems s) (stockMovements s) (purchaseOrders s) (purchaseOrderItems s) (f (nextId s)).

(** ** Storage calls: state and exceptions *)

Inductive Error : Type :=
  | ZodError
  | TypeError
  | RangeError
  | PersistenceError (message : string).

(** A computation over the store that returns a value or throws.  The store
    is returned in both cases: a [throw] does not undo earlier writes. *)
Definition M (A : Type) : Type := Store -> Store * (Error + A).

Definition ret {A : Type} (a : A) : M A := fun s => (s, inr a).

Definition throw {A : Type} (e : Error) : M A := fun s => (s, inl e).

Definition bind {A B : Type} (c : M A) (k : A -> M B) : M B :=
  fun s =>
    match c s with
    | (s', inr a) => k a s'
    | (s', inl e) => (s', inl e)
    end.

Notation "'let*' x := c 'in' k" := (bind c (fun x => k))
  (at level 10, x pattern, c at level 100, k at level 200).

Notation "c ;; k" := (bind c (fun _ => k))
  (at level 100, k at level 200, right associativity).

Definition gets {A : Type} (f : Store -> A) : M A := fun s => (s, inr (f s)).

Definition modify (f : Store -> Store) : M unit := fun s => (f s, inr tt).

(** [gen_random_uuid()], the default of every [id] column: the rows created
    so far are counted and the count names the new row.  The id is new in
    every store whose ids were handed out in this way ([ids_issued] below,
    which the handlers keep). *)
Definition gen_random_uuid : M string :=
  fun s => (with_nextId S s, inr ("id-" +:+ pretty (nextId s))).

(** [zodSchema.parse(x)] throws a [ZodError] when the input does not fit. *)
Definition parse {A : Type} (validated : option A) : M A :=
  match validated with
  | Some a => ret a
  | None => throw ZodError
  end.

(** A line of a journal entry, as the ledger form and the request body
    carry it. *)
Module JournalLine.
Record t : Type := mk {
  accountId : string;
  debit : option Double.t;
  credit : option Double.t
}.
End JournalLine.

(** The [journalEntry] object that POST /api/journal-entries answers with. *)
Module JournalEntry.
Record t : Type := mk {
  id : string;
  entryNumber : string;
  stationId : option string;
  createdBy : string;
  lines : list JournalLine.t;
  totalDebit : option Double.t;
  totalCredit : option Double.t;
  isPosted : bool
}.
End JournalEntry.

(** ** HTTP responses *)

Inductive Body : Type :=
  | Message (text : string)
  | ValidationFailed
  | SaleBody (transaction : SalesTransaction.t) (items : list SalesTransactionItem.t)
  | OrderBody (order : PurchaseOrder.t) (items : list PurchaseOrderItem.t)
  | JournalEntryBody (journalEntry : JournalEntry.t).

Record Response : Type := mkResponse {
  status : nat;
  body : Body
}.

(** [req.user], as left by [requireAuth]. *)
Module AuthenticatedUser.
Record t : Type := mk {
  id : string;
  role : string;
  stationId : option string
}.
End AuthenticatedUser.

(** ** Insert schemas of [shared/schema.ts] *)

(** [req.body.transaction] of the sales routes.  An absent field is [None];
    an absent [transaction] is the record with every field absent.  The
    optional columns that no handler reads ([transactionDate], [dueDate],
    [currencyCode], [notes]) are left out, and so is [invoiceNumber], which
    POST overwrites. *)
Module RawSalesTransaction.
Record t : Type := mk {
  stationId : option string;
  customerId : option string;
  userId : option string;
  paymentMethod : option string;
  subtotal : option decimal;
  taxAmount : option decimal;
  totalAmount : option decimal;
  paidAmount : option decimal;
  outstandingAmount : option decimal
}.
End RawSalesTransaction.

(** [InsertSalesTransaction] *)
Module InsertSalesTransaction.
Record t : Type := mk {
  invoiceNumber : string;
  stationId : string;
  customerId : string;
  userId : string;
  paymentMethod : PaymentMethod;
  subtotal : decimal;
  taxAmount : option decimal;
  totalAmount : decimal;
  paidAmount : option decimal;
  outstandingAmount : option decimal
}.
End InsertSalesTransaction.

(** [insertSalesTransactionSchema.parse({...transaction, invoiceNumber})]:
    the [notNull] columns without a default are required, [paymentMethod]
    must be a member of [paymentMethodEnum]. *)
Definition insertSalesTransactionSchema
    (transaction : RawSalesTransaction.t) (invoiceNumber : string)
    : option InsertSalesTransaction.t :=
  match RawSalesTransaction.stationId transaction,
        RawSalesTransaction.customerId transaction,
        RawSalesTransaction.userId transaction,
        RawSalesTransaction.paymentMethod transaction ≫= paymentMethodEnum,
        RawSalesTransaction.subtotal transaction,
        RawSalesTransaction.totalAmount transaction with
  | Some stationId, Some customerId, Some userId, Some paymentMethod,
    Some subtotal, Some totalAmount =>
      Some (InsertSalesTransaction.mk invoiceNumber stationId customerId userId
              paymentMethod subtotal (RawSalesTransaction.taxAmount transaction)
              totalAmount (RawSalesTransaction.paidAmount transaction)
              (RawSalesTransaction.outstandingAmount transaction))
  | _, _, _, _, _, _ => None
  end.

(** An element of [req.body.items] of the sales routes. *)
Module RawSalesItem.
Record t : Type := mk {
  productId : option string;
  tankId : option string;
  quantity : option decimal;
  unitPrice : option decimal;
  totalPrice : option decimal
}.
End RawSalesItem.

(** [InsertSalesTransactionItem] *)
Module InsertSalesTransactionItem.
Record t : Type := mk {
  transactionId : string;
  productId : string;
  tankId : option string;
  quantity : decimal;
  unitPrice : decimal;
  totalPrice : decimal
}.
End InsertSalesTransactionItem.

(** The [notNull] columns of [sales_transaction_items], with
    [transactionId] set by the handler: [{...item, transactionId}]. *)
Definition salesTransactionItem_columns
    (item : RawSalesItem.t) (transactionId : string)
    : option InsertSalesTransactionItem.t :=
  match RawSalesItem.productId item, RawSalesItem.quantity item,
        RawSalesItem.unitPrice item, RawSalesItem.totalPrice item with
  | Some productId, Some quantity, Some unitPrice, Some totalPrice =>
      Some (InsertSalesTransactionItem.mk transactionId productId
              (RawSalesItem.tankId item) quantity unitPrice totalPrice)
  | _, _, _, _ => None
  end.

(** [insertSalesTransactionItemSchema.parse({...item, transactionId})] *)
Definition insertSalesTransactionItemSchema
    (item : RawSalesItem.t) (transactionId : string)
    : option InsertSalesTransactionItem.t :=
  salesTransactionItem_columns item transactionId.

(** The argument of [storage.createStockMovement]: the handler supplies
    neither [previousStock] nor [newStock]. *)
Module InsertStockMovement.
Record t : Type := mk {
  tankId : string;
  movementType : MovementType;
  quantity : decimal;
  referenceType : option string;
  referenceId : option string;
  stationId : string;
  userId : string
}.
End InsertStockMovement.

(** ** Storage operations of the sales flow *)

(** Modelled from the spec: the insert of a row by the absent
    [server/storage.ts]; a column declared [.default('0')] in
    [shared/schema.ts] takes that default when the insert leaves it out. *)
Definition default_zero (x : option decimal) : option decimal := or_zero x.

(** Modelled from the spec: [storage.createSalesTransaction] of the absent
    [server/storage.ts].  "Validate and persist the transaction header"; the
    invoice number is unique, and "uniqueness is enforced by a storage-level
    unique constraint, not pre-checked". *)
Definition createSalesTransaction (v : InsertSalesTransaction.t) : M SalesTransaction.t :=
  let* taken := gets (fun s =>
      existsb (fun t => String.eqb (SalesTransaction.invoiceNumber t)
                          (InsertSalesTransaction.invoiceNumber v))
        (salesTransactions s)) in
  if taken : bool then throw (PersistenceError "duplicate key value violates unique constraint")
  else
    let* id := gen_random_uuid in
    let row := SalesTransaction.mk id
        (InsertSalesTransaction.invoiceNumber v)
        (InsertSalesTransaction.stationId v)
        (InsertSalesTransaction.customerId v)
        (InsertSalesTransaction.userId v)
        (InsertSalesTransaction.paymentMethod v)
        (InsertSalesTransaction.subtotal v)
        (default_zero (InsertSalesTransaction.taxAmount v))
        (InsertSalesTransaction.totalAmount v)
        (default_zero (InsertSalesTransaction.paidAmount v))
        (default_zero (InsertSalesTransaction.outstandingAmount v)) in
    modify (with_salesTransactions (fun rows => rows ++ [row]));;
    ret row.

(** Modelled from the spec: [storage.createSalesTransactionItem] of the
    absent [server/storage.ts].  "Validate and persist it with a
    back-reference to the transaction id." *)
Definition createSalesTransactionItem (v : InsertSalesTransactionItem.t) : M SalesTransactionItem.t :=
  let* id := gen_random_uuid in
  let row := SalesTransactionItem.mk id
      (InsertSalesTransactionItem.transactionId v)
      (InsertSalesTransactionItem.productId v)
      (InsertSalesTransactionItem.tankId v)
      (InsertSalesTransactionItem.quantity v)
      (InsertSalesTransactionItem.unitPrice v)
      (InsertSalesTransactionItem.totalPrice v) in
  modify (with_salesTransactionItems (fun rows => rows ++ [row]));;
  ret row.

(** Modelled from the spec: the stock a movement leaves, "[newStock =
    previousStock ± quantity] depending on direction": [previousStock -
    quantity] for an outward movement, [previousStock + quantity] otherwise
    (the spec gives no direction for an adjustment; it is taken as a signed
    addition). *)
Definition stock_after (movementType : MovementType) (previousStock quantity : number) : number :=
  match movementType with
  | MoveOut => num_sub previousStock quantity
  | MoveIn | MoveAdjustment => num_add previousStock quantity
  end.

(** Modelled from the spec: the tank with a new [currentStock], the other
    columns kept. *)
Definition set_currentStock (stock : decimal) (t : Tank.t) : Tank.t :=
  Tank.mk (Tank.stationId t) (Tank.productId t) (Some stock).

(** Modelled from the spec: [storage.createStockMovement] of the absent
    [server/storage.ts].  A stock movement is an "append-only ledger row per
    tank quantity change; records previous/new stock" with "[newStock =
    previousStock ± quantity] depending on direction", and a tank's
    [currentStock] is "mutated only through StockMovement creation".  The
    movement reads the tank's stock, so a movement on an unknown tank is
    refused. *)
Definition createStockMovement (v : InsertStockMovement.t) : M StockMovement.t :=
  let* tank := gets (fun s => tanks s !! InsertStockMovement.tankId v) in
  match tank with
  | None => throw (PersistenceError "Tank not found")
  | Some t =>
      let previousStock := parseFloat (or_zero (Tank.currentStock t)) in
      let newStock :=
        stock_after (InsertStockMovement.movementType v) previousStock
          (InsertStockMovement.quantity v) in
      let* id := gen_random_uuid in
      let row := StockMovement.mk id
          (InsertStockMovement.tankId v)
          (InsertStockMovement.stationId v)
          (InsertStockMovement.userId v)
          (InsertStockMovement.movementType v)
          (InsertStockMovement.quantity v)
          (toString previousStock)
          (toString newStock)
          (InsertStockMovement.referenceId v)
          (InsertStockMovement.referenceType v) in
      modify (with_stockMovements (fun rows => rows ++ [row]));;
      modify (with_tanks (<[InsertStockMovement.tankId v := set_currentStock (toString newStock) t]>));;
      ret row
  end.

(** Modelled from the spec: the customer with [outstandingAmount]
    increased by [amount] (an unset amount counts as 0). *)
Definition add_outstanding (amount : number) (c : Customer.t) : Customer.t :=
  Customer.mk (Customer.name c)
    (Some (toString (num_add (parseFloat (or_zero (Customer.outstandingAmount c))) amount))).

(** Modelled from the spec: [storage.updateCustomerOutstanding] of the absent
    [server/storage.ts].  "Increase the customer's [outstandingAmount] by the
    transaction's outstanding amount"; an update of a customer that does not
    exist changes no row. *)
Definition updateCustomerOutstanding (customerId : string) (amount : number) : M unit :=
  modify (with_customers (alter (add_outstanding amount) customerId)).

(** ** POST /api/sales *)

Module SalesRequest.
(** [req.body]: [items] is [None] when the body carries no array. *)
Record t : Type := mk {
  transaction : RawSalesTransaction.t;
  items : option (list RawSalesItem.t)
}.
End SalesRequest.

(** [s.slice(-n)] *)
Definition slice_last (n : nat) (s : string) : string :=
  String.substring (String.length s - n) n s.

(** [item.tankId && item.tankId !== 'null'] *)
Definition specifies_tank (tankId : option string) : bool :=
  truthy tankId && negb (bool_decide (tankId = Some "null")).

(** The body of [for (const item of items)] in POST /api/sales.  [zod]
    returns the strings it is given, so [item.tankId] and [item.quantity],
    which the handler reads from the raw item once it has been parsed, are
    those of the validated item; a [tankId] that is [null] or [undefined]
    is falsy.  The keys [unitPrice] and [remarks] that the handler adds to
    the movement are no columns of [stock_movements] and are left out. *)
Definition create_sale_item
    (validatedTransaction : InsertSalesTransaction.t)
    (createdTransaction : SalesTransaction.t)
    (item : RawSalesItem.t) : M SalesTransactionItem.t :=
  let* validatedItem :=
    parse (insertSalesTransactionItemSchema item (SalesTransaction.id createdTransaction)) in
  let* createdItem := createSalesTransactionItem validatedItem in
  (* Create stock movement for inventory tracking (only for fuel products with tanks) *)
  match InsertSalesTransactionItem.tankId validatedItem with
  | Some tankId =>
      if specifies_tank (Some tankId) then
        createStockMovement
          (InsertStockMovement.mk tankId MoveOut
             (InsertSalesTransactionItem.quantity validatedItem)
             (Some "sale")
             (Some (SalesTransaction.id createdTransaction))
             (InsertSalesTransaction.stationId validatedTransaction)
             (InsertSalesTransaction.userId validatedTransaction));;
        ret createdItem
      else ret createdItem
  | None => ret createdItem
  end.

Fixpoint create_sale_items
    (validatedTransaction : InsertSalesTransaction.t)
    (createdTransaction : SalesTransaction.t)
    (items : list RawSalesItem.t)
    (createdItems : list SalesTransactionItem.t) : M (list SalesTransactionItem.t) :=
  match items with
  | [] => ret createdItems
  | item :: rest =>
      let* createdItem := create_sale_item validatedTransaction createdTransaction item in
      create_sale_items validatedTransaction createdTransaction rest (createdItems ++ [createdItem])
  end.

(** Lines 806-812: update customer outstanding amount for credit sales. *)
Definition update_outstanding_for_credit (validatedTransaction : InsertSalesTransaction.t) : M unit :=
  if is_credit (InsertSalesTransaction.paymentMethod validatedTransaction)
     && truthy (Some (InsertSalesTransaction.customerId validatedTransaction))
  then
    updateCustomerOutstanding
      (InsertSalesTransaction.customerId validatedTransaction)
      (parseFloat (or_zero (InsertSalesTransaction.outstandingAmount validatedTransaction)))
  else ret tt.

(** [`SAL${Date.now().toString().slice(-6)}`], with [now] for
    [Date.now().toString()]. *)
Definition sale_invoiceNumber (now : string) : string :=
  "SAL" +:+ slice_last 6 now.

(** The [try] block. *)
Definition post_sales_try (now : string) (req : SalesRequest.t) : M Response :=
  let invoiceNumber := sale_invoiceNumber now in
  let* validatedTransaction :=
    parse (insertSalesTransactionSchema (SalesRequest.transaction req) invoiceNumber) in
  let* createdTransaction := createSalesTransaction validatedTransaction in
  let* createdItems :=
    match SalesRequest.items req with
    | Some items => create_sale_items validatedTransaction createdTransaction items []
    | None => throw TypeError
    end in
  update_outstanding_for_credit validatedTransaction;;
  ret (mkResponse 201 (SaleBody createdTransaction createdItems)).

(** The [catch] block. *)
Definition post_sales_catch (error : Error) : Response :=
  match error with
  | ZodError => mkResponse 400 ValidationFailed
  | _ => mkResponse 400 (Message "Invalid sales data")
  end.

Definition post_sales (now : string) (req : SalesRequest.t) (s : Store) : Store * Response :=
  match post_sales_try now req s with
  | (s', inr response) => (s', response)
  | (s', inl error) => (s', post_sales_catch error)
  end.

(** ** PUT /api/sales/:transactionId *)

(** Modelled from the spec: [storage.getSalesTransaction] of the absent
    [server/storage.ts]: the transaction with that id, if any. *)
Definition getSalesTransaction (id : string) : M (option SalesTransaction.t) :=
  gets (fun s => List.find (fun t => String.eqb (SalesTransaction.id t) id) (salesTransactions s)).

(** Modelled from the spec: "updates header", the columns of a header
    replaced by those the request carries. *)
Definition patch_transaction
    (patch : RawSalesTransaction.t) (paymentMethod : option PaymentMethod)
    (t : SalesTransaction.t) : SalesTransaction.t :=
  SalesTransaction.mk (SalesTransaction.id t) (SalesTransaction.invoiceNumber t)
    (default (SalesTransaction.stationId t) (RawSalesTransaction.stationId patch))
    (default (SalesTransaction.customerId t) (RawSalesTransaction.customerId patch))
    (default (SalesTransaction.userId t) (RawSalesTransaction.userId patch))
    (default (SalesTransaction.paymentMethod t) paymentMethod)
    (default (SalesTransaction.subtotal t) (RawSalesTransaction.subtotal patch))
    (match RawSalesTransaction.taxAmount patch with
     | Some d => Some d | None => SalesTransaction.taxAmount t end)
    (default (SalesTransaction.totalAmount t) (RawSalesTransaction.totalAmount patch))
    (match RawSalesTransaction.paidAmount patch with
     | Some d => Some d | None => SalesTransaction.paidAmount t end)
    (match RawSalesTransaction.outstandingAmount patch with
     | Some d => Some d | None => SalesTransaction.outstandingAmount t end).

(** Modelled from the spec: [storage.updateSalesTransaction] of the absent
    [server/storage.ts].  "[PUT /sales/:id] replaces items and updates
    header": the columns present in the request replace those of the row.  A
    payment method outside [paymentMethodEnum] is refused by the column type,
    a missing row is a [NotFoundError]. *)
Definition updateSalesTransaction (id : string) (patch : RawSalesTransaction.t) : M SalesTransaction.t :=
  let* paymentMethod :=
    match RawSalesTransaction.paymentMethod patch with
    | None => ret None
    | Some text =>
        match paymentMethodEnum text with
        | Some p => ret (Some p)
        | None => throw (PersistenceError "invalid input value for enum payment_method")
        end
    end in
  let* existing := getSalesTransaction id in
  match existing with
  | None => throw (PersistenceError "Sales transaction not found")
  | Some t =>
      modify (with_salesTransactions
                (List.map (fun row =>
                   if String.eqb (SalesTransaction.id row) id
                   then patch_transaction patch paymentMethod row else row)));;
      ret (patch_transaction patch paymentMethod t)
  end.

(** Modelled from the spec: [storage.deleteSalesTransactionItems] of the
    absent [server/storage.ts]: the "delete-all" half of "delete-all and
    recreate", every item of the transaction is removed. *)
Definition deleteSalesTransactionItems (transactionId : string) : M unit :=
  modify (with_salesTransactionItems
            (List.filter (fun i => negb (String.eqb (SalesTransactionItem.transactionId i) transactionId)))).

(** Modelled from the spec: [storage.createSalesTransactionItem({...item,
    transactionId})] of the absent [server/storage.ts] on an item that no
    schema has parsed: the [notNull] columns of [shared/schema.ts] refuse a
    row that lacks one of them. *)
Definition createSalesTransactionItem_unparsed
    (item : RawSalesItem.t) (transactionId : string) : M SalesTransactionItem.t :=
  match salesTransactionItem_columns item transactionId with
  | Some v => createSalesTransactionItem v
  | None => throw (PersistenceError "null value violates not-null constraint")
  end.

Fixpoint recreate_sale_items
    (transactionId : string) (items : list RawSalesItem.t)
    (updatedItems : list SalesTransactionItem.t) : M (list SalesTransactionItem.t) :=
  match items with
  | [] => ret updatedItems
  | item :: rest =>
      let* newItem := createSalesTransactionItem_unparsed item transactionId in
      recreate_sale_items transactionId rest (updatedItems ++ [newItem])
  end.

(** [user.role !== 'admin' && user.stationId !== existingTransaction.stationId] *)
Definition access_denied (user : AuthenticatedUser.t) (stationId : string) : bool :=
  negb (String.eqb (AuthenticatedUser.role user) "admin")
  && negb (bool_decide (AuthenticatedUser.stationId user = Some stationId)).

Definition put_sales_try
    (user : AuthenticatedUser.t) (transactionId : string) (req : SalesRequest.t) : M Response :=
  (* Get existing transaction to check permissions *)
  let* existingTransaction := getSalesTransaction transactionId in
  match existingTransaction with
  | None => ret (mkResponse 404 (Message "Transaction not found"))
  | Some existing =>
      if access_denied user (SalesTransaction.stationId existing)
      then ret (mkResponse 403 (Message "Access denied"))
      else
        let* updatedTransaction :=
          updateSalesTransaction transactionId (SalesRequest.transaction req) in
        deleteSalesTransactionItems transactionId;;
        let* updatedItems :=
          match SalesRequest.items req with
          | Some items => recreate_sale_items transactionId items []
          | None => throw TypeError
          end in
        ret (mkResponse 200 (SaleBody updatedTransaction updatedItems))
  end.

Definition put_sales
    (user : AuthenticatedUser.t) (transactionId : string) (req : SalesRequest.t)
    (s : Store) : Store * Response :=
  match put_sales_try user transactionId req s with
  | (s', inr response) => (s', response)
  | (s', inl _) => (s', mkResponse 500 (Message "Failed to update sale"))
  end.

(** ** DELETE /api/customers/:id and DELETE /api/suppliers/:id *)

(** Modelled from the spec: [storage.getCustomer] of the absent
    [server/storage.ts], the row with that id if there is one. *)
Definition getCustomer (id : string) : M (option Customer.t) :=
  gets (fun s => customers s !! id).

(** Modelled from the spec: [storage.deleteCustomer] of the absent
    [server/storage.ts], the removal of the row with that id. *)
Definition deleteCustomer (id : string) : M unit :=
  modify (with_customers (delete id)).

(** Modelled from the spec: [storage.getSupplier] of the absent
    [server/storage.ts], the row with that id if there is one. *)
Definition getSupplier (id : string) : M (option Supplier.t) :=
  gets (fun s => suppliers s !! id).

(** Modelled from the spec: [storage.deleteSupplier] of the absent
    [server/storage.ts], the removal of the row with that id. *)
Definition deleteSupplier (id : string) : M unit :=
  modify (with_suppliers (delete id)).

Definition delete_customer_try (id : string) : M Response :=
  (* Check if customer has outstanding transactions *)
  let* customer := getCustomer id in
  match customer with
  | None => ret (mkResponse 404 (Message "Customer not found"))
  | Some customer =>
      if num_gtb (parseFloat (or_zero (Customer.outstandingAmount customer))) zero
      then ret (mkResponse 400 (Message "Cannot delete customer with outstanding amount"))
      else
        deleteCustomer id;;
        ret (mkResponse 200 (Message "Customer deleted successfully"))
  end.

Definition delete_customer (id : string) (s : Store) : Store * Response :=
  match delete_customer_try id s with
  | (s', inr response) => (s', response)
  | (s', inl _) => (s', mkResponse 500 (Message "Failed to delete customer"))
  end.

Definition delete_supplier_try (id : string) : M Response :=
  let* supplier := getSupplier id in
  match supplier with
  | None => ret (mkResponse 404 (Message "Supplier not found"))
  | Some supplier =>
      if num_gtb (parseFloat (or_zero (Supplier.outstandingAmount supplier))) zero
      then ret (mkResponse 400 (Message "Cannot delete supplier with outstanding amount"))
      else
        deleteSupplier id;;
        ret (mkResponse 200 (Message "Supplier deleted successfully"))
  end.

Definition delete_supplier (id : string) (s : Store) : Store * Response :=
  match delete_supplier_try id s with
  | (s', inr response) => (s', response)
  | (s', inl _) => (s', mkResponse 500 (Message "Failed to delete supplier"))
  end.

(** ** POST /api/purchase-orders *)

(** A date of the request body: absent, unreadable (an "Invalid Date",
    whose [toISOString()] throws a [RangeError]), or a point in time. *)
Inductive RawDate : Type :=
  | DateAbsent
  | DateInvalid
  | DateValid (time : Z).

(** [req.body.order] *)
Module RawPurchaseOrder.
Record t : Type := mk {
  orderNumber : option string;
  supplierId : option string;
  orderDate : RawDate;
  expectedDeliveryDate : RawDate;
  status : option string;
  notes : option string
}.
End RawPurchaseOrder.

(** An element of [req.body.items]. *)
Module RawPurchaseItem.
Record t : Type := mk {
  productId : option string;
  tankId : option string;
  quantity : option Double.t;
  unitPrice : option Double.t;
  totalPrice : option Double.t
}.
End RawPurchaseItem.

Module PurchaseRequest.
(** [req.body]: [order] and [items] are [None] when the body lacks them. *)
Record t : Type := mk {
  order : option RawPurchaseOrder.t;
  items : option (list RawPurchaseItem.t)
}.
End PurchaseRequest.

(** An element of [processedItems]: [{...item, subtotal}]. *)
Module ProcessedItem.
Record t : Type := mk {
  item : RawPurchaseItem.t;
  subtotal : Double.t
}.
End ProcessedItem.

(** [orderData]; [expectedDeliveryDate] is [None] for [null]. *)
Module OrderData.
Record t : Type := mk {
  orderNumber : option string;
  stationId : string;
  supplierId : option string;
  userId : string;
  orderDate : Z;
  expectedDeliveryDate : option Z;
  status : option string;
  subtotal : Double.t;
  taxAmount : Double.t;
  totalAmount : Double.t;
  notes : string
}.
End OrderData.

(** [InsertPurchaseOrder] *)
Module InsertPurchaseOrder.
Record t : Type := mk {
  orderNumber : string;
  stationId : string;
  supplierId : string;
  userId : string;
  orderDate : Z;
  expectedDeliveryDate : option Z;
  status : option string;
  subtotal : Double.t;
  taxAmount : option Double.t;
  totalAmount : Double.t;
  notes : string
}.
End InsertPurchaseOrder.

(** [z.coerce.date()] on the [expectedDeliveryDate] of [orderData]: an ISO
    string is read back as its point in time, and [null], which the handler
    puts for a date the body leaves out, is coerced by [new Date(null)] to
    the epoch; [.optional()] lets only [undefined] through. *)
Definition coerce_date (date : option Z) : Z :=
  match date with
  | Some time => time
  | None => 0%Z
  end.

(** [insertPurchaseOrderSchema.parse(orderData)]: [orderNumber] and
    [supplierId] are the [notNull] columns the handler may leave undefined. *)
Definition insertPurchaseOrderSchema (orderData : OrderData.t) : option InsertPurchaseOrder.t :=
  match OrderData.orderNumber orderData, OrderData.supplierId orderData with
  | Some orderNumber, Some supplierId =>
      Some (InsertPurchaseOrder.mk orderNumber (OrderData.stationId orderData) supplierId
              (OrderData.userId orderData) (OrderData.orderDate orderData)
              (Some (coerce_date (OrderData.expectedDeliveryDate orderData)))
              (OrderData.status orderData)
              (OrderData.subtotal orderData) (Some (OrderData.taxAmount orderData))
              (OrderData.totalAmount orderData) (OrderData.notes orderData))
  | _, _ => None
  end.

(** [InsertPurchaseOrderItem] *)
Module InsertPurchaseOrderItem.
Record t : Type := mk {
  orderId : string;
  productId : string;
  tankId : option string;
  quantity : Double.t;
  unitPrice : Double.t;
  totalPrice : Double.t
}.
End InsertPurchaseOrderItem.

(** [insertPurchaseOrderItemSchema.parse({...item, orderId})]; the [subtotal]
    key of a processed item is no column and is dropped. *)
Definition insertPurchaseOrderItemSchema
    (processed : ProcessedItem.t) (orderId : string) : option InsertPurchaseOrderItem.t :=
  let item := ProcessedItem.item processed in
  match RawPurchaseItem.productId item, RawPurchaseItem.quantity item,
        RawPurchaseItem.unitPrice item, RawPurchaseItem.totalPrice item with
  | Some productId, Some quantity, Some unitPrice, Some totalPrice =>
      Some (InsertPurchaseOrderItem.mk orderId productId (RawPurchaseItem.tankId item)
              quantity unitPrice totalPrice)
  | _, _, _, _ => None
  end.

(** Modelled from the spec: [storage.getSettings] of the absent
    [server/storage.ts]: "a station's configured tax rate", the settings
    record of the station if there is one. *)
Definition getSettings (stationId : string) : M (option Settings.t) :=
  gets (fun s => settings s !! stationId).

(** Modelled from the spec: [storage.createSettings] of the absent
    [server/storage.ts]: "a zero-rate default settings record created on
    demand"; a second record for a station is a [ConflictError] ("unique
    constraint, e.g., duplicate settings"). *)
Definition createSettings (stationId : string) (v : Settings.t) : M Settings.t :=
  let* existing := getSettings stationId in
  match existing with
  | Some _ => throw (PersistenceError "duplicate key value violates unique constraint")
  | None =>
      modify (with_settings (<[stationId := v]>));;
      ret v
  end.

(** Modelled from the spec: [storage.createPurchaseOrder] of the absent
    [server/storage.ts]: "then persists the order and items"; [orderNumber]
    is declared unique and [status] defaults to ['pending']. *)
Definition createPurchaseOrder (v : InsertPurchaseOrder.t) : M PurchaseOrder.t :=
  let* taken := gets (fun s =>
      existsb (fun o => String.eqb (PurchaseOrder.orderNumber o) (InsertPurchaseOrder.orderNumber v))
        (purchaseOrders s)) in
  if taken : bool then throw (PersistenceError "duplicate key value violates unique constraint")
  else
    let* id := gen_random_uuid in
    let row := PurchaseOrder.mk id
        (InsertPurchaseOrder.orderNumber v)
        (InsertPurchaseOrder.stationId v)
        (InsertPurchaseOrder.supplierId v)
        (InsertPurchaseOrder.userId v)
        (InsertPurchaseOrder.orderDate v)
        (InsertPurchaseOrder.expectedDeliveryDate v)
        (default "pending" (InsertPurchaseOrder.status v))
        (InsertPurchaseOrder.subtotal v)
        (Double.or_zero (InsertPurchaseOrder.taxAmount v))
        (InsertPurchaseOrder.totalAmount v)
        (InsertPurchaseOrder.notes v) in
    modify (with_purchaseOrders (fun rows => rows ++ [row]));;
    ret row.

(** Modelled from the spec: [storage.createPurchaseOrderItem] of the absent
    [server/storage.ts]: "then persists the order and items". *)
Definition createPurchaseOrderItem (v : InsertPurchaseOrderItem.t) : M PurchaseOrderItem.t :=
  let* id := gen_random_uuid in
  let row := PurchaseOrderItem.mk id
      (InsertPurchaseOrderItem.orderId v)
      (InsertPurchaseOrderItem.productId v)
      (InsertPurchaseOrderItem.tankId v)
      (InsertPurchaseOrderItem.quantity v)
      (InsertPurchaseOrderItem.unitPrice v)
      (InsertPurchaseOrderItem.totalPrice v) in
  modify (with_purchaseOrderItems (fun rows => rows ++ [row]));;
  ret row.

(** [defaultSettings] *)
Definition defaultSettings : Settings.t :=
  Settings.mk (Some false) (Some Double.zero) "PKR".

(** [parseFloat(item.quantity) * parseFloat(item.unitPrice)] *)
Definition itemSubtotal (item : RawPurchaseItem.t) : Double.t :=
  Double.mul (Double.parseFloat (RawPurchaseItem.quantity item))
    (Double.parseFloat (RawPurchaseItem.unitPrice item)).

(** [let subtotal = 0; const processedItems = items.map(...)]: the running
    [subtotal] and the mapped items. *)
Definition process_items (items : list RawPurchaseItem.t) : Double.t * list ProcessedItem.t :=
  List.fold_left
    (fun (state : Double.t * list ProcessedItem.t) item =>
       (Double.add (fst state) (itemSubtotal item),
        snd state ++ [ProcessedItem.mk item (Double.toString (itemSubtotal item))]))
    items (Double.zero, []).

(** [currencyConfig.taxEnabled ? parseFloat(currencyConfig.taxRate || '0') : 0] *)
Definition purchase_taxRate (currencyConfig : Settings.t) : Double.t :=
  match Settings.taxEnabled currencyConfig with
  | Some true => Double.parseFloat (Double.or_zero (Settings.taxRate currencyConfig))
  | _ => Double.zero
  end.

(** [new Date(d).toISOString()] *)
Definition toISOString (d : RawDate) : M Z :=
  match d with
  | DateValid time => ret time
  | DateAbsent | DateInvalid => throw RangeError
  end.

Fixpoint create_order_items
    (createdOrder : PurchaseOrder.t) (processedItems : list ProcessedItem.t)
    (createdItems : list PurchaseOrderItem.t) : M (list PurchaseOrderItem.t) :=
  match processedItems with
  | [] => ret createdItems
  | item :: rest =>
      let* validatedItem :=
        parse (insertPurchaseOrderItemSchema item (PurchaseOrder.id createdOrder)) in
      let* createdItem := createPurchaseOrderItem validatedItem in
      create_order_items createdOrder rest (createdItems ++ [createdItem])
  end.

(** The [try] block, entered once [requireAuth] and [requireRole] have let
    the request through.  The generated [invoiceNumber] is never used, and
    [currencyConfig.code] is not a column of [settings], so the order takes
    the default currency. *)
Definition post_purchase_orders_try
    (user : AuthenticatedUser.t) (req : PurchaseRequest.t) : M Response :=
  if truthy (AuthenticatedUser.stationId user) then
    let userStationId := default "" (AuthenticatedUser.stationId user) in
    let* currencyConfig := getSettings userStationId in
    let* currencyConfig :=
      match currencyConfig with
      | Some config => ret config
      | None =>
          (* Create default settings if they don't exist *)
          createSettings userStationId defaultSettings
      end in
    (* Calculate subtotal, tax, and total *)
    let* items :=
      match PurchaseRequest.items req with
      | Some items => ret items
      | None => throw TypeError
      end in
    let subtotal := fst (process_items items) in
    let processedItems := snd (process_items items) in
    let taxRate := purchase_taxRate currencyConfig in
    let taxAmount := Double.mul subtotal taxRate in
    let totalAmount := Double.add subtotal taxAmount in
    let* order :=
      match PurchaseRequest.order req with
      | Some order => ret order
      | None => throw TypeError
      end in
    let* orderDate := toISOString (RawPurchaseOrder.orderDate order) in
    let* expectedDeliveryDate :=
      match RawPurchaseOrder.expectedDeliveryDate order with
      | DateAbsent => ret None
      | date => let* iso := toISOString date in ret (Some iso)
      end in
    let orderData := OrderData.mk
        (RawPurchaseOrder.orderNumber order)
        userStationId
        (RawPurchaseOrder.supplierId order)
        (AuthenticatedUser.id user)
        orderDate
        expectedDeliveryDate
        (RawPurchaseOrder.status order)
        (Double.toString subtotal)
        (Double.toString taxAmount)
        (Double.toString totalAmount)
        (default "" (RawPurchaseOrder.notes order)) in
    let* validatedOrder := parse (insertPurchaseOrderSchema orderData) in
    let* createdOrder := createPurchaseOrder validatedOrder in
    let* createdItems := create_order_items createdOrder processedItems [] in
    ret (mkResponse 201 (OrderBody createdOrder createdItems))
  else ret (mkResponse 400 (Message "User station not found.")).

Definition post_purchase_orders_catch (error : Error) : Response :=
  match error with
  | ZodError => mkResponse 400 ValidationFailed
  | _ => mkResponse 400 (Message "Invalid purchase order data")
  end.

Definition post_purchase_orders
    (user : AuthenticatedUser.t) (req : PurchaseRequest.t) (s : Store) : Store * Response :=
  match post_purchase_orders_try user req s with
  | (s', inr response) => (s', response)
  | (s', inl error) => (s', post_purchase_orders_catch error)
  end.

(** ** POST /api/journal-entries and the ledger form *)

(** [req.body] of POST /api/journal-entries. *)
Module JournalRequest.
Record t : Type := mk {
  lines : list JournalLine.t;
  totalDebit : option Double.t;
  totalCredit : option Double.t
}.
End JournalRequest.

(** The handler builds the entry it answers with from the body and writes
    nothing ("In production, this would create the journal entry and
    lines").  [year] is [new Date().getFullYear()], [now] is
    [Date.now().toString()]. *)
Definition post_journal_entries
    (user : AuthenticatedUser.t) (year now : string) (req : JournalRequest.t)
    (s : Store) : Store * Response :=
  let journalEntry := JournalEntry.mk
      now
      ("JE-" +:+ year +:+ "-" +:+ slice_last 6 now)
      (AuthenticatedUser.stationId user)
      (AuthenticatedUser.id user)
      (JournalRequest.lines req)
      (JournalRequest.totalDebit req)
      (JournalRequest.totalCredit req)
      false in
  (s, mkResponse 201 (JournalEntryBody journalEntry)).

(** What submitting the ledger form ends in: an error toast, or the call of
    [createJournalMutation.mutate] with the request body. *)
Inductive SubmitOutcome : Type :=
  | Toast (description : string)
  | Mutate (payload : JournalRequest.t).

(** [data.lines.reduce((sum, line) => sum + parseFloat(line.debit || '0'), 0)] *)
Definition totalDebits (lines : list JournalLine.t) : Double.t :=
  List.fold_left
    (fun sum line => Double.add sum (Double.parseFloat (Double.or_zero (JournalLine.debit line))))
    lines Double.zero.

Definition totalCredits (lines : list JournalLine.t) : Double.t :=
  List.fold_left
    (fun sum line => Double.add sum (Double.parseFloat (Double.or_zero (JournalLine.credit line))))
    lines Double.zero.

(** The filter of [invalidLines]. *)
Definition invalid_line (line : JournalLine.t) : bool :=
  let debit := Double.parseFloat (Double.or_zero (JournalLine.debit line)) in
  let credit := Double.parseFloat (Double.or_zero (JournalLine.credit line)) in
  (Double.gtb debit Double.zero && Double.gtb credit Double.zero)
  || (Double.eqb debit Double.zero && Double.eqb credit Double.zero).

(** [onJournalSubmit] of the general-ledger page. *)
Definition onJournalSubmit (lines : list JournalLine.t) : SubmitOutcome :=
  (* Validate that debits equal credits *)
  if Double.gtb (Double.abs (Double.sub (totalDebits lines) (totalCredits lines))) Double.cent
  then Toast "Total debits must equal total credits"
  else
    (* Validate that each line has either a debit or credit (but not both) *)
    if (0 <? length (List.filter invalid_line lines))%nat
    then Toast "Each line must have either a debit or credit amount, but not both"
    else
      (* Validate that all lines have accounts selected *)
      if (0 <? length (List.filter (fun line => String.eqb (JournalLine.accountId line) "") lines))%nat
      then Toast "All journal lines must have an account selected"
      else
        Mutate (JournalRequest.mk lines
                  (Some (Double.toString (totalDebits lines)))
                  (Some (Double.toString (totalCredits lines)))).

(** ** Vocabulary of the statements *)

(** The outstanding amount of a customer row as the handlers read it. *)
Definition customer_outstanding (c : Customer.t) : number :=
  parseFloat (or_zero (Customer.outstandingAmount c)).

Definition supplier_outstanding (c : Supplier.t) : number :=
  parseFloat (or_zero (Supplier.outstandingAmount c)).

(** The amount a credit sale adds to the customer's balance:
    [parseFloat(validatedTransaction.outstandingAmount || '0')]. *)
Definition sale_outstanding (v : InsertSalesTransaction.t) : number :=
  parseFloat (or_zero (InsertSalesTransaction.outstandingAmount v)).

(** The sale names a customer whose balance it raises. *)
Definition credit_with_customer (v : InsertSalesTransaction.t) : Prop :=
  InsertSalesTransaction.paymentMethod v = credit /\
  InsertSalesTransaction.customerId v <> "".

(** The movement [m] records the sale of [item] within transaction [t]. *)
Definition sale_movement (t : SalesTransaction.t) (item : RawSalesItem.t) (m : StockMovement.t) : Prop :=
  RawSalesItem.tankId item = Some (StockMovement.tankId m) /\
  StockMovement.movementType m = MoveOut /\
  RawSalesItem.quantity item = Some (StockMovement.quantity m) /\
  StockMovement.referenceType m = Some "sale" /\
  StockMovement.referenceId m = Some (SalesTransaction.id t).

(** [ledger tanks ms tanks']: the movements [ms], taken in order from the
    tanks [tanks], each start from the stock of their tank, take their
    quantity out of it and leave the tank with their [newStock]; [tanks'] are
    the tanks after the last of them. *)
Inductive ledger : gmap string Tank.t -> list StockMovement.t -> gmap string Tank.t -> Prop :=
  | ledger_nil tanks0 : ledger tanks0 [] tanks0
  | ledger_cons tanks0 m ms tanks' tank :
      tanks0 !! StockMovement.tankId m = Some tank ->
      StockMovement.previousStock m = parseFloat (or_zero (Tank.currentStock tank)) ->
      StockMovement.newStock m =
        num_sub (StockMovement.previousStock m) (StockMovement.quantity m) ->
      ledger (<[StockMovement.tankId m := set_currentStock (StockMovement.newStock m) tank]> tanks0)
        ms tanks' ->
      ledger tanks0 (m :: ms) tanks'.

(** The stored item [row] is the submitted [item], filed under the
    transaction [transactionId]. *)
Definition stored_as (transactionId : string) (item : RawSalesItem.t) (row : SalesTransactionItem.t) : Prop :=
  SalesTransactionItem.transactionId row = transactionId /\
  RawSalesItem.productId item = Some (SalesTransactionItem.productId row) /\
  RawSalesItem.tankId item = SalesTransactionItem.tankId row /\
  RawSalesItem.quantity item = Some (SalesTransactionItem.quantity row) /\
  RawSalesItem.unitPrice item = Some (SalesTransactionItem.unitPrice row) /\
  RawSalesItem.totalPrice item = Some (SalesTransactionItem.totalPrice row).

(** The items stored for a transaction. *)
Definition items_of (transactionId : string) (s : Store) : list SalesTransactionItem.t :=
  List.filter (fun i => String.eqb (SalesTransactionItem.transactionId i) transactionId)
    (salesTransactionItems s).



(** The station's configured tax rate: 0 when tax is disabled or no settings
    record exists. *)
Definition configured_taxRate (stationSettings : option Settings.t) : Double.t :=
  match stationSettings with
  | None => Double.zero
  | Some config =>
      match Settings.taxEnabled config with
      | Some true => Double.parseFloat (Double.or_zero (Settings.taxRate config))
      | _ => Double.zero
      end
  end.

(** The sums of the debits and of the credits of the lines, as JavaScript
    numbers have them: the amounts are added one after the other, in the
    order of the lines, to a sum that starts at 0, every sum rounded to the
    nearest binary64 value. *)
Fixpoint sum_debit_from (sum : Double.t) (lines : list JournalLine.t) : Double.t :=
  match lines with
  | [] => sum
  | line :: rest =>
      sum_debit_from
        (Double.add sum (Double.parseFloat (Double.or_zero (JournalLine.debit line)))) rest
  end.

Definition sum_debit (lines : list JournalLine.t) : Double.t :=
  sum_debit_from Double.zero lines.

Fixpoint sum_credit_from (sum : Double.t) (lines : list JournalLine.t) : Double.t :=
  match lines with
  | [] => sum
  | line :: rest =>
      sum_credit_from
        (Double.add sum (Double.parseFloat (Double.or_zero (JournalLine.credit line)))) rest
  end.

Definition sum_credit (lines : list JournalLine.t) : Double.t :=
  sum_credit_from Double.zero lines.

(** The sums of the debits and of the credits of the lines as exact
    numbers, when every amount is a finite number. *)
Fixpoint exact_sum_debit (lines : list JournalLine.t) : option Q :=
  match lines with
  | [] => Some 0%Q
  | line :: rest =>
      match Double.exact (Double.parseFloat (Double.or_zero (JournalLine.debit line))),
            exact_sum_debit rest with
      | Some amount, Some sum => Some (amount + sum)%Q
      | _, _ => None
      end
  end.

Fixpoint exact_sum_credit (lines : list JournalLine.t) : option Q :=
  match lines with
  | [] => Some 0%Q
  | line :: rest =>
      match Double.exact (Double.parseFloat (Double.or_zero (JournalLine.credit line))),
            exact_sum_credit rest with
      | Some amount, Some sum => Some (amount + sum)%Q
      | _, _ => None
      end
  end.

(** The tables that recording the items of a sale leaves alone. *)
Definition sale_frame (s s' : Store) : Prop :=
  customers s' = customers s /\ suppliers s' = suppliers s /\ settings s' = settings s /\
  salesTransactions s' = salesTransactions s /\ purchaseOrders s' = purchaseOrders s /\
  purchaseOrderItems s' = purchaseOrderItems s.

(** The tables other than the items of sales. *)
Definition items_frame (s s' : Store) : Prop :=
  customers s' = customers s /\ suppliers s' = suppliers s /\ tanks s' = tanks s /\
  settings s' = settings s /\ salesTransactions s' = salesTransactions s /\
  stockMovements s' = stockMovements s /\ purchaseOrders s' = purchaseOrders s /\
  purchaseOrderItems s' = purchaseOrderItems s.

(** The tables that recording a purchase order leaves alone. *)
Definition purchase_frame (s s' : Store) : Prop :=
  customers s' = customers s /\ suppliers s' = suppliers s /\ tanks s' = tanks s /\
  salesTransactions s' = salesTransactions s /\
  salesTransactionItems s' = salesTransactionItems s /\
  stockMovements s' = stockMovements s.

(** The id was handed out by [gen_random_uuid] on the way to the store
    [s]: it bears a number below the count of the rows created so far. *)
Definition issued (s : Store) (id : string) : Prop :=
  exists n, (n < nextId s)%nat /\ id = "id-" +:+ pretty n.

(** The ids of the rows are such as [gen_random_uuid] hands out: every row
    that carries a generated id carries one that was handed out.  A store
    without rows is so, and the handlers keep a store so. *)
Definition ids_issued (s : Store) : Prop :=
  Forall (fun t => issued s (SalesTransaction.id t)) (salesTransactions s) /\
  Forall (fun i => issued s (SalesTransactionItem.id i)) (salesTransactionItems s) /\
  Forall (fun m => issued s (StockMovement.id m)) (stockMovements s) /\
  Forall (fun o => issued s (PurchaseOrder.id o)) (purchaseOrders s) /\
  Forall (fun i => issued s (PurchaseOrderItem.id i)) (purchaseOrderItems s).

(** No row of the store carries the id. *)
Definition unused_id (s : Store) (id : string) : Prop :=
  Forall (fun t => SalesTransaction.id t <> id) (salesTransactions s) /\
  Forall (fun i => SalesTransactionItem.id i <> id) (salesTransactionItems s) /\
  Forall (fun m => StockMovement.id m <> id) (stockMovements s) /\
  Forall (fun o => PurchaseOrder.id o <> id) (purchaseOrders s) /\
  Forall (fun i => PurchaseOrderItem.id i <> id) (purchaseOrderItems s).

(** The settings the purchase handler works with and the store it leaves
    them in: those of the station, or the default record it creates. *)
Definition purchase_settings (stationId : string) (s : Store) : Store * Settings.t :=
  match settings s !! stationId with
  | Some config => (s, config)
  | None => (with_settings (<[stationId := defaultSettings]>) s, defaultSettings)
  end.

(** The [orderData] of the purchase handler. *)
Definition purchase_orderData
    (user : AuthenticatedUser.t) (stationId : string) (config : Settings.t)
    (items : list RawPurchaseItem.t) (order : RawPurchaseOrder.t)
    (orderDate : Z) (expectedDeliveryDate : option Z) : OrderData.t :=
  let subtotal := fst (process_items items) in
  let taxAmount := Double.mul subtotal (purchase_taxRate config) in
  OrderData.mk
    (RawPurchaseOrder.orderNumber order) stationId (RawPurchaseOrder.supplierId order)
    (AuthenticatedUser.id user) orderDate expectedDeliveryDate
    (RawPurchaseOrder.status order)
    (Double.toString subtotal) (Double.toString taxAmount)
    (Double.toString (Double.add subtotal taxAmount))
    (default "" (RawPurchaseOrder.notes order)).

(** The end of the purchase handler: the order is validated and stored,
    then its items. *)
Definition purchase_store_order
    (orderData : OrderData.t) (items : list RawPurchaseItem.t) (s0 : Store)
    : Store * (Error + Response) :=
  match insertPurchaseOrderSchema orderData with
  | None => (s0, inl ZodError)
  | Some validatedOrder =>
      match createPurchaseOrder validatedOrder s0 with
      | (s1, inl e) => (s1, inl e)
      | (s1, inr createdOrder) =>
          match create_order_items createdOrder (snd (process_items items)) [] s1 with
          | (s2, inl e) => (s2, inl e)
          | (s2, inr createdItems) =>
              (s2, inr (mkResponse 201 (OrderBody createdOrder createdItems)))
          end
      end
  end.

(** ** The sentences of the specification that the handlers do not meet,
    as they are written *)

(** Every request whose validated transaction is a credit sale raises the
    balance of its customer by the outstanding amount of the sale. *)
Definition every_credit_sale_raises_outstanding
    (now : string) (req : SalesRequest.t) (s : Store) : Prop :=
  forall v c,
    insertSalesTransactionSchema (SalesRequest.transaction req) (sale_invoiceNumber now) = Some v ->
    InsertSalesTransaction.paymentMethod v = credit ->
    customers s !! InsertSalesTransaction.customerId v = Some c ->
    exists c',
      customers (fst (post_sales now req s)) !! InsertSalesTransaction.customerId v = Some c' /\
      num_equiv (customer_outstanding c') (num_add (customer_outstanding c) (sale_outstanding v)).

(** Every item of a request that specifies a tank gets a stock movement. *)
Definition every_tank_item_has_a_movement
    (now : string) (req : SalesRequest.t) (s : Store) : Prop :=
  forall items item,
    SalesRequest.items req = Some items ->
    In item items ->
    specifies_tank (RawSalesItem.tankId item) = true ->
    exists m,
      In m (stockMovements (fst (post_sales now req s))) /\
      RawSalesItem.tankId item = Some (StockMovement.tankId m) /\
      StockMovement.movementType m = MoveOut.

(** A request without items is refused and creates no sales transaction. *)
Definition empty_sale_rejected
    (now : string) (transaction : RawSalesTransaction.t) (s : Store) : Prop :=
  let result := post_sales now (SalesRequest.mk transaction (Some [])) s in
  status (snd result) = 400%nat /\ salesTransactions (fst result) = salesTransactions s.

(** Creating an entry whose lines do not balance fails. *)
Definition unbalanced_entry_fails
    (user : AuthenticatedUser.t) (year now : string) (req : JournalRequest.t) (s : Store) : Prop :=
  Double.eqb (sum_debit (JournalRequest.lines req)) (sum_credit (JournalRequest.lines req)) = false ->
  status (snd (post_journal_entries user year now req s)) <> 201%nat.



(** The request creates the purchase order and its items and nothing
    else: every other table is as it was. *)
Definition creates_only_order_and_items
    (user : AuthenticatedUser.t) (req : PurchaseRequest.t) (s : Store) : Prop :=
  let s' := fst (post_purchase_orders user req s) in
  customers s' = customers s /\ suppliers s' = suppliers s /\ tanks s' = tanks s /\
  settings s' = settings s /\ salesTransactions s' = salesTransactions s /\
  salesTransactionItems s' = salesTransactionItems s /\ stockMovements s' = stockMovements s.

(** After the request the stored items of the transaction are the
    submitted ones. *)
Definition put_stores_submitted_items
    (user : AuthenticatedUser.t) (transactionId : string) (req : SalesRequest.t) (s : Store) : Prop :=
  forall items,
    SalesRequest.items req = Some items ->
    Forall2 (stored_as transactionId) items
      (items_of transactionId (fst (put_sales user transactionId req s))).

(** A customer is deleted only when the outstanding amount is 0 or unset. *)
Definition deleted_only_when_zero_or_unset (id : string) (s : Store) : Prop :=
  forall c,
    customers s !! id = Some c ->
    customers (fst (delete_customer id s)) !! id = None ->
    Customer.outstandingAmount c = None \/ num_equiv (customer_outstanding c) zero.

(** ** Sample data *)

Module Sample.

Definition now : string := "1700000123456".

Definition acme : Customer.t := Customer.mk "Acme Transport" (Some (Num 15000)).

Definition petrol_tank : Tank.t := Tank.mk "S" "P" (Some (Num 100)).

(** One station [S] with a customer [C], a supplier [V] and a tank [T]
    holding 100. *)
Definition store : Store :=
  mkStore (<["C" := acme]> ∅)
          (<["V" := Supplier.mk "Fuel Depot" (Some (Num 0))]> ∅)
          (<["T" := petrol_tank]> ∅)
          ∅ [] [] [] [] [] 0.

(** The credit sale of the specification's scenario: 100.00 outstanding. *)
Definition credit_sale : RawSalesTransaction.t :=
  RawSalesTransaction.mk (Some "S") (Some "C") (Some "U") (Some "credit")
    (Some (Num 100)) (Some (Num 0)) (Some (Num 100)) (Some (Num 0)) (Some (Num 100)).

Definition cash_sale : RawSalesTransaction.t :=
  RawSalesTransaction.mk (Some "S") (Some "C") (Some "U") (Some "cash")
    (Some (Num 100)) (Some (Num 0)) (Some (Num 100)) (Some (Num 100)) (Some (Num 0)).

(** 10 litres at 10.00 from tank [T]. *)
Definition fuel : RawSalesItem.t :=
  RawSalesItem.mk (Some "P") (Some "T") (Some (Num 10)) (Some (Num 10)) (Some (Num 100)).

(** A lubricant: no tank. *)
Definition lubricant : RawSalesItem.t :=
  RawSalesItem.mk (Some "L") None (Some (Num 2)) (Some (Num 25)) (Some (Num 50)).

(** An item without its product. *)
Definition malformed : RawSalesItem.t :=
  RawSalesItem.mk None None (Some (Num 1)) (Some (Num 1)) (Some (Num 1)).

Definition cashier : AuthenticatedUser.t := AuthenticatedUser.mk "U" "cashier" (Some "S").

Definition manager : AuthenticatedUser.t := AuthenticatedUser.mk "M" "manager" (Some "S").

(** The credit sale of 10 litres is recorded: the store and the answer. *)
Definition sale_request : SalesRequest.t := SalesRequest.mk credit_sale (Some [fuel]).

Definition store_after_sale : Store := fst (post_sales now sale_request store).

Definition sale_response : Response := snd (post_sales now sale_request store).

(** The same sale behind an item that the schema refuses. *)
Definition failing_request : SalesRequest.t :=
  SalesRequest.mk credit_sale (Some [malformed; fuel]).

(** Edits of the recorded sale, whose id is [id-0]: two items in place of
    the one, and two items of which the second lacks its product. *)
Definition edit_request : SalesRequest.t :=
  SalesRequest.mk credit_sale (Some [lubricant; fuel]).

Definition failing_edit : SalesRequest.t :=
  SalesRequest.mk credit_sale (Some [fuel; malformed]).



Definition order : RawPurchaseOrder.t :=
  RawPurchaseOrder.mk (Some "PO-1") (Some "V") (DateValid 1700000000000) DateAbsent None None.

Definition delivery : RawPurchaseItem.t :=
  RawPurchaseItem.mk (Some "P") (Some "T") (Some (Double.of_Z 1000))
    (Some (Double.of_decimal 25 1)) (Some (Double.of_Z 2500)).

Definition additive : RawPurchaseItem.t :=
  RawPurchaseItem.mk (Some "A") None (Some (Double.of_Z 4))
    (Some (Double.of_decimal 125 1)) (Some (Double.of_Z 50)).

(** A station that charges tax at the configured rate 17. *)
Definition taxed_store : Store :=
  with_settings (<["S" := Settings.mk (Some true) (Some (Double.of_Z 17)) "PKR"]>) store.


Definition purchase_request : PurchaseRequest.t :=
  PurchaseRequest.mk (Some order) (Some [delivery; additive]).

Definition unbalanced_lines : list JournalLine.t :=
  [JournalLine.mk "1001" (Some (Double.of_Z 100)) (Some (Double.of_Z 0));
   JournalLine.mk "4001" (Some (Double.of_Z 0)) (Some (Double.of_Z 50))].

Definition balanced_lines : list JournalLine.t :=
  [JournalLine.mk "1001" (Some (Double.of_Z 100)) (Some (Double.of_Z 0));
   JournalLine.mk "4001" (Some (Double.of_Z 0)) (Some (Double.of_Z 100))].

(** Lines that differ by half a cent. *)
Definition nearly_balanced_lines : list JournalLine.t :=
  [JournalLine.mk "1001" (Some (Double.of_Z 100)) (Some (Double.of_Z 0));
   JournalLine.mk "4001" (Some (Double.of_Z 0)) (Some (Double.of_decimal 100005 3))].

(** Lines of 100.01 against 100: a cent apart as decimals. *)
Definition lines_a_cent_apart : list JournalLine.t :=
  [JournalLine.mk "1001" (Some (Double.of_decimal 10001 2)) (Some (Double.of_Z 0));
   JournalLine.mk "4001" (Some (Double.of_Z 0)) (Some (Double.of_Z 100))].

(** Debits of 10000000000000000 and 0.02 against a credit of
    10000000000000000. *)
Definition lines_of_large_amounts : list JournalLine.t :=
  [JournalLine.mk "1001" (Some (Double.of_Z 10000000000000000)) (Some (Double.of_Z 0));
   JournalLine.mk "1002" (Some (Double.of_decimal 2 2)) (Some (Double.of_Z 0));
   JournalLine.mk "4001" (Some (Double.of_Z 0)) (Some (Double.of_Z 10000000000000000))].

Definition unbalanced_entry : JournalRequest.t :=
  JournalRequest.mk unbalanced_lines (Some (Double.of_Z 100)) (Some (Double.of_Z 50)).

(** A customer who has paid 50 more than was owed. *)
Definition overpaid_store : Store :=
  with_customers (<["D" := Customer.mk "Dawn Logistics" (Some (Num (-50)))]>) store.

(** A supplier who was paid 50 more than was owed. *)
Definition overpaid_suppliers : Store :=
  with_suppliers (<["W" := Supplier.mk "West Oil" (Some (Num (-50)))]>) store.

End Sample.

(** * Further handlers and their use *)

(** ** The lines of the ledger form *)

(** The line that [addJournalLine] appends and that the form starts with:
    [{ accountId: "", debit: "0", credit: "0", notes: "" }]. *)
Definition blankJournalLine : JournalLine.t :=
  JournalLine.mk "" (Some Double.zero) (Some Double.zero).

(** The [defaultValues] of the lines of the form. *)
Definition defaultJournalLines : list JournalLine.t :=
  [blankJournalLine; blankJournalLine].

(** [addJournalLine], on the current lines of the form. *)
Definition addJournalLine (currentLines : list JournalLine.t) : list JournalLine.t :=
  currentLines ++ [blankJournalLine].

(** [lines.filter((_, i) => i !== index)], the positions counted from
    [position]. *)
Fixpoint without_index {A : Type} (index position : nat) (lines : list A) : list A :=
  match lines with
  | [] => []
  | line :: rest =>
      if Nat.eqb position index
      then without_index index (S position) rest
      else line :: without_index index (S position) rest
  end.

(** [removeJournalLine], on the current lines of the form. *)
Definition removeJournalLine (index : nat) (currentLines : list JournalLine.t) : list JournalLine.t :=
  if (2 <? length currentLines)%nat
  then without_index index 0 currentLines
  else currentLines.

(** What the user does to the lines: the button "Add Line", or the bin of
    the line at some position. *)
Inductive LineAction : Type :=
  | AddLine
  | RemoveLine (index : nat).

Definition apply_action (lines : list JournalLine.t) (action : LineAction) : list JournalLine.t :=
  match action with
  | AddLine => addJournalLine lines
  | RemoveLine index => removeJournalLine index lines
  end.

(** The [lines] of [journalEntrySchema], which the form checks before it
    calls [onJournalSubmit]: at least two lines, each with an [accountId] of
    at least one character; [debit] and [credit] are any strings. *)
Definition journalEntrySchema_lines (lines : list JournalLine.t) : bool :=
  (2 <=? length lines)%nat &&
  forallb (fun line => (1 <=? String.length (JournalLine.accountId line))%nat) lines.

(** The colour of the "Difference" under the lines: green when
    [Math.abs(debits - credits) < 0.01]. *)
Definition difference_is_green (lines : list JournalLine.t) : bool :=
  Double.ltb (Double.abs (Double.sub (totalDebits lines) (totalCredits lines))) Double.cent.

(** ** GET and POST /api/settings/:stationId *)

Inductive CurrencyCode : Type := PKR | INR | USD | EUR | GBP | AED | SAR | CNY.

(** [currencyCodeEnum] *)
Definition currencyCodeEnum (s : string) : option CurrencyCode :=
  if String.eqb s "PKR" then Some PKR
  else if String.eqb s "INR" then Some INR
  else if String.eqb s "USD" then Some USD
  else if String.eqb s "EUR" then Some EUR
  else if String.eqb s "GBP" then Some GBP
  else if String.eqb s "AED" then Some AED
  else if String.eqb s "SAR" then Some SAR
  else if String.eqb s "CNY" then Some CNY
  else None.

(** [req.body] of POST /api/settings/:stationId.  The station the body may
    name is set aside by the handler ([const { stationId: _, ...bodyData }]);
    the free-text columns of the company are left out. *)
Module RawSettings.
Record t : Type := mk {
  stationId : option string;
  taxEnabled : option bool;
  taxRate : option Double.t;
  currencyCode : option string
}.
End RawSettings.

(** [InsertSettings] *)
Module InsertSettings.
Record t : Type := mk {
  stationId : string;
  taxEnabled : option bool;
  taxRate : option Double.t;
  currencyCode : option string
}.
End InsertSettings.

(** [insertSettingsSchema.parse({ ...bodyData, stationId })]: every column but
    [stationId] has a default or may be null; a currency code must be a
    member of [currencyCodeEnum]. *)
Definition insertSettingsSchema (bodyData : RawSettings.t) (stationId : string)
    : option InsertSettings.t :=
  match RawSettings.currencyCode bodyData with
  | Some code =>
      match currencyCodeEnum code with
      | Some _ =>
          Some (InsertSettings.mk stationId (RawSettings.taxEnabled bodyData)
                  (RawSettings.taxRate bodyData) (Some code))
      | None => None
      end
  | None =>
      Some (InsertSettings.mk stationId (RawSettings.taxEnabled bodyData)
              (RawSettings.taxRate bodyData) None)
  end.

(** Modelled from the spec: the row that the absent [server/storage.ts]
    inserts for validated settings, the columns left out taking the defaults
    of [shared/schema.ts]: tax disabled, rate ['0'], currency ['PKR']. *)
Definition settings_row (v : InsertSettings.t) : Settings.t :=
  Settings.mk
    (Some (default false (InsertSettings.taxEnabled v)))
    (Double.or_zero (InsertSettings.taxRate v))
    (default "PKR" (InsertSettings.currencyCode v)).

(** What the settings routes answer with: a settings record, the conflict
    answer [{ message, settings }] with the settings in place (its message
    is fixed and is left out), or a message. *)
Inductive SettingsBody : Type :=
  | SettingsRecord (stationId : string) (record : Settings.t)
  | SettingsConflict (existing : Settings.t)
  | SettingsMessage (text : string).

Record SettingsResponse : Type := mkSettingsResponse {
  settings_status : nat;
  settings_body : SettingsBody
}.

(** GET /api/settings/:stationId, entered once [requireAuth] and
    [requireStationAccess] have let the request through. *)
Definition get_settings (stationId : string) (s : Store) : Store * SettingsResponse :=
  match getSettings stationId s with
  | (s', inr None) =>
      (* Return default settings if none exist *)
      (s', mkSettingsResponse 200
             (SettingsRecord stationId (Settings.mk (Some false) (Some Double.zero) "PKR")))
  | (s', inr (Some record)) => (s', mkSettingsResponse 200 (SettingsRecord stationId record))
  | (s', inl _) => (s', mkSettingsResponse 500 (SettingsMessage "Failed to fetch settings"))
  end.

(** [haystack.includes(needle)] *)
Fixpoint includes (needle haystack : string) : bool :=
  String.prefix needle haystack ||
  match haystack with
  | EmptyString => false
  | String _ rest => includes needle rest
  end.

(** [error.message] *)
Definition error_message (error : Error) : string :=
  match error with
  | PersistenceError message => message
  | ZodError => "ZodError"
  | TypeError => "TypeError"
  | RangeError => "RangeError"
  end.

(** The inner [try] and [catch] of POST /api/settings/:stationId: a
    violation of the unique constraint is answered 409 with the settings in
    place, any other error is thrown on. *)
Definition create_settings_or_conflict (stationId : string) (validatedData : InsertSettings.t)
    : M SettingsResponse :=
  fun s =>
    match createSettings stationId (settings_row validatedData) s with
    | (s', inr record) => (s', inr (mkSettingsResponse 201 (SettingsRecord stationId record)))
    | (s', inl error) =>
        (* Handle unique constraint violation - settings already exist *)
        if includes "duplicate" (error_message error) || includes "unique" (error_message error)
        then
          match getSettings stationId s' with
          | (s'', inr (Some existingSettings)) =>
              (s'', inr (mkSettingsResponse 409 (SettingsConflict existingSettings)))
          | (s'', inr None) => (s'', inl error)
          | (s'', inl error') => (s'', inl error')
          end
        else (s', inl error)
    end.

(** POST /api/settings/:stationId, entered once [requireAuth], [requireRole]
    and [requireStationAccess] have let the request through. *)
Definition post_settings (stationId : string) (body : RawSettings.t) (s : Store)
    : Store * SettingsResponse :=
  match (let* validatedData := parse (insertSettingsSchema body stationId) in
         create_settings_or_conflict stationId validatedData) s with
  | (s', inr response) => (s', response)
  | (s', inl _) => (s', mkSettingsResponse 400 (SettingsMessage "Invalid settings data"))
  end.

(** ** POST /api/auth/signup and POST /api/auth/login *)

(** [userRoleEnum] *)
Definition userRoleEnum (s : string) : bool :=
  String.eqb s "admin" || String.eqb s "manager" || String.eqb s "cashier".

(** A row of [users]. *)
Module User.
Record t : Type := mk {
  id : string;
  username : string;
  password : string;
  fullName : string;
  role : string;
  stationId : option string;
  isActive : option bool
}.
End User.

(** The table [users], keyed by [username], which the schema declares
    unique, and the count of the rows created so far. *)
Record UserDb : Type := mkUserDb {
  users : gmap string User.t;
  nextUserId : nat
}.

(** [req.body] of POST /api/auth/signup. *)
Module RawUser.
Record t : Type := mk {
  username : option string;
  password : option string;
  fullName : option string;
  role : option string;
  stationId : option string;
  isActive : option bool
}.
End RawUser.

(** [InsertUser] *)
Module InsertUser.
Record t : Type := mk {
  username : string;
  password : string;
  fullName : string;
  role : option string;
  stationId : option string;
  isActive : option bool
}.
End InsertUser.

(** [insertUserSchema.parse(req.body)]: [username], [password] and
    [fullName] are required, a [role] must be a member of [userRoleEnum]. *)
Definition insertUserSchema (body : RawUser.t) : option InsertUser.t :=
  match RawUser.username body, RawUser.password body, RawUser.fullName body with
  | Some username, Some password, Some fullName =>
      match RawUser.role body with
      | Some role =>
          if userRoleEnum role
          then Some (InsertUser.mk username password fullName (Some role)
                       (RawUser.stationId body) (RawUser.isActive body))
          else None
      | None =>
          Some (InsertUser.mk username password fullName None
                  (RawUser.stationId body) (RawUser.isActive body))
      end
  | _, _, _ => None
  end.

(** The user without its password, as the answers carry it. *)
Module SafeUser.
Record t : Type := mk {
  id : string;
  username : string;
  fullName : string;
  role : string;
  stationId : option string;
  isActive : option bool
}.
End SafeUser.

(** [authUser] of the login: the [AuthenticatedUser] in full. *)
Module AuthUser.
Record t : Type := mk {
  id : string;
  username : string;
  fullName : string;
  role : string;
  stationId : option string;
  isGoogleAuth : bool
}.
End AuthUser.

Inductive AuthBody : Type :=
  | AuthMessage (text : string)
  | SignedUp (user : SafeUser.t) (message : string)
  | LoggedIn (user : AuthUser.t) (token : string).

Record AuthResponse : Type := mkAuthResponse {
  auth_status : nat;
  auth_body : AuthBody
}.

(** [req.body] of POST /api/auth/login.  A body without [username] is left
    out: the sources do not say what the storage does with an undefined
    name. *)
Module Credentials.
Record t : Type := mk {
  username : string;
  password : option string
}.
End Credentials.

(** Modelled from the spec: [storage.getUserByUsername] of the absent
    [server/storage.ts], the user of that name if there is one. *)
Definition getUserByUsername (username : string) (db : UserDb) : option User.t :=
  users db !! username.

(** Modelled from the spec: [storage.createUser] of the absent
    [server/storage.ts], the insert of the row with a generated id; [role]
    defaults to ['cashier']; a second user of the same name is refused by
    the unique constraint. *)
Definition createUser (v : InsertUser.t) (db : UserDb) : UserDb * option User.t :=
  match users db !! InsertUser.username v with
  | Some _ => (db, None)
  | None =>
      let row := User.mk ("id-" +:+ pretty (nextUserId db))
          (InsertUser.username v) (InsertUser.password v) (InsertUser.fullName v)
          (default "cashier" (InsertUser.role v))
          (InsertUser.stationId v)
          (Some (default true (InsertUser.isActive v))) in
      (mkUserDb (<[InsertUser.username v := row]> (users db)) (S (nextUserId db)), Some row)
  end.

Definition safeUser (user : User.t) : SafeUser.t :=
  SafeUser.mk (User.id user) (User.username user) (User.fullName user) (User.role user)
    (User.stationId user) (User.isActive user).

Section Auth.

(** [bcrypt.hash(password, 10)], [bcrypt.compare(password, hash)] and
    [generateToken] of [./auth], which the handlers take from outside. *)
Variable bcrypt_hash : string -> string.
Variable bcrypt_compare : string -> string -> bool.
Variable generateToken : AuthUser.t -> string.

(** POST /api/auth/signup *)
Definition signup (body : RawUser.t) (db : UserDb) : UserDb * AuthResponse :=
  match insertUserSchema body with
  | None => (db, mkAuthResponse 400 (AuthMessage "Invalid user data"))
  | Some validatedData =>
      let hashedPassword := bcrypt_hash (InsertUser.password validatedData) in
      (* Check if username already exists *)
      match getUserByUsername (InsertUser.username validatedData) db with
      | Some _ => (db, mkAuthResponse 400 (AuthMessage "Username already exists"))
      | None =>
          (* Admin users are automatically active, others need approval *)
          let isActive := bool_decide (InsertUser.role validatedData = Some "admin") in
          let userData := InsertUser.mk
              (InsertUser.username validatedData) hashedPassword
              (InsertUser.fullName validatedData) (InsertUser.role validatedData)
              (InsertUser.stationId validatedData) (Some isActive) in
          match createUser userData db with
          | (db', Some user) =>
              (db', mkAuthResponse 201
                      (SignedUp (safeUser user)
                         (if isActive
                          then "Admin account created successfully. You can now login."
                          else "Account created successfully. Please wait for admin approval.")))
          | (db', None) => (db', mkAuthResponse 400 (AuthMessage "Invalid user data"))
          end
      end
  end.

(** [!user.isActive && user.role !== 'admin'] *)
Definition pending_approval (user : User.t) : bool :=
  negb (default false (User.isActive user)) && negb (String.eqb (User.role user) "admin").

(** POST /api/auth/login.  [bcrypt.compare] throws when it is given no
    password. *)
Definition login (body : Credentials.t) (db : UserDb) : UserDb * AuthResponse :=
  match getUserByUsername (Credentials.username body) db with
  | None => (db, mkAuthResponse 401 (AuthMessage "Invalid credentials"))
  | Some user =>
      (* Admin users can always login, others need approval *)
      if pending_approval user
      then (db, mkAuthResponse 401
                  (AuthMessage "Account pending approval. Please contact administrator."))
      else
        match Credentials.password body with
        | None => (db, mkAuthResponse 500 (AuthMessage "Internal server error"))
        | Some password =>
            if bcrypt_compare password (User.password user)
            then
              let authUser := AuthUser.mk (User.id user) (User.username user)
                  (User.fullName user) (User.role user)
                  (match User.stationId user with
                   | Some stationId => if String.eqb stationId "" then None else Some stationId
                   | None => None
                   end)
                  false in
              (db, mkAuthResponse 200 (LoggedIn authUser (generateToken authUser)))
            else (db, mkAuthResponse 401 (AuthMessage "Invalid credentials"))
        end
  end.

End Auth.

(** ** More sample data *)

Module Sample2.

(** A hash that keeps the password behind a salt, and its comparison. *)
Definition toy_hash (password : string) : string := "$2b$10$" +:+ password.

Definition toy_compare (password hash : string) : bool := String.eqb ("$2b$10$" +:+ password) hash.

Definition toy_token (user : AuthUser.t) : string := "token-" +:+ AuthUser.id user.

Definition no_users : UserDb := mkUserDb ∅ 0.

Definition admin_signup : RawUser.t :=
  RawUser.mk (Some "root") (Some "secret") (Some "Station Owner") (Some "admin") None None.

Definition cashier_signup : RawUser.t :=
  RawUser.mk (Some "ali") (Some "petrol") (Some "Ali Khan") None (Some "S") (Some true).

Definition taxed_settings : RawSettings.t :=
  RawSettings.mk (Some "elsewhere") (Some true) (Some (Double.of_decimal 17 2)) (Some "PKR").

Definition three_lines : list JournalLine.t :=
  [JournalLine.mk "1001" (Some (Double.of_Z 100)) (Some (Double.of_Z 0));
   JournalLine.mk "4001" (Some (Double.of_Z 0)) (Some (Double.of_Z 60));
   JournalLine.mk "4002" (Some (Double.of_Z 0)) (Some (Double.of_Z 40))].

(** A line whose debit does not read as a number. *)
Definition lines_with_unreadable_debit : list JournalLine.t :=
  [JournalLine.mk "1001" (Some Double.NaN) (Some (Double.of_Z 0));
   JournalLine.mk "4001" (Some (Double.of_Z 0)) (Some (Double.of_Z 50))].

(** Lines of 0.02 against 0.01, whose computed difference is 0.01. *)
Definition lines_of_difference_a_cent : list JournalLine.t :=
  [JournalLine.mk "1001" (Some (Double.of_decimal 2 2)) (Some (Double.of_Z 0));
   JournalLine.mk "4001" (Some (Double.of_Z 0)) (Some (Double.of_decimal 1 2))].

(** A manager of station [S2] and a cashier who moves sales there. *)
Definition other_manager : AuthenticatedUser.t := AuthenticatedUser.mk "N" "manager" (Some "S2").

Definition move_to_S2 : RawSalesTransaction.t :=
  RawSalesTransaction.mk (Some "S2") None None None None None None None None.

Definition incomplete_delivery : RawPurchaseItem.t :=
  RawPurchaseItem.mk (Some "P") (Some "T") (Some (Double.of_Z 10)) (Some (Double.of_Z 3)) None.

End Sample2.

(** ** Running the storage calls *)

Ltac run :=
  repeat (progress (unfold bind, ret, throw, gets, modify, parse, gen_random_uuid in *; simpl in *)
          || case_match || simplify_eq).

(** Steps of the proofs that the handlers keep [ids_issued]: a table that
    was there keeps its ids under a larger count, and a row added under the
    id that the count names is below the next count. *)

(** The rows that were there keep ids that were handed out, the count only
    growing, and a new row takes the id of the count. *)
Ltac ids_kept :=
  match goal with
  | H : Forall _ ?rows |- Forall _ ?rows =>
      eapply Forall_impl; [exact H|];
      let n := fresh "n" in
      let Hn := fresh "Hn" in
      intros ? (n & Hn & ->); exists n; split; [simpl in *; lia|reflexivity]
  end.

Ltac ids_new :=
  repeat constructor; simpl; eexists; (split; [|reflexivity]); simpl; lia.

Ltac ids_step :=
  unfold ids_issued, issued in *; simpl in *;
  repeat match goal with H : _ /\ _ |- _ => destruct H end;
  repeat split; rewrite ?Forall_app; repeat split;
  first [assumption | ids_kept | ids_new].

(** ** POST /api/sales *)

Lemma sale_frame_refl s : sale_frame s s.
Proof. repeat split. Qed.

Lemma sale_frame_trans s1 s2 s3 : sale_frame s1 s2 -> sale_frame s2 s3 -> sale_frame s1 s3.
Proof. unfold sale_frame. intuition congruence. Qed.

Lemma create_sale_item_frame v t item s s' out :
  create_sale_item v t item s = (s', out) -> sale_frame s s'.
Proof.
  unfold create_sale_item, createSalesTransactionItem, createStockMovement, sale_frame.
  intros H. run; auto 10.
Qed.

Lemma create_sale_items_frame v t items :
  forall acc s s' out,
    create_sale_items v t items acc s = (s', out) -> sale_frame s s'.
Proof.
  induction items as [|item rest IH]; intros acc s s' out H; simpl in H.
  - unfold ret in H. simplify_eq. apply sale_frame_refl.
  - unfold bind in H.
    destruct (create_sale_item v t item s) as [s1 [e|row]] eqn:Hitem.
    + simplify_eq. eapply create_sale_item_frame; eauto.
    + eapply sale_frame_trans; [eapply create_sale_item_frame; eauto | eapply IH; eauto].
Qed.

(** What the body of the loop does for an item it accepts. *)
Lemma create_sale_item_ok v t item s s' row :
  create_sale_item v t item s = (s', inr row) ->
  stored_as (SalesTransaction.id t) item row /\
  salesTransactionItems s' = salesTransactionItems s ++ [row] /\
  if specifies_tank (RawSalesItem.tankId item) then
    exists m tank,
      sale_movement t item m /\
      stockMovements s' = stockMovements s ++ [m] /\
      tanks s !! StockMovement.tankId m = Some tank /\
      StockMovement.previousStock m = parseFloat (or_zero (Tank.currentStock tank)) /\
      StockMovement.newStock m = num_sub (StockMovement.previousStock m) (StockMovement.quantity m) /\
      tanks s' = <[StockMovement.tankId m := set_currentStock (StockMovement.newStock m) tank]> (tanks s)
  else stockMovements s' = stockMovements s /\ tanks s' = tanks s.
Proof.
  unfold create_sale_item, insertSalesTransactionItemSchema, salesTransactionItem_columns,
    createSalesTransactionItem, createStockMovement, stored_as, sale_movement.
  intros H. destruct item as [productId tankId quantity unitPrice totalPrice].
  run; try congruence; try discriminate.
  all: repeat split; eauto.
  all: eexists _, _; simpl; repeat split; eauto.
Qed.

Lemma ledger_app tanks0 ms tanks1 ms' tanks2 :
  ledger tanks0 ms tanks1 -> ledger tanks1 ms' tanks2 -> ledger tanks0 (ms ++ ms') tanks2.
Proof.
  induction 1 as [|tanks0 m ms tanks1 tank Htank Hprev Hnew Hrest IH]; intros Hmore; simpl.
  - exact Hmore.
  - econstructor; eauto.
Qed.

(** What the loop does when it accepts every item. *)
Lemma create_sale_items_ok v t items :
  forall acc s s' created,
    create_sale_items v t items acc s = (s', inr created) ->
    exists rows ms,
      created = acc ++ rows /\
      salesTransactionItems s' = salesTransactionItems s ++ rows /\
      Forall2 (stored_as (SalesTransaction.id t)) items rows /\
      stockMovements s' = stockMovements s ++ ms /\
      Forall2 (sale_movement t)
        (List.filter (fun item => specifies_tank (RawSalesItem.tankId item)) items) ms /\
      ledger (tanks s) ms (tanks s').
Proof.
  induction items as [|item rest IH]; intros acc s s' created H; simpl in H.
  - unfold ret in H. simplify_eq. exists [], []. simpl.
    rewrite !app_nil_r. repeat split; constructor.
  - unfold bind in H.
    destruct (create_sale_item v t item s) as [s1 [e|row]] eqn:Hitem; [discriminate|].
    apply create_sale_item_ok in Hitem as (Hrow & Hrows & Hmove).
    apply IH in H as (rows & ms & -> & Hrows' & Hall & Hms & Hmoves & Hledger).
    simpl. destruct (specifies_tank (RawSalesItem.tankId item)).
    + destruct Hmove as (m & tank & Hm & Hms1 & Htank & Hprev & Hnew & Htanks).
      exists (row :: rows), (m :: ms). repeat split.
      * by rewrite <- app_assoc.
      * rewrite Hrows', Hrows, <- app_assoc. reflexivity.
      * by constructor.
      * rewrite Hms, Hms1, <- app_assoc. reflexivity.
      * by constructor.
      * econstructor; eauto. rewrite <- Htanks. exact Hledger.
    + destruct Hmove as (Hms1 & Htanks).
      exists (row :: rows), ms. repeat split.
      * by rewrite <- app_assoc.
      * rewrite Hrows', Hrows, <- app_assoc. reflexivity.
      * by constructor.
      * rewrite Hms, Hms1. reflexivity.
      * exact Hmoves.
      * rewrite <- Htanks. exact Hledger.
Qed.

(** The loop over [pre ++ rest] is the loop over [pre] followed, when it
    went through, by the loop over [rest]. *)
Lemma create_sale_items_app v t pre rest :
  forall acc s,
    create_sale_items v t (pre ++ rest) acc s =
    match create_sale_items v t pre acc s with
    | (s1, inr created) => create_sale_items v t rest created s1
    | (s1, inl e) => (s1, inl e)
    end.
Proof.
  induction pre as [|item pre IH]; intros acc s; simpl.
  - reflexivity.
  - unfold bind. destruct (create_sale_item v t item s) as [s1 [e|row]]; [reflexivity|].
    apply IH.
Qed.

(** An item that the schema refuses stops the loop where it stands. *)
Lemma create_sale_items_refused v t item rest acc s :
  insertSalesTransactionItemSchema item (SalesTransaction.id t) = None ->
  create_sale_items v t (item :: rest) acc s = (s, inl ZodError).
Proof.
  intros H. simpl. unfold bind, create_sale_item, bind, parse. rewrite H. reflexivity.
Qed.

(** The header, once validated, is stored unless its invoice number is
    taken. *)
Lemma createSalesTransaction_inv v s s' out :
  createSalesTransaction v s = (s', out) ->
  (exists message, out = inl (PersistenceError message) /\ s' = s) \/
  (exists t,
     out = inr t /\
     s' = with_salesTransactions (fun rows => rows ++ [t]) (with_nextId S s) /\
     SalesTransaction.invoiceNumber t = InsertSalesTransaction.invoiceNumber v /\
     SalesTransaction.stationId t = InsertSalesTransaction.stationId v /\
     SalesTransaction.customerId t = InsertSalesTransaction.customerId v /\
     SalesTransaction.paymentMethod t = InsertSalesTransaction.paymentMethod v /\
     SalesTransaction.outstandingAmount t = or_zero (InsertSalesTransaction.outstandingAmount v)).
Proof.
  unfold createSalesTransaction. intros H. run.
  - left. eauto.
  - right. eexists. repeat split.
Qed.

Lemma update_outstanding_for_credit_run v s :
  update_outstanding_for_credit v s =
  (if is_credit (InsertSalesTransaction.paymentMethod v)
      && truthy (Some (InsertSalesTransaction.customerId v))
   then with_customers (alter (add_outstanding (sale_outstanding v))
                          (InsertSalesTransaction.customerId v)) s
   else s, inr tt).
Proof.
  unfold update_outstanding_for_credit, updateCustomerOutstanding, modify, ret, sale_outstanding.
  destruct (is_credit _ && truthy _); reflexivity.
Qed.

(** The [try] block of POST /api/sales, call by call. *)
Lemma post_sales_try_run now req s :
  post_sales_try now req s =
  match insertSalesTransactionSchema (SalesRequest.transaction req) (sale_invoiceNumber now) with
  | None => (s, inl ZodError)
  | Some v =>
      match createSalesTransaction v s with
      | (s1, inl e) => (s1, inl e)
      | (s1, inr t) =>
          match SalesRequest.items req with
          | None => (s1, inl TypeError)
          | Some items =>
              match create_sale_items v t items [] s1 with
              | (s2, inl e) => (s2, inl e)
              | (s2, inr rows) =>
                  (fst (update_outstanding_for_credit v s2),
                   inr (mkResponse 201 (SaleBody t rows)))
              end
          end
      end
  end.
Proof.
  unfold post_sales_try.
  destruct (insertSalesTransactionSchema _ _) as [v|]; [|reflexivity].
  unfold parse, bind at 1, ret at 1. unfold bind at 1.
  destruct (createSalesTransaction v s) as [s1 [e|t]]; [reflexivity|].
  unfold bind at 1.
  destruct (SalesRequest.items req) as [items|]; [|reflexivity].
  destruct (create_sale_items v t items [] s1) as [s2 [e|rows]]; [reflexivity|].
  unfold bind. rewrite update_outstanding_for_credit_run. reflexivity.
Qed.

(** The course of a request that is answered 201. *)
Lemma post_sales_created now req s s' response :
  post_sales now req s = (s', response) ->
  status response = 201%nat ->
  exists v t items rows s1 s2,
    insertSalesTransactionSchema (SalesRequest.transaction req) (sale_invoiceNumber now) = Some v /\
    createSalesTransaction v s = (s1, inr t) /\
    SalesRequest.items req = Some items /\
    create_sale_items v t items [] s1 = (s2, inr rows) /\
    update_outstanding_for_credit v s2 = (s', inr tt) /\
    response = mkResponse 201 (SaleBody t rows).
Proof.
  unfold post_sales. rewrite post_sales_try_run. intros H Hstatus.
  destruct (insertSalesTransactionSchema _ _) as [v|] eqn:Hv; [|by simplify_eq].
  destruct (createSalesTransaction v s) as [s1 [e|t]] eqn:Ht;
    [simplify_eq; by destruct e|].
  destruct (SalesRequest.items req) as [items|] eqn:Hitems; [|by simplify_eq].
  destruct (create_sale_items v t items [] s1) as [s2 [e|rows]] eqn:Hrows;
    [simplify_eq; by destruct e|].
  simplify_eq. exists v, t, items, rows, s1, s2. repeat split; auto.
  rewrite update_outstanding_for_credit_run. reflexivity.
Qed.

(** A request that is not answered 201 leaves every customer as it was. *)
Lemma post_sales_failed_customers now req s s' response :
  post_sales now req s = (s', response) ->
  status response <> 201%nat ->
  customers s' = customers s.
Proof.
  unfold post_sales. rewrite post_sales_try_run. intros H Hstatus.
  destruct (insertSalesTransactionSchema _ _) as [v|] eqn:Hv; [|by simplify_eq].
  destruct (createSalesTransaction v s) as [s1 [e|t]] eqn:Ht.
  { apply createSalesTransaction_inv in Ht as [(? & ? & ->)|(? & ? & _)]; by simplify_eq. }
  apply createSalesTransaction_inv in Ht as [(? & ? & _)|(? & ? & -> & _)]; [discriminate|].
  destruct (SalesRequest.items req) as [items|] eqn:Hitems; [|by simplify_eq].
  destruct (create_sale_items v t items [] _) as [s2 [e|rows]] eqn:Hrows.
  - apply create_sale_items_frame in Hrows as (Hc & _). by simplify_eq.
  - by simplify_eq.
Qed.

Lemma credit_with_customer_decide v :
  is_credit (InsertSalesTransaction.paymentMethod v)
  && truthy (Some (InsertSalesTransaction.customerId v)) = true <->
  credit_with_customer v.
Proof.
  unfold credit_with_customer, truthy.
  rewrite andb_true_iff, negb_true_iff, String.eqb_neq.
  destruct (InsertSalesTransaction.paymentMethod v); simpl; intuition congruence.
Qed.

(** C1, as amended: a POST /api/sales request that is answered 201 raises
    the outstanding amount of the customer of a credit sale (payment method
    credit, customer id not empty) by exactly the outstanding amount of the
    validated transaction, 0 when absent, and changes no other customer; for
    another payment method or an empty customer id it changes no customer;
    and a request that is not answered 201 changes no customer either. *)
Theorem post_sales_outstanding now req s s' response :
  post_sales now req s = (s', response) ->
  (status response = 201%nat ->
   exists v,
     insertSalesTransactionSchema (SalesRequest.transaction req) (sale_invoiceNumber now) = Some v /\
     (credit_with_customer v ->
      (forall c,
         customers s !! InsertSalesTransaction.customerId v = Some c ->
         exists c',
           customers s' !! InsertSalesTransaction.customerId v = Some c' /\
           Customer.outstandingAmount c' =
             Some (num_add (customer_outstanding c) (sale_outstanding v))) /\
      (forall id,
         id <> InsertSalesTransaction.customerId v ->
         customers s' !! id = customers s !! id)) /\
     (~ credit_with_customer v -> customers s' = customers s)) /\
  (status response <> 201%nat -> customers s' = customers s).
Proof.
  intros Hrun. split; [|by apply (post_sales_failed_customers now req s s' response)].
  intros Hstatus.
  destruct (post_sales_created _ _ _ _ _ Hrun Hstatus)
    as (v & t & items & rows & s1 & s2 & Hv & Ht & Hitems & Hrows & Hupdate & _).
  exists v. split; [exact Hv|].
  apply createSalesTransaction_inv in Ht as [(? & ? & _)|(? & ? & -> & _)]; [discriminate|].
  apply create_sale_items_frame in Hrows as (Hcustomers & _). simpl in Hcustomers.
  rewrite update_outstanding_for_credit_run in Hupdate.
  pose proof (credit_with_customer_decide v) as Hdecide.
  destruct (is_credit _ && truthy _); simplify_eq; simpl; rewrite Hcustomers.
  - split; [|intros Hno; exfalso; apply Hno, Hdecide; reflexivity].
    intros _. split.
    + intros c Hc. rewrite lookup_alter_eq, Hc. simpl. eexists. split; reflexivity.
    + intros id Hid. by rewrite lookup_alter_ne.
  - split; [|reflexivity].
    intros Hyes. apply Hdecide in Hyes. discriminate.
Qed.

Lemma post_sales_outstanding_witness :
  post_sales Sample.now Sample.sale_request Sample.store
    = (Sample.store_after_sale, Sample.sale_response) /\
  status Sample.sale_response = 201%nat /\
  exists c',
    customers Sample.store_after_sale !! "C" = Some c' /\
    Customer.outstandingAmount c' = Some (num_add (Num 15000) (Num 100)).
Proof.
  split; [reflexivity|]. split; [reflexivity|].
  destruct (post_sales_outstanding Sample.now Sample.sale_request Sample.store
              Sample.store_after_sale Sample.sale_response eq_refl) as [Hcreated _].
  destruct (Hcreated eq_refl) as (v & Hv & Hcredit & _).
  vm_compute in Hv. injection Hv as Hv. subst v.
  destruct Hcredit as [Hraised _]; [split; [reflexivity|discriminate]|].
  exact (Hraised Sample.acme eq_refl).
Defined.

(** C1, as written, fails: the header of a credit sale of 100.00 to customer
    C is validated and stored, the first item is refused, the request is
    answered 400 and the balance of C stays at 15000. *)
Lemma credit_sale_without_balance_update :
  ~ every_credit_sale_raises_outstanding Sample.now Sample.failing_request Sample.store.
Proof.
  intros Hclaim.
  destruct (Hclaim
              (InsertSalesTransaction.mk "SAL123456" "S" "C" "U" credit (Num 100)
                 (Some (Num 0)) (Num 100) (Some (Num 0)) (Some (Num 100)))
              Sample.acme eq_refl eq_refl eq_refl) as (c' & Hc' & Hraised).
  vm_compute in Hc'. injection Hc' as Hc'. subst c'.
  vm_compute in Hraised. discriminate.
Qed.

(** C2, as amended: in a POST /api/sales request that is answered 201, the
    stock movements created are, in the order of the items, exactly one for
    each item that specifies a tank (a tankId that is present, not empty and
    not the string 'null') and none for the other items; the movement of an
    item has movementType out, the tank and the quantity of the item,
    referenceType sale and the id of the created transaction as referenceId;
    it starts from the stock of its tank, previousStock - quantity =
    newStock, and its tank holds newStock right after it, so that after the
    request each tank holds the newStock of its last movement. *)
Theorem post_sales_stock_movements now req s s' response :
  post_sales now req s = (s', response) ->
  status response = 201%nat ->
  exists t rows items ms,
    response = mkResponse 201 (SaleBody t rows) /\
    In t (salesTransactions s') /\
    SalesRequest.items req = Some items /\
    stockMovements s' = stockMovements s ++ ms /\
    Forall2 (sale_movement t)
      (List.filter (fun item => specifies_tank (RawSalesItem.tankId item)) items) ms /\
    ledger (tanks s) ms (tanks s').
Proof.
  intros Hrun Hstatus.
  destruct (post_sales_created _ _ _ _ _ Hrun Hstatus)
    as (v & t & items & rows & s1 & s2 & Hv & Ht & Hitems & Hrows & Hupdate & ->).
  apply createSalesTransaction_inv in Ht as [(? & ? & _)|(t' & Ht' & -> & _)]; [discriminate|].
  injection Ht' as <-.
  pose proof (create_sale_items_frame _ _ _ _ _ _ _ Hrows) as (_ & _ & _ & Hheader & _).
  apply create_sale_items_ok in Hrows as (rows' & ms & -> & _ & _ & Hms & Hmoves & Hledger).
  rewrite update_outstanding_for_credit_run in Hupdate.
  assert (stockMovements s' = stockMovements s2 /\ tanks s' = tanks s2 /\
          salesTransactions s' = salesTransactions s2) as (Hms' & Htanks' & Hheader').
  { destruct (is_credit _ && truthy _); by simplify_eq. }
  exists t, rows', items, ms. simpl in *. repeat split; auto.
  - rewrite Hheader', Hheader. apply in_or_app. right. by left.
  - by rewrite Hms'.
  - by rewrite Htanks'.
Qed.

Lemma post_sales_stock_movements_witness :
  post_sales Sample.now Sample.sale_request Sample.store
    = (Sample.store_after_sale, Sample.sale_response) /\
  status Sample.sale_response = 201%nat /\
  exists m,
    stockMovements Sample.store_after_sale = [m] /\
    sale_movement
      (SalesTransaction.mk "id-0" "SAL123456" "S" "C" "U" credit (Num 100) (Some (Num 0))
         (Num 100) (Some (Num 0)) (Some (Num 100)))
      Sample.fuel m /\
    ledger (tanks Sample.store) [m] (tanks Sample.store_after_sale).
Proof.
  split; [reflexivity|]. split; [reflexivity|].
  destruct (post_sales_stock_movements Sample.now Sample.sale_request Sample.store
              Sample.store_after_sale Sample.sale_response eq_refl eq_refl)
    as (t & rows & items & ms & Hresponse & _ & Hitems & Hms & Hmoves & Hledger).
  vm_compute in Hresponse. injection Hresponse as Ht _. subst t.
  vm_compute in Hitems. injection Hitems as Hitems. subst items.
  change (List.filter _ [Sample.fuel]) with [Sample.fuel] in Hmoves.
  inversion Hmoves as [|? m ? ms' Hm Hnil]; subst. inversion Hnil; subst.
  exists m. split; [exact Hms|]. split; [exact Hm|exact Hledger].
Defined.

(** C2, as written, fails: the second item of the request draws 10 litres
    from tank T, the first item is refused, the request is answered 400 and
    no stock movement exists afterwards. *)
Lemma tank_item_without_movement :
  ~ every_tank_item_has_a_movement Sample.now Sample.failing_request Sample.store.
Proof.
  intros Hclaim.
  destruct (Hclaim [Sample.malformed; Sample.fuel] Sample.fuel eq_refl)
    as (m & Hm & _); [right; by left|reflexivity|].
  vm_compute in Hm. exact Hm.
Qed.

Lemma update_outstanding_for_credit_frame v s :
  let s' := fst (update_outstanding_for_credit v s) in
  salesTransactions s' = salesTransactions s /\
  salesTransactionItems s' = salesTransactionItems s /\
  stockMovements s' = stockMovements s /\
  tanks s' = tanks s.
Proof.
  rewrite update_outstanding_for_credit_run.
  destruct (is_credit _ && truthy _); repeat split.
Qed.

(** C3: POST /api/sales is not atomic.  When the header and the items
    [pre] go through (alone they are answered 201) and the next item is
    refused by the item schema, the request is answered 400 and the header,
    the items [pre], their stock movements and the stock they left in the
    tanks stay in the store, as the successful request left them. *)
Theorem post_sales_not_atomic now transaction pre bad post s s1 r1 :
  post_sales now (SalesRequest.mk transaction (Some pre)) s = (s1, r1) ->
  status r1 = 201%nat ->
  (forall transactionId, insertSalesTransactionItemSchema bad transactionId = None) ->
  exists s2 t rows,
    post_sales now (SalesRequest.mk transaction (Some (pre ++ bad :: post))) s
      = (s2, mkResponse 400 ValidationFailed) /\
    r1 = mkResponse 201 (SaleBody t rows) /\
    salesTransactions s2 = salesTransactions s ++ [t] /\
    salesTransactionItems s2 = salesTransactionItems s ++ rows /\
    Forall2 (stored_as (SalesTransaction.id t)) pre rows /\
    stockMovements s2 = stockMovements s1 /\
    tanks s2 = tanks s1 /\
    customers s2 = customers s.
Proof.
  intros Hrun Hstatus Hbad.
  destruct (post_sales_created _ _ _ _ _ Hrun Hstatus)
    as (v & t & items & rows & s0 & s2 & Hv & Ht & Hitems & Hrows & Hupdate & ->).
  simpl in Hv, Hitems. simplify_eq.
  exists s2, t, rows.
  pose proof (update_outstanding_for_credit_frame v s2) as Hframe.
  rewrite Hupdate in Hframe. simpl in Hframe. destruct Hframe as (_ & _ & Hms & Htanks).
  split.
  { unfold post_sales. rewrite post_sales_try_run. simpl. rewrite Hv, Ht.
    rewrite create_sale_items_app, Hrows, create_sale_items_refused by apply Hbad.
    reflexivity. }
  split; [reflexivity|].
  pose proof (create_sale_items_frame _ _ _ _ _ _ _ Hrows) as (Hcustomers & _ & _ & Hheader & _).
  apply create_sale_items_ok in Hrows as (rows' & ms & -> & Hrows' & Hstored & _).
  apply createSalesTransaction_inv in Ht as [(? & ? & _)|(t' & Ht' & -> & _)]; [discriminate|].
  injection Ht' as <-. simpl in *. repeat split; auto.
Qed.

Lemma post_sales_not_atomic_witness :
  post_sales Sample.now Sample.sale_request Sample.store
    = (Sample.store_after_sale, Sample.sale_response) /\
  status Sample.sale_response = 201%nat /\
  (forall transactionId,
     insertSalesTransactionItemSchema Sample.malformed transactionId = None) /\
  exists s2,
    post_sales Sample.now
      (SalesRequest.mk Sample.credit_sale (Some [Sample.fuel; Sample.malformed; Sample.lubricant]))
      Sample.store
      = (s2, mkResponse 400 ValidationFailed) /\
    length (salesTransactions s2) = 1%nat /\
    length (salesTransactionItems s2) = 1%nat /\
    stockMovements s2 = stockMovements Sample.store_after_sale /\
    tanks s2 = tanks Sample.store_after_sale.
Proof.
  split; [reflexivity|]. split; [reflexivity|]. split; [reflexivity|].
  destruct (post_sales_not_atomic Sample.now Sample.credit_sale [Sample.fuel]
              Sample.malformed [Sample.lubricant] Sample.store
              Sample.store_after_sale Sample.sale_response eq_refl eq_refl
              (fun _ => eq_refl))
    as (s2 & t & rows & Hrun & Hresponse & Hheader & Hrows & Hstored & Hms & Htanks & _).
  exists s2. split; [exact Hrun|].
  rewrite Hheader, Hrows, !length_app.
  apply Forall2_length in Hstored. rewrite <- Hstored.
  repeat split; assumption.
Defined.

Lemma insertSalesTransactionSchema_invoiceNumber transaction invoiceNumber v :
  insertSalesTransactionSchema transaction invoiceNumber = Some v ->
  InsertSalesTransaction.invoiceNumber v = invoiceNumber.
Proof.
  unfold insertSalesTransactionSchema. intros H.
  repeat case_match; simplify_eq. reflexivity.
Qed.

Lemma invoiceNumber_free invoiceNumber (rows : list SalesTransaction.t) :
  (forall t, In t rows -> SalesTransaction.invoiceNumber t <> invoiceNumber) ->
  existsb (fun t => String.eqb (SalesTransaction.invoiceNumber t) invoiceNumber) rows = false.
Proof.
  intros Hfree. apply not_true_is_false. intros Htaken.
  apply existsb_exists in Htaken as (t & Hin & Heq).
  apply String.eqb_eq in Heq. by apply (Hfree t).
Qed.

(** C4, as amended: a POST /api/sales request whose items list is empty is
    not refused.  When its header is valid and its invoice number is not
    taken, it is answered 201 with the created sales transaction and no
    item; the transaction is stored, and no item and no stock movement is. *)
Theorem post_sales_without_items now transaction s v :
  insertSalesTransactionSchema transaction (sale_invoiceNumber now) = Some v ->
  (forall t, In t (salesTransactions s) ->
             SalesTransaction.invoiceNumber t <> sale_invoiceNumber now) ->
  exists t s',
    post_sales now (SalesRequest.mk transaction (Some [])) s
      = (s', mkResponse 201 (SaleBody t [])) /\
    salesTransactions s' = salesTransactions s ++ [t] /\
    SalesTransaction.invoiceNumber t = sale_invoiceNumber now /\
    salesTransactionItems s' = salesTransactionItems s /\
    stockMovements s' = stockMovements s /\
    tanks s' = tanks s.
Proof.
  intros Hv Hfree.
  pose proof (insertSalesTransactionSchema_invoiceNumber _ _ _ Hv) as Hnumber.
  unfold post_sales. rewrite post_sales_try_run. simpl. rewrite Hv.
  unfold createSalesTransaction, bind at 1, gets.
  rewrite Hnumber, (invoiceNumber_free _ _ Hfree).
  unfold bind, gen_random_uuid, modify, ret. simpl.
  rewrite update_outstanding_for_credit_run.
  eexists _, _. split; [reflexivity|].
  destruct (is_credit _ && truthy _); simpl; repeat split; assumption.
Qed.

Lemma post_sales_without_items_witness :
  insertSalesTransactionSchema Sample.cash_sale (sale_invoiceNumber Sample.now)
    = Some (InsertSalesTransaction.mk "SAL123456" "S" "C" "U" cash (Num 100)
              (Some (Num 0)) (Num 100) (Some (Num 100)) (Some (Num 0))) /\
  (forall t, In t (salesTransactions Sample.store) ->
             SalesTransaction.invoiceNumber t <> sale_invoiceNumber Sample.now) /\
  exists t s',
    post_sales Sample.now (SalesRequest.mk Sample.cash_sale (Some [])) Sample.store
      = (s', mkResponse 201 (SaleBody t [])) /\
    salesTransactions s' = [t].
Proof.
  split; [reflexivity|]. split; [intros t []|].
  destruct (post_sales_without_items Sample.now Sample.cash_sale Sample.store _ eq_refl)
    as (t & s' & Hrun & Hheader & _); [intros t []|].
  exists t, s'. split; [exact Hrun|exact Hheader].
Defined.

(** C4, as written, fails: the credit sale of the sample data, sent without
    any item, is answered 201 and its transaction is stored. *)
Lemma empty_sale_accepted :
  ~ empty_sale_rejected Sample.now Sample.credit_sale Sample.store.
Proof.
  intros [Hstatus _]. vm_compute in Hstatus. discriminate.
Qed.

(** ** PUT /api/sales/:transactionId *)

Lemma createSalesTransactionItem_unparsed_inv item transactionId s s' out :
  createSalesTransactionItem_unparsed item transactionId s = (s', out) ->
  (exists message, out = inl (PersistenceError message) /\ s' = s) \/
  (exists row,
     out = inr row /\ stored_as transactionId item row /\
     s' = with_salesTransactionItems (fun rows => rows ++ [row]) (with_nextId S s)).
Proof.
  unfold createSalesTransactionItem_unparsed, salesTransactionItem_columns,
    createSalesTransactionItem, stored_as.
  destruct item as [productId tankId quantity unitPrice totalPrice].
  intros H. run; try (left; eauto; fail).
  right. eexists. repeat split.
Qed.

(** The loop of PUT, whether it ends or throws, appends the rows of the
    items it accepted and touches nothing else. *)
Lemma recreate_sale_items_inv transactionId items :
  forall acc s s' out,
    recreate_sale_items transactionId items acc s = (s', out) ->
    items_frame s s' /\
    exists rows,
      salesTransactionItems s' = salesTransactionItems s ++ rows /\
      Forall (fun row => SalesTransactionItem.transactionId row = transactionId) rows /\
      (forall created, out = inr created ->
         created = acc ++ rows /\ Forall2 (stored_as transactionId) items rows).
Proof.
  induction items as [|item rest IH]; intros acc s s' out H; simpl in H.
  - unfold ret in H. simplify_eq. split; [repeat split|].
    exists []. rewrite !app_nil_r. repeat split; [constructor| |constructor].
    by simplify_eq.
  - unfold bind in H.
    destruct (createSalesTransactionItem_unparsed item transactionId s) as [s1 [e|row]] eqn:Hitem.
    + apply createSalesTransactionItem_unparsed_inv in Hitem
        as [(? & ? & ->)|(? & ? & _)]; [|discriminate].
      simplify_eq. split; [repeat split|].
      exists []. rewrite app_nil_r. repeat split; [constructor|discriminate|discriminate].
    + apply createSalesTransactionItem_unparsed_inv in Hitem
        as [(? & ? & _)|(row' & Hrow' & Hstored & ->)]; [discriminate|].
      injection Hrow' as <-.
      apply IH in H as (Hframe & rows & Hrows & Hids & Hcreated).
      split; [exact Hframe|].
      exists (row :: rows). simpl in *. repeat split.
      * by rewrite Hrows, <- app_assoc.
      * constructor; [apply Hstored|exact Hids].
      * apply Hcreated in H as [-> _]. by rewrite <- app_assoc.
      * constructor; [exact Hstored|]. by apply Hcreated in H as [_ ?].
Qed.

Lemma updateSalesTransaction_inv id patch s s' out :
  updateSalesTransaction id patch s = (s', out) ->
  (exists e, out = inl e /\ s' = s) \/
  (exists existing paymentMethod,
     List.find (fun t => String.eqb (SalesTransaction.id t) id) (salesTransactions s) = Some existing /\
     out = inr (patch_transaction patch paymentMethod existing) /\
     s' = with_salesTransactions
            (List.map (fun row =>
               if String.eqb (SalesTransaction.id row) id
               then patch_transaction patch paymentMethod row else row)) s).
Proof.
  unfold updateSalesTransaction, getSalesTransaction. intros H.
  run; try (left; eauto; fail); right; eauto.
Qed.

(** The [try] block of PUT /api/sales/:transactionId, call by call. *)
Lemma put_sales_try_run user transactionId req s :
  put_sales_try user transactionId req s =
  match List.find (fun t => String.eqb (SalesTransaction.id t) transactionId) (salesTransactions s) with
  | None => (s, inr (mkResponse 404 (Message "Transaction not found")))
  | Some existing =>
      if access_denied user (SalesTransaction.stationId existing)
      then (s, inr (mkResponse 403 (Message "Access denied")))
      else
        match updateSalesTransaction transactionId (SalesRequest.transaction req) s with
        | (s1, inl e) => (s1, inl e)
        | (s1, inr updatedTransaction) =>
            let s2 := with_salesTransactionItems
                (List.filter (fun i =>
                   negb (String.eqb (SalesTransactionItem.transactionId i) transactionId))) s1 in
            match SalesRequest.items req with
            | None => (s2, inl TypeError)
            | Some items =>
                match recreate_sale_items transactionId items [] s2 with
                | (s3, inl e) => (s3, inl e)
                | (s3, inr updatedItems) =>
                    (s3, inr (mkResponse 200 (SaleBody updatedTransaction updatedItems)))
                end
            end
        end
  end.
Proof.
  unfold put_sales_try, getSalesTransaction, bind at 1, gets.
  destruct (List.find _ _) as [existing|]; [|reflexivity].
  destruct (access_denied _ _); [reflexivity|].
  unfold bind at 1.
  destruct (updateSalesTransaction _ _ s) as [s1 [e|t]]; [reflexivity|].
  unfold bind at 1, deleteSalesTransactionItems, modify. unfold bind at 1.
  destruct (SalesRequest.items req) as [items|]; [|reflexivity].
  destruct (recreate_sale_items _ _ _ _) as [s3 [e|rows]]; reflexivity.
Qed.

Lemma items_of_replaced transactionId (old rows : list SalesTransactionItem.t) :
  Forall (fun row => SalesTransactionItem.transactionId row = transactionId) rows ->
  List.filter (fun i => String.eqb (SalesTransactionItem.transactionId i) transactionId)
    (List.filter (fun i => negb (String.eqb (SalesTransactionItem.transactionId i) transactionId)) old
     ++ rows) = rows.
Proof.
  intros Hrows. rewrite List.filter_app.
  replace (List.filter _ (List.filter _ old)) with (@nil SalesTransactionItem.t).
  - simpl. induction Hrows as [|row rows Hrow _ IH]; simpl; [reflexivity|].
    rewrite Hrow, String.eqb_refl. by f_equal.
  - induction old as [|i old IH]; simpl; [reflexivity|].
    destruct (String.eqb _ _) eqn:Heq; simpl; [exact IH|].
    by rewrite Heq.
Qed.

Lemma items_of_other transactionId other (old rows : list SalesTransactionItem.t) :
  other <> transactionId ->
  Forall (fun row => SalesTransactionItem.transactionId row = transactionId) rows ->
  List.filter (fun i => String.eqb (SalesTransactionItem.transactionId i) other)
    (List.filter (fun i => negb (String.eqb (SalesTransactionItem.transactionId i) transactionId)) old
     ++ rows) =
  List.filter (fun i => String.eqb (SalesTransactionItem.transactionId i) other) old.
Proof.
  intros Hother Hrows. rewrite List.filter_app.
  replace (List.filter _ rows) with (@nil SalesTransactionItem.t).
  - rewrite app_nil_r. induction old as [|i old IH]; simpl; [reflexivity|].
    destruct (String.eqb (SalesTransactionItem.transactionId i) transactionId) eqn:Heq; simpl.
    + apply String.eqb_eq in Heq. rewrite Heq.
      apply not_eq_sym, String.eqb_neq in Hother. by rewrite Hother.
    + destruct (String.eqb _ other); [by f_equal|exact IH].
  - induction Hrows as [|row rows Hrow _ IH]; simpl; [reflexivity|].
    rewrite Hrow. apply not_eq_sym, String.eqb_neq in Hother. by rewrite Hother.
Qed.

(** C8, as amended: after a PUT /api/sales/:transactionId that is answered
    200, the items stored for the transaction are the submitted items, one
    stored item per submitted item and in their order, each with the
    product, tank, quantity, unit price and total price that were submitted
    and with the id of the transaction, whatever items were stored for it
    before; the items of the other transactions are as they were. *)
Theorem put_sales_items user transactionId req s s' response :
  put_sales user transactionId req s = (s', response) ->
  status response = 200%nat ->
  exists items,
    SalesRequest.items req = Some items /\
    Forall2 (stored_as transactionId) items (items_of transactionId s') /\
    forall other, other <> transactionId -> items_of other s' = items_of other s.
Proof.
  unfold put_sales. rewrite put_sales_try_run. intros H Hstatus.
  destruct (List.find _ _) as [existing|]; [|by simplify_eq].
  destruct (access_denied _ _); [by simplify_eq|].
  destruct (updateSalesTransaction _ _ s) as [s1 [e|t]] eqn:Hupdate; [by simplify_eq|].
  apply updateSalesTransaction_inv in Hupdate
    as [(? & ? & _)|(existing' & paymentMethod & _ & _ & ->)]; [discriminate|].
  simpl in H.
  destruct (SalesRequest.items req) as [items|]; [|by simplify_eq].
  destruct (recreate_sale_items _ _ _ _) as [s3 [e|rows]] eqn:Hloop; [by simplify_eq|].
  apply recreate_sale_items_inv in Hloop as (_ & rows' & Hrows & Hids & Hcreated).
  destruct (Hcreated rows eq_refl) as [_ Hstored].
  simplify_eq. exists items. split; [reflexivity|].
  unfold items_of. rewrite Hrows. simpl. split.
  - by rewrite items_of_replaced.
  - intros other Hother. by rewrite items_of_other.
Qed.

Lemma put_sales_items_witness :
  status (snd (put_sales Sample.cashier "id-0" Sample.edit_request Sample.store_after_sale))
    = 200%nat /\
  Forall2 (stored_as "id-0") [Sample.lubricant; Sample.fuel]
    (items_of "id-0"
       (fst (put_sales Sample.cashier "id-0" Sample.edit_request Sample.store_after_sale))).
Proof.
  split; [reflexivity|].
  destruct (put_sales_items Sample.cashier "id-0" Sample.edit_request Sample.store_after_sale
              _ _ eq_refl eq_refl) as (items & Hitems & Hstored & _).
  injection Hitems as <-. exact Hstored.
Defined.

(** C8, as written, fails: the edit submits two items, the second lacks its
    product and is refused by the table, the request is answered 500 and
    the transaction is left with the first item alone. *)
Lemma edit_leaves_part_of_the_items :
  ~ put_stores_submitted_items Sample.cashier "id-0" Sample.failing_edit Sample.store_after_sale.
Proof.
  intros Hclaim. specialize (Hclaim _ eq_refl).
  apply Forall2_length in Hclaim. vm_compute in Hclaim. discriminate.
Qed.




(** ** POST /api/purchase-orders *)




(** The processed items are the items of the request, each with its own
    subtotal, in their order. *)
Lemma process_items_processed items :
  forall subtotal processed,
    snd (List.fold_left
           (fun (state : Double.t * list ProcessedItem.t) item =>
              (Double.add (fst state) (itemSubtotal item),
               snd state ++ [ProcessedItem.mk item (Double.toString (itemSubtotal item))]))
           items (subtotal, processed)) =
    processed ++
    List.map (fun item => ProcessedItem.mk item (Double.toString (itemSubtotal item))) items.
Proof.
  induction items as [|item rest IH]; intros subtotal processed; simpl.
  - by rewrite app_nil_r.
  - rewrite IH. simpl. by rewrite <- app_assoc.
Qed.

Lemma insertPurchaseOrderItemSchema_orderId item orderId v :
  insertPurchaseOrderItemSchema item orderId = Some v ->
  InsertPurchaseOrderItem.orderId v = orderId.
Proof.
  unfold insertPurchaseOrderItemSchema. intros H.
  repeat case_match; simplify_eq. reflexivity.
Qed.

(** The loop over the items of an order appends rows to the order items
    and touches nothing else. *)
Lemma create_order_items_inv createdOrder processedItems :
  forall acc s s' out,
    create_order_items createdOrder processedItems acc s = (s', out) ->
    purchase_frame s s' /\ settings s' = settings s /\ purchaseOrders s' = purchaseOrders s /\
    exists rows,
      purchaseOrderItems s' = purchaseOrderItems s ++ rows /\
      Forall (fun row => PurchaseOrderItem.orderId row = PurchaseOrder.id createdOrder) rows.
Proof.
  induction processedItems as [|item rest IH]; intros acc s s' out H; simpl in H.
  - unfold ret in H. simplify_eq. repeat split. exists []. by rewrite app_nil_r.
  - unfold bind at 1, parse in H.
    destruct (insertPurchaseOrderItemSchema item _) as [v|] eqn:Hv.
    + apply insertPurchaseOrderItemSchema_orderId in Hv.
      unfold ret at 1, bind at 1, createPurchaseOrderItem, bind at 1, gen_random_uuid in H.
      unfold bind at 1, modify, ret at 1 in H.
      apply IH in H as ((? & ? & ? & ? & ? & ?) & ? & ? & rows & Hrows & Hids).
      simpl in *. repeat split; auto.
      eexists (_ :: rows). split.
      * rewrite Hrows, <- app_assoc. reflexivity.
      * constructor; [exact Hv|exact Hids].
    + unfold throw in H. simplify_eq. repeat split. exists []. by rewrite app_nil_r.
Qed.

(** The [try] block of POST /api/purchase-orders, call by call. *)
Lemma post_purchase_orders_try_run user req s :
  post_purchase_orders_try user req s =
  if truthy (AuthenticatedUser.stationId user) then
    let stationId := default "" (AuthenticatedUser.stationId user) in
    let s0 := fst (purchase_settings stationId s) in
    let config := snd (purchase_settings stationId s) in
    match PurchaseRequest.items req with
    | None => (s0, inl TypeError)
    | Some items =>
        match PurchaseRequest.order req with
        | None => (s0, inl TypeError)
        | Some order =>
            match RawPurchaseOrder.orderDate order,
                  RawPurchaseOrder.expectedDeliveryDate order with
            | DateValid orderDate, DateInvalid => (s0, inl RangeError)
            | DateValid orderDate, expected =>
                let expectedDeliveryDate :=
                  match expected with DateValid time => Some time | _ => None end in
                purchase_store_order
                  (purchase_orderData user stationId config items order orderDate
                     expectedDeliveryDate) items s0
            | _, _ => (s0, inl RangeError)
            end
        end
    end
  else (s, inr (mkResponse 400 (Message "User station not found."))).
Proof.
  unfold post_purchase_orders_try.
  destruct (truthy (AuthenticatedUser.stationId user)); [|reflexivity].
  cbv zeta. generalize (default "" (AuthenticatedUser.stationId user)). intros stationId.
  unfold purchase_store_order, purchase_settings, purchase_orderData, parse, createSettings, getSettings,
    toISOString, bind, ret, throw, gets, modify.
  cbv beta zeta.
  destruct (settings s !! stationId) as [config|] eqn:Hconfig;
    cbv beta iota zeta; rewrite ?Hconfig; cbv beta iota zeta; simpl fst; simpl snd.
  all: destruct (PurchaseRequest.items req) as [items|]; [|reflexivity].
  all: destruct (PurchaseRequest.order req) as [order|]; [|reflexivity].
  all: destruct (RawPurchaseOrder.orderDate order) as [| |orderDate]; try reflexivity.
  all: destruct (RawPurchaseOrder.expectedDeliveryDate order) as [| |time]; try reflexivity.
  all: cbv beta iota zeta.
  all: destruct (insertPurchaseOrderSchema _) as [validatedOrder|]; [|reflexivity].
  all: cbv beta iota zeta.
  all: destruct (createPurchaseOrder validatedOrder _) as [s1 [e|createdOrder]]; [reflexivity|].
  all: destruct (create_order_items _ _ _ _) as [s2 [e|rows]]; reflexivity.
Qed.

Lemma createPurchaseOrder_inv v s s' out :
  createPurchaseOrder v s = (s', out) ->
  (exists e, out = inl e /\ s' = s) \/
  (exists order,
     out = inr order /\
     s' = with_purchaseOrders (fun rows => rows ++ [order]) (with_nextId S s) /\
     PurchaseOrder.stationId order = InsertPurchaseOrder.stationId v /\
     PurchaseOrder.subtotal order = InsertPurchaseOrder.subtotal v /\
     PurchaseOrder.taxAmount order = Double.or_zero (InsertPurchaseOrder.taxAmount v) /\
     PurchaseOrder.totalAmount order = InsertPurchaseOrder.totalAmount v).
Proof.
  unfold createPurchaseOrder. intros H. run.
  - left. eauto.
  - right. eexists. repeat split.
Qed.

Lemma purchase_settings_inv stationId s :
  let s0 := fst (purchase_settings stationId s) in
  purchase_frame s s0 /\
  purchaseOrders s0 = purchaseOrders s /\
  purchaseOrderItems s0 = purchaseOrderItems s /\
  purchase_taxRate (snd (purchase_settings stationId s)) = configured_taxRate (settings s !! stationId) /\
  match settings s !! stationId with
  | Some config => settings s0 = settings s
  | None => settings s0 = <[stationId := defaultSettings]> (settings s)
  end.
Proof.
  unfold purchase_settings.
  destruct (settings s !! stationId) as [config|]; simpl; repeat split.
Qed.

(** Storing the order: nothing is written when the order is refused; else
    the order is appended with the amounts of [orderData], then the rows of
    its items, and the answer is 201 unless an item is refused. *)
Lemma purchase_store_order_inv orderData items s0 s' out :
  purchase_store_order orderData items s0 = (s', out) ->
  (s' = s0 /\ exists e, out = inl e) \/
  (purchase_frame s0 s' /\ settings s' = settings s0 /\
   exists createdOrder rows,
     purchaseOrders s' = purchaseOrders s0 ++ [createdOrder] /\
     purchaseOrderItems s' = purchaseOrderItems s0 ++ rows /\
     Forall (fun row => PurchaseOrderItem.orderId row = PurchaseOrder.id createdOrder) rows /\
     PurchaseOrder.stationId createdOrder = OrderData.stationId orderData /\
     PurchaseOrder.subtotal createdOrder = OrderData.subtotal orderData /\
     PurchaseOrder.taxAmount createdOrder = Some (OrderData.taxAmount orderData) /\
     PurchaseOrder.totalAmount createdOrder = OrderData.totalAmount orderData).
Proof.
  unfold purchase_store_order. intros Hout.
  destruct (insertPurchaseOrderSchema _) as [validatedOrder|] eqn:Hvalid;
    [|left; simplify_eq; eauto].
  destruct (createPurchaseOrder validatedOrder s0) as [s1 [e|createdOrder]] eqn:Hcreate.
  { apply createPurchaseOrder_inv in Hcreate as [(? & ? & ->)|(? & ? & _)]; [|discriminate].
    left. simplify_eq. eauto. }
  apply createPurchaseOrder_inv in Hcreate
    as [(? & ? & _)|(order' & Horder' & -> & Hstation' & Hsubtotal & Htax & Htotal)];
    [discriminate|].
  injection Horder' as <-.
  unfold insertPurchaseOrderSchema in Hvalid.
  destruct (OrderData.orderNumber orderData); [|discriminate].
  destruct (OrderData.supplierId orderData); [|discriminate].
  injection Hvalid as <-. simpl in *.
  right.
  destruct (create_order_items _ _ _ _) as [s2 [e|rows]] eqn:Hloop;
    apply create_order_items_inv in Hloop
      as ((? & ? & ? & ? & ? & ?) & Hsettings2 & Horders2 & rows' & Hrows2 & Hids);
    simpl in *; injection Hout as <- <-.
  all: split; [by repeat split|].
  all: split; [assumption|].
  all: exists createdOrder, rows'; repeat split; assumption.
Qed.

Lemma post_purchase_orders_catch_status e : status (post_purchase_orders_catch e) = 400%nat.
Proof. by destruct e. Qed.

(** The course of a POST /api/purchase-orders request: the tables of the
    sales flow are left alone; the settings change at most by the default
    record of the user's station; and either no order is stored and the
    answer is 400, or the order built from the request is stored. *)
Lemma post_purchase_orders_inv user req s s' response :
  post_purchase_orders user req s = (s', response) ->
  purchase_frame s s' /\
  (settings s' = settings s \/
   exists stationId,
     AuthenticatedUser.stationId user = Some stationId /\
     settings s !! stationId = None /\
     settings s' = <[stationId := defaultSettings]> (settings s)) /\
  ((purchaseOrders s' = purchaseOrders s /\ purchaseOrderItems s' = purchaseOrderItems s /\
    status response = 400%nat) \/
   exists stationId items order rows,
     AuthenticatedUser.stationId user = Some stationId /\
     PurchaseRequest.items req = Some items /\
     purchaseOrders s' = purchaseOrders s ++ [order] /\
     purchaseOrderItems s' = purchaseOrderItems s ++ rows /\
     Forall (fun row => PurchaseOrderItem.orderId row = PurchaseOrder.id order) rows /\
     PurchaseOrder.stationId order = stationId /\
     PurchaseOrder.subtotal order = Double.toString (fst (process_items items)) /\
     PurchaseOrder.taxAmount order =
       Some (Double.toString
               (Double.mul (fst (process_items items))
                  (configured_taxRate (settings s !! stationId)))) /\
     PurchaseOrder.totalAmount order =
       Double.toString
         (Double.add (fst (process_items items))
            (Double.mul (fst (process_items items))
               (configured_taxRate (settings s !! stationId)))) /\
     (settings s !! stationId = None -> settings s' !! stationId = Some defaultSettings) /\
     settings s' !! stationId = Some (default defaultSettings (settings s !! stationId))).
Proof.
  unfold post_purchase_orders. rewrite post_purchase_orders_try_run. intros H.
  destruct (AuthenticatedUser.stationId user) as [stationId|] eqn:Hstation; simpl in H;
    [|simplify_eq; split; [repeat split|split; [by left|left; by repeat split]]].
  destruct (negb (String.eqb stationId "")); simpl in H;
    [|simplify_eq; split; [repeat split|split; [by left|left; by repeat split]]].
  pose proof (purchase_settings_inv stationId s) as (Hframe0 & Horders0 & Hitems0 & Hrate & Hsettings0).
  set (s0 := fst (purchase_settings stationId s)) in *.
  set (config := snd (purchase_settings stationId s)) in *.
  assert (Hsettings : settings s0 = settings s \/
            exists stationId0,
              Some stationId = Some stationId0 /\ settings s !! stationId0 = None /\
              settings s0 = <[stationId0 := defaultSettings]> (settings s)).
  { destruct (settings s !! stationId) eqn:Hconfig; [by left|right; eauto]. }
  assert (Hfailed : forall e, (s0, post_purchase_orders_catch e) = (s', response) ->
            purchase_frame s s' /\
            (settings s' = settings s \/
             exists stationId0,
               Some stationId = Some stationId0 /\ settings s !! stationId0 = None /\
               settings s' = <[stationId0 := defaultSettings]> (settings s)) /\
            (purchaseOrders s' = purchaseOrders s /\ purchaseOrderItems s' = purchaseOrderItems s /\
             status response = 400%nat)).
  { intros e He. injection He as <- <-. repeat split; try apply Hframe0; auto. by destruct e. }
  destruct (PurchaseRequest.items req) as [items|] eqn:Hitems;
    [|destruct (Hfailed _ H) as (? & ? & ?); auto].
  destruct (PurchaseRequest.order req) as [order|];
    [|destruct (Hfailed _ H) as (? & ? & ?); auto].
  destruct (RawPurchaseOrder.orderDate order) as [| |orderDate];
    try (destruct (Hfailed _ H) as (? & ? & ?); auto; fail).
  assert ((exists e, (s0, post_purchase_orders_catch e) = (s', response)) \/
          exists expectedDeliveryDate out,
            purchase_store_order
              (purchase_orderData user stationId config items order orderDate expectedDeliveryDate)
              items s0 = (s', out) /\
            match out with
            | inl e => response = post_purchase_orders_catch e
            | inr r => response = r
            end) as [(e & He)|(expected & out & Hout & Hresponse)].
  { destruct (RawPurchaseOrder.expectedDeliveryDate order) as [| |time]; [|left; eauto|].
    all: right.
    all: match type of H with
         | (let (s', out) := ?run in _) = _ =>
             destruct run as [s2 [e|r]] eqn:Hrun; simplify_eq
         end.
    all: eexists _, _; split; [exact Hrun|reflexivity]. }
  { destruct (Hfailed _ He) as (? & ? & ?); auto. }
  destruct (purchase_store_order_inv _ _ _ _ _ Hout)
    as [(-> & e & ->)|(Hframe & Hsettings' & createdOrder & rows & Ho & Hr & Hids & Hst & Hsub & Htax & Htot)].
  { subst response. split; [exact Hframe0|]. split; [exact Hsettings|].
    left. repeat split; auto. apply post_purchase_orders_catch_status. }
  destruct Hframe0 as (? & ? & ? & ? & ? & ?). destruct Hframe as (? & ? & ? & ? & ? & ?).
  split; [unfold purchase_frame; repeat split; congruence|].
  split.
  { rewrite Hsettings'. destruct Hsettings as [?|(? & ? & ? & ?)]; [by left|right; eauto]. }
  right. exists stationId, items, createdOrder, rows.
  unfold purchase_orderData in *. simpl in *.
  rewrite <- Hrate. repeat split; try congruence; try assumption.
  - intros Hnone. rewrite Hsettings'. rewrite Hnone in Hsettings0. rewrite Hsettings0.
    apply lookup_insert_eq.
  - rewrite Hsettings'. destruct (settings s !! stationId) as [stored|] eqn:Hstored;
      rewrite Hsettings0; [exact Hstored|apply lookup_insert_eq].
Qed.

(** Whatever becomes of a purchase order, the settings it leaves are those
    the handler started from, the default record included. *)
Lemma post_purchase_orders_settings user stationId req s :
  AuthenticatedUser.stationId user = Some stationId ->
  stationId <> "" ->
  settings (fst (post_purchase_orders user req s))
    = settings (fst (purchase_settings stationId s)).
Proof.
  intros Hstation Hnonempty.
  unfold post_purchase_orders. rewrite post_purchase_orders_try_run, Hstation. simpl.
  apply String.eqb_neq in Hnonempty. rewrite Hnonempty. simpl.
  set (s0 := fst (purchase_settings stationId s)).
  set (config := snd (purchase_settings stationId s)).
  destruct (PurchaseRequest.items req) as [items|]; [|reflexivity].
  destruct (PurchaseRequest.order req) as [order|]; [|reflexivity].
  destruct (RawPurchaseOrder.orderDate order) as [| |orderDate]; try reflexivity.
  destruct (RawPurchaseOrder.expectedDeliveryDate order) as [| |time]; try reflexivity.
  all: destruct (purchase_store_order _ _ s0) as [s' [e|r]] eqn:Hout; simpl.
  all: apply purchase_store_order_inv in Hout as [(-> & _)|(_ & Hsettings & _)];
         [reflexivity|exact Hsettings].
Qed.








(** C7, as amended: POST /api/purchase-orders creates no stock movement and
    leaves every tank, and with it every current stock, as it was, and it
    leaves customers, suppliers and sales as they were, whatever the request
    and however it ends.  What it writes is at most one purchase order, the
    rows of its items and, besides them, the default settings record of the
    user's station: that record is stored whenever the user has a station
    that has no settings, and the settings are left as they are
    otherwise. *)
Theorem post_purchase_orders_frame user req s :
  let s' := fst (post_purchase_orders user req s) in
  stockMovements s' = stockMovements s /\
  tanks s' = tanks s /\
  customers s' = customers s /\
  suppliers s' = suppliers s /\
  salesTransactions s' = salesTransactions s /\
  salesTransactionItems s' = salesTransactionItems s /\
  (settings s' = settings s \/
   exists stationId,
     AuthenticatedUser.stationId user = Some stationId /\
     settings s !! stationId = None /\
     settings s' = <[stationId := defaultSettings]> (settings s)) /\
  (forall stationId,
     AuthenticatedUser.stationId user = Some stationId -> stationId <> "" ->
     settings s' =
       match settings s !! stationId with
       | Some _ => settings s
       | None => <[stationId := defaultSettings]> (settings s)
       end) /\
  exists orders rows,
    purchaseOrders s' = purchaseOrders s ++ orders /\
    (length orders <= 1)%nat /\
    purchaseOrderItems s' = purchaseOrderItems s ++ rows /\
    Forall (fun row => exists order,
              In order orders /\ PurchaseOrderItem.orderId row = PurchaseOrder.id order) rows.
Proof.
  intros s'.
  destruct (post_purchase_orders_inv user req s s' (snd (post_purchase_orders user req s)))
    as ((Hcustomers & Hsuppliers & Htanks & Hsales & Hitems & Hmoves) & Hsettings & Horders).
  { subst s'. by destruct (post_purchase_orders user req s). }
  split; [exact Hmoves|]. split; [exact Htanks|]. split; [exact Hcustomers|].
  split; [exact Hsuppliers|]. split; [exact Hsales|]. split; [exact Hitems|].
  split; [exact Hsettings|]. split.
  - intros stationId Hstation Hnonempty. subst s'.
    rewrite (post_purchase_orders_settings user stationId req s Hstation Hnonempty).
    unfold purchase_settings. by destruct (settings s !! stationId).
  - destruct Horders as [(Horders & Hrows & _)|
                         (stationId & items & order & rows & _ & _ & Horders & Hrows & Hids & _)].
    + exists [], []. rewrite !app_nil_r. repeat split; auto.
    + exists [order], rows. repeat split; auto.
      eapply Forall_impl; [exact Hids|]. intros row Hrow. exists order.
      split; [by left|exact Hrow].
Qed.

Lemma post_purchase_orders_frame_witness :
  let result := post_purchase_orders Sample.manager Sample.purchase_request Sample.store in
  stockMovements (fst result) = [] /\
  tanks (fst result) !! "T" = Some Sample.petrol_tank /\
  settings (fst result) = <["S" := defaultSettings]> (settings Sample.store).
Proof.
  intros result. subst result.
  destruct (post_purchase_orders_frame Sample.manager Sample.purchase_request Sample.store)
    as (Hmoves & Htanks & _ & _ & _ & _ & _ & Hsettings & _).
  split; [exact Hmoves|]. split; [by rewrite Htanks|].
  apply (Hsettings "S"); [reflexivity|discriminate].
Defined.

(** A delivery of 1000 litres ordered for tank T: the order is stored, the
    tank still holds 100 and no movement is recorded. *)
Example purchase_order_leaves_stock :
  let result := post_purchase_orders Sample.manager Sample.purchase_request Sample.store in
  status (snd result) = 201%nat /\
  length (purchaseOrders (fst result)) = 1%nat /\
  length (purchaseOrderItems (fst result)) = 2%nat /\
  stockMovements (fst result) = [] /\
  tanks (fst result) !! "T" = Some Sample.petrol_tank /\
  settings (fst result) !! "S" = Some defaultSettings.
Proof. repeat split. Qed.

(** C7, as written, fails: the order recorded for station S, which has no
    settings, leaves a settings record for S behind, besides the purchase
    order and its items. *)
Lemma purchase_order_creates_settings :
  ~ creates_only_order_and_items Sample.manager Sample.purchase_request Sample.store.
Proof.
  intros (_ & _ & _ & Hsettings & _).
  apply (f_equal (fun settings => settings !! "S")) in Hsettings.
  vm_compute in Hsettings. discriminate.
Qed.

(** ** POST /api/journal-entries and the ledger form *)

Lemma running_debits lines :
  forall sum,
    List.fold_left
      (fun sum line => Double.add sum (Double.parseFloat (Double.or_zero (JournalLine.debit line))))
      lines sum
    = sum_debit_from sum lines.
Proof.
  induction lines as [|line rest IH]; intros sum; simpl; [reflexivity|apply IH].
Qed.

Lemma running_credits lines :
  forall sum,
    List.fold_left
      (fun sum line => Double.add sum (Double.parseFloat (Double.or_zero (JournalLine.credit line))))
      lines sum
    = sum_credit_from sum lines.
Proof.
  induction lines as [|line rest IH]; intros sum; simpl; [reflexivity|apply IH].
Qed.

Lemma totalDebits_sum lines : totalDebits lines = sum_debit lines.
Proof. apply running_debits. Qed.

Lemma totalCredits_sum lines : totalCredits lines = sum_credit lines.
Proof. apply running_credits. Qed.

(** C6, as amended: POST /api/journal-entries makes no check of the lines:
    whatever they are, balanced or not, it answers 201 with an entry made of
    them and writes nothing.  Debits and credits are compared by the ledger
    form alone, on the sums as JavaScript computes them (the amounts added
    in the order of the lines, every sum rounded to the nearest binary64
    value): [onJournalSubmit] shows an error and sends no request when the
    computed difference of these sums is above 0.01, and a request that it
    sends carries lines for which that difference is not above 0.01, with
    the computed sums as its totals. *)
Theorem journal_balance_checked_by_form user year now req s :
  (exists journalEntry,
     post_journal_entries user year now req s
       = (s, mkResponse 201 (JournalEntryBody journalEntry)) /\
     JournalEntry.lines journalEntry = JournalRequest.lines req) /\
  (forall lines,
     Double.gtb (Double.abs (Double.sub (sum_debit lines) (sum_credit lines))) Double.cent = true ->
     onJournalSubmit lines = Toast "Total debits must equal total credits") /\
  (forall lines payload,
     onJournalSubmit lines = Mutate payload ->
     Double.gtb (Double.abs (Double.sub (sum_debit lines) (sum_credit lines))) Double.cent = false /\
     JournalRequest.lines payload = lines /\
     JournalRequest.totalDebit payload = Some (Double.toString (sum_debit lines)) /\
     JournalRequest.totalCredit payload = Some (Double.toString (sum_credit lines))).
Proof.
  split; [|split].
  - eexists. split; reflexivity.
  - intros lines Hfar. unfold onJournalSubmit.
    by rewrite totalDebits_sum, totalCredits_sum, Hfar.
  - intros lines payload. unfold onJournalSubmit.
    rewrite totalDebits_sum, totalCredits_sum.
    destruct (Double.gtb _ _); [discriminate|].
    repeat case_match; try discriminate.
    intros Hsent. injection Hsent as <-. by repeat split.
Qed.

Lemma journal_balance_checked_by_form_witness :
  status (snd (post_journal_entries Sample.cashier "2026" Sample.now Sample.unbalanced_entry
                 Sample.store)) = 201%nat /\
  onJournalSubmit Sample.unbalanced_lines = Toast "Total debits must equal total credits" /\
  exists payload,
    onJournalSubmit Sample.balanced_lines = Mutate payload /\
    JournalRequest.lines payload = Sample.balanced_lines /\
    JournalRequest.totalDebit payload = Some (Double.of_Z 100).
Proof.
  destruct (journal_balance_checked_by_form Sample.cashier "2026" Sample.now
              Sample.unbalanced_entry Sample.store) as ((entry & Hrun & _) & Hrefused & Hsent).
  split; [by rewrite Hrun|]. split; [apply Hrefused; vm_compute; reflexivity|].
  eexists. split; [vm_compute; reflexivity|].
  destruct (Hsent Sample.balanced_lines _ ltac:(vm_compute; reflexivity))
    as (_ & Hlines & Hdebit & _).
  split; [exact Hlines|]. rewrite Hdebit. vm_compute. reflexivity.
Defined.

(** C6, as written, fails: an entry with a debit of 100 and a credit of 50
    is sent to POST /api/journal-entries and is answered 201. *)
Lemma unbalanced_entry_created :
  ~ unbalanced_entry_fails Sample.cashier "2026" Sample.now Sample.unbalanced_entry Sample.store.
Proof.
  intros Hclaim. apply Hclaim; [vm_compute|]; reflexivity.
Qed.

(** The form itself lets through lines that differ by half a cent. *)
Example form_tolerance :
  exists payload,
    onJournalSubmit Sample.nearly_balanced_lines = Mutate payload /\
    Double.eqb (sum_debit Sample.nearly_balanced_lines) (sum_credit Sample.nearly_balanced_lines)
      = false.
Proof. eexists. split; vm_compute; reflexivity. Qed.

(** The comparison is made on the computed numbers.  Lines of 100.01
    against 100 are refused: the computed difference is
    0.010000000000005116, above the computed 0.01. *)
Example form_refuses_a_cent :
  onJournalSubmit Sample.lines_a_cent_apart = Toast "Total debits must equal total credits".
Proof. vm_compute. reflexivity. Qed.

(** And debits of 10000000000000000 and 0.02 against a credit of
    10000000000000000 are sent: the computed sum of the debits is
    10000000000000000, though the exact sums are more than 0.01 apart. *)
Example form_sends_large_amounts :
  exists payload debits credits,
    onJournalSubmit Sample.lines_of_large_amounts = Mutate payload /\
    JournalRequest.totalDebit payload = JournalRequest.totalCredit payload /\
    exact_sum_debit Sample.lines_of_large_amounts = Some debits /\
    exact_sum_credit Sample.lines_of_large_amounts = Some credits /\
    (1 # 100 < debits - credits)%Q.
Proof.
  eexists _, _, _. split; [vm_compute; reflexivity|].
  split; [vm_compute; reflexivity|]. split; [vm_compute; reflexivity|].
  split; [vm_compute; reflexivity|]. vm_compute. reflexivity.
Qed.

(** ** DELETE /api/customers/:id and DELETE /api/suppliers/:id *)

(** C10, as amended: DELETE /api/customers/:id and DELETE
    /api/suppliers/:id answer 404 for a missing entity and 400 for an entity
    whose outstanding amount is greater than 0, and change nothing in both
    cases; in every other case, an outstanding amount that is 0, unset,
    negative or not a number, the entity is deleted and the answer is 200.
    So no customer or supplier whose outstanding amount is greater than 0
    is deleted by these routes. *)
Theorem delete_guarded_by_outstanding id s :
  match customers s !! id with
  | None => delete_customer id s = (s, mkResponse 404 (Message "Customer not found"))
  | Some customer =>
      if num_gtb (customer_outstanding customer) zero
      then delete_customer id s
           = (s, mkResponse 400 (Message "Cannot delete customer with outstanding amount"))
      else delete_customer id s
           = (with_customers (delete id) s, mkResponse 200 (Message "Customer deleted successfully"))
  end /\
  match suppliers s !! id with
  | None => delete_supplier id s = (s, mkResponse 404 (Message "Supplier not found"))
  | Some supplier =>
      if num_gtb (supplier_outstanding supplier) zero
      then delete_supplier id s
           = (s, mkResponse 400 (Message "Cannot delete supplier with outstanding amount"))
      else delete_supplier id s
           = (with_suppliers (delete id) s, mkResponse 200 (Message "Supplier deleted successfully"))
  end /\
  (forall customer,
     customers s !! id = Some customer ->
     customers (fst (delete_customer id s)) !! id = None ->
     num_gtb (customer_outstanding customer) zero = false) /\
  (forall supplier,
     suppliers s !! id = Some supplier ->
     suppliers (fst (delete_supplier id s)) !! id = None ->
     num_gtb (supplier_outstanding supplier) zero = false).
Proof.
  unfold delete_customer, delete_customer_try, delete_supplier, delete_supplier_try,
    getCustomer, getSupplier, deleteCustomer, deleteSupplier, bind, gets, modify, ret,
    customer_outstanding, supplier_outstanding.
  repeat split.
  - destruct (customers s !! id) as [customer|]; [|reflexivity].
    by destruct (num_gtb _ _).
  - destruct (suppliers s !! id) as [supplier|]; [|reflexivity].
    by destruct (num_gtb _ _).
  - intros customer Hcustomer. rewrite Hcustomer.
    destruct (num_gtb _ _); [|reflexivity]. simpl. congruence.
  - intros supplier Hsupplier. rewrite Hsupplier.
    destruct (num_gtb _ _); [|reflexivity]. simpl. congruence.
Qed.

Lemma delete_guarded_by_outstanding_witness :
  customers Sample.store !! "C" = Some Sample.acme /\
  delete_customer "C" Sample.store
    = (Sample.store, mkResponse 400 (Message "Cannot delete customer with outstanding amount")) /\
  delete_supplier "V" Sample.store
    = (with_suppliers (delete "V") Sample.store,
       mkResponse 200 (Message "Supplier deleted successfully")) /\
  delete_customer "D" Sample.overpaid_store
    = (with_customers (delete "D") Sample.overpaid_store,
       mkResponse 200 (Message "Customer deleted successfully")) /\
  delete_supplier "W" Sample.overpaid_suppliers
    = (with_suppliers (delete "W") Sample.overpaid_suppliers,
       mkResponse 200 (Message "Supplier deleted successfully")).
Proof.
  split; [reflexivity|].
  destruct (delete_guarded_by_outstanding "C" Sample.store) as (Hcustomer & _).
  destruct (delete_guarded_by_outstanding "V" Sample.store) as (_ & Hsupplier & _).
  destruct (delete_guarded_by_outstanding "D" Sample.overpaid_store) as (Hoverpaid & _).
  destruct (delete_guarded_by_outstanding "W" Sample.overpaid_suppliers) as (_ & Hoverpaid' & _).
  split; [exact Hcustomer|]. split; [exact Hsupplier|]. split; [exact Hoverpaid|exact Hoverpaid'].
Defined.

(** C10, as written, fails: customer D has an outstanding amount of -50,
    neither 0 nor unset, and DELETE /api/customers/D deletes it. *)
Lemma overpaid_customer_deleted :
  ~ deleted_only_when_zero_or_unset "D" Sample.overpaid_store.
Proof.
  intros Hclaim.
  destruct (Hclaim _ eq_refl eq_refl) as [Hunset|Hzero]; [discriminate|].
  vm_compute in Hzero. discriminate.
Qed.

(** * Further properties of the handlers *)

(** ** The ids of the rows *)

Lemma issued_later s s' id :
  (nextId s <= nextId s')%nat -> issued s id -> issued s' id.
Proof. intros Hle (n & Hn & ->). exists n. split; [lia|reflexivity]. Qed.

(** The id that [gen_random_uuid] hands out next has not been handed
    out. *)
Lemma next_id_not_issued s : ~ issued s ("id-" +:+ pretty (nextId s)).
Proof.
  intros (n & Hn & Hid). simpl in Hid. simplify_eq. lia.
Qed.

(** So no row carries it, in a store whose ids were all handed out. *)
Lemma next_id_unused s : ids_issued s -> unused_id s ("id-" +:+ pretty (nextId s)).
Proof.
  intros (Hsales & Hitems & Hmoves & Horders & Horderitems).
  repeat split.
  all: eapply Forall_impl; [eassumption|].
  all: intros row Hrow Heq; simpl in Hrow; rewrite Heq in Hrow.
  all: by apply next_id_not_issued in Hrow.
Qed.

Lemma createSalesTransaction_ids v s s' out :
  createSalesTransaction v s = (s', out) ->
  ids_issued s -> ids_issued s' /\ (nextId s <= nextId s')%nat.
Proof.
  unfold createSalesTransaction. intros H Hids. run; (split; [ids_step|simpl; lia]).
Qed.

Lemma create_sale_item_ids v t item s s' out :
  create_sale_item v t item s = (s', out) ->
  ids_issued s -> ids_issued s' /\ (nextId s <= nextId s')%nat.
Proof.
  unfold create_sale_item, createSalesTransactionItem, createStockMovement.
  intros H Hids. run; (split; [ids_step|simpl; lia]).
Qed.

Lemma create_sale_items_ids v t items :
  forall acc s s' out,
    create_sale_items v t items acc s = (s', out) ->
    ids_issued s -> ids_issued s' /\ (nextId s <= nextId s')%nat.
Proof.
  induction items as [|item rest IH]; intros acc s s' out H Hids; simpl in H.
  - unfold ret in H. by simplify_eq.
  - unfold bind in H.
    destruct (create_sale_item v t item s) as [s1 [e|row]] eqn:Hitem.
    + simplify_eq. eapply create_sale_item_ids; eauto.
    + apply create_sale_item_ids in Hitem as [Hids1 Hle1]; [|exact Hids].
      apply IH in H as [Hids2 Hle2]; [|exact Hids1]. split; [exact Hids2|lia].
Qed.

(** POST /api/sales keeps the ids of the rows such as were handed out. *)
Lemma post_sales_ids now req s :
  ids_issued s -> ids_issued (fst (post_sales now req s)).
Proof.
  intros Hids. unfold post_sales. rewrite post_sales_try_run.
  destruct (insertSalesTransactionSchema _ _) as [v|]; [|exact Hids].
  destruct (createSalesTransaction v s) as [s1 [e|t]] eqn:Ht;
    apply createSalesTransaction_ids in Ht as [Hids1 _]; try exact Hids; [exact Hids1|].
  destruct (SalesRequest.items req) as [items|]; [|exact Hids1].
  destruct (create_sale_items v t items [] s1) as [s2 [e|rows]] eqn:Hrows;
    apply create_sale_items_ids in Hrows as [Hids2 _]; try exact Hids1; [exact Hids2|].
  rewrite update_outstanding_for_credit_run. simpl.
  destruct (is_credit _ && _); [|exact Hids2]. exact Hids2.
Qed.

Lemma createSalesTransactionItem_unparsed_ids item transactionId s s' out :
  createSalesTransactionItem_unparsed item transactionId s = (s', out) ->
  ids_issued s -> ids_issued s' /\ (nextId s <= nextId s')%nat.
Proof.
  unfold createSalesTransactionItem_unparsed, createSalesTransactionItem.
  intros H Hids. run; (split; [ids_step|simpl; lia]).
Qed.

Lemma recreate_sale_items_ids transactionId items :
  forall acc s s' out,
    recreate_sale_items transactionId items acc s = (s', out) ->
    ids_issued s -> ids_issued s' /\ (nextId s <= nextId s')%nat.
Proof.
  induction items as [|item rest IH]; intros acc s s' out H Hids; simpl in H.
  - unfold ret in H. by simplify_eq.
  - unfold bind in H.
    destruct (createSalesTransactionItem_unparsed item transactionId s) as [s1 [e|row]] eqn:Hitem.
    + simplify_eq. eapply createSalesTransactionItem_unparsed_ids; eauto.
    + apply createSalesTransactionItem_unparsed_ids in Hitem as [Hids1 Hle1]; [|exact Hids].
      apply IH in H as [Hids2 Hle2]; [|exact Hids1]. split; [exact Hids2|lia].
Qed.

(** PUT /api/sales/:transactionId keeps them so: the header keeps its id
    and the new items take new ids. *)
Lemma put_sales_ids user transactionId req s :
  ids_issued s -> ids_issued (fst (put_sales user transactionId req s)).
Proof.
  intros Hids. unfold put_sales. rewrite put_sales_try_run.
  destruct (List.find _ _) as [existing|]; [|exact Hids].
  destruct (access_denied _ _); [exact Hids|].
  destruct (updateSalesTransaction _ _ s) as [s1 [e|t]] eqn:Hupdate.
  { apply updateSalesTransaction_inv in Hupdate as [(? & ? & ->)|(? & ? & _ & ? & _)];
      [exact Hids|discriminate]. }
  apply updateSalesTransaction_inv in Hupdate
    as [(? & ? & _)|(existing' & paymentMethod & _ & _ & ->)]; [discriminate|].
  assert (Hids2 : ids_issued
            (with_salesTransactionItems
               (List.filter (fun i =>
                  negb (String.eqb (SalesTransactionItem.transactionId i) transactionId)))
               (with_salesTransactions
                  (List.map (fun row =>
                     if String.eqb (SalesTransaction.id row) transactionId
                     then patch_transaction (SalesRequest.transaction req) paymentMethod row
                     else row)) s))).
  { destruct Hids as (Hsales & Hitems & Hmoves & Horders & Horderitems).
    unfold ids_issued. simpl. repeat split; try assumption.
    - apply Forall_forall. intros row Hrow. apply list_elem_of_In, in_map_iff in Hrow
        as (old & <- & Hold).
      rewrite Forall_forall in Hsales. apply list_elem_of_In, Hsales in Hold.
      by destruct (String.eqb _ _).
    - apply Forall_forall. intros row Hrow. apply list_elem_of_In, filter_In in Hrow as [Hrow _].
      rewrite Forall_forall in Hitems. by apply list_elem_of_In, Hitems in Hrow. }
  simpl.
  destruct (SalesRequest.items req) as [items|]; [|exact Hids2].
  destruct (recreate_sale_items _ _ _ _) as [s3 [e|rows]] eqn:Hloop;
    apply recreate_sale_items_ids in Hloop as [Hids3 _]; try exact Hids2; exact Hids3.
Qed.

Lemma create_order_items_ids createdOrder processedItems :
  forall acc s s' out,
    create_order_items createdOrder processedItems acc s = (s', out) ->
    ids_issued s -> ids_issued s' /\ (nextId s <= nextId s')%nat.
Proof.
  induction processedItems as [|item rest IH]; intros acc s s' out H Hids; simpl in H.
  - unfold ret in H. by simplify_eq.
  - unfold bind at 1, parse in H.
    destruct (insertPurchaseOrderItemSchema item _) as [v|].
    + unfold ret at 1, bind at 1, createPurchaseOrderItem, bind at 1, gen_random_uuid in H.
      unfold bind at 1, modify, ret at 1 in H.
      apply IH in H as [Hids2 Hle2]; [split; [exact Hids2|simpl in Hle2; lia]|].
      ids_step.
    + unfold throw in H. by simplify_eq.
Qed.

(** And so does POST /api/purchase-orders. *)
Lemma post_purchase_orders_ids user req s :
  ids_issued s -> ids_issued (fst (post_purchase_orders user req s)).
Proof.
  intros Hids. unfold post_purchase_orders. rewrite post_purchase_orders_try_run.
  destruct (truthy _); [|exact Hids]. cbv zeta.
  set (stationId := default "" (AuthenticatedUser.stationId user)).
  assert (Hids0 : ids_issued (fst (purchase_settings stationId s))).
  { unfold purchase_settings. by destruct (settings s !! stationId). }
  set (s0 := fst (purchase_settings stationId s)) in *.
  set (config := snd (purchase_settings stationId s)) in *.
  assert (Hstored : forall orderData items,
            ids_issued (fst (purchase_store_order orderData items s0))).
  { intros orderData items. unfold purchase_store_order.
    destruct (insertPurchaseOrderSchema orderData) as [validatedOrder|]; [|exact Hids0].
    destruct (createPurchaseOrder validatedOrder s0) as [s1 [e|createdOrder]] eqn:Hcreate.
    - apply createPurchaseOrder_inv in Hcreate as [(? & ? & ->)|(? & ? & _)];
        [exact Hids0|discriminate].
    - assert (Hids1 : ids_issued s1).
      { unfold createPurchaseOrder in Hcreate. clear -Hcreate Hids0. run. ids_step. }
      destruct (create_order_items _ _ _ _) as [s2 [e|rows]] eqn:Hloop;
        apply create_order_items_ids in Hloop as [Hids2 _]; try exact Hids1; exact Hids2. }
  destruct (PurchaseRequest.items req) as [items|]; [|exact Hids0].
  destruct (PurchaseRequest.order req) as [order|]; [|exact Hids0].
  destruct (RawPurchaseOrder.orderDate order) as [| |orderDate]; try exact Hids0.
  destruct (RawPurchaseOrder.expectedDeliveryDate order) as [| |time]; try exact Hids0.
  all: match goal with
       | |- context [purchase_store_order ?d ?i ?s1] =>
           specialize (Hstored d i); destruct (purchase_store_order d i s1) as [s' [e|r]]
       end; exact Hstored.
Qed.


(** ** POST /api/sales: invoice numbers, answers and what is left alone *)


(** The id that the next created row takes. *)
Lemma createSalesTransaction_id v s s' t :
  createSalesTransaction v s = (s', inr t) ->
  SalesTransaction.id t = "id-" +:+ pretty (nextId s).
Proof. unfold createSalesTransaction. intros H. by run. Qed.

(** The body of the loop only appends: the rows of items and of stock
    movements that were there stay, in their order. *)
Lemma create_sale_item_appends v t item s s' out :
  create_sale_item v t item s = (s', out) ->
  (exists rows, salesTransactionItems s' = salesTransactionItems s ++ rows) /\
  (exists ms, stockMovements s' = stockMovements s ++ ms).
Proof.
  unfold create_sale_item, createSalesTransactionItem, createStockMovement.
  intros H. run.
  all: split; [first [by exists [] ; rewrite app_nil_r | by eexists] |
               first [by exists [] ; rewrite app_nil_r | by eexists]].
Qed.

Lemma create_sale_items_appends v t items :
  forall acc s s' out,
    create_sale_items v t items acc s = (s', out) ->
    (exists rows, salesTransactionItems s' = salesTransactionItems s ++ rows) /\
    (exists ms, stockMovements s' = stockMovements s ++ ms).
Proof.
  induction items as [|item rest IH]; intros acc s s' out H; simpl in H.
  - unfold ret in H. simplify_eq. split; exists []; by rewrite app_nil_r.
  - unfold bind in H.
    destruct (create_sale_item v t item s) as [s1 [e|row]] eqn:Hitem.
    + simplify_eq. eapply create_sale_item_appends; eauto.
    + apply create_sale_item_appends in Hitem as ((rows1 & Hrows1) & (ms1 & Hms1)).
      apply IH in H as ((rows2 & Hrows2) & (ms2 & Hms2)).
      split; [exists (rows1 ++ rows2)|exists (ms1 ++ ms2)]; rewrite app_assoc; congruence.
Qed.



(** X2: a request whose body carries no [items] array, with a valid header
    and a free invoice number, is answered 400 "Invalid sales data" by the
    [catch] of the loop, after its header has been stored: the store is left
    with the new sales transaction and nothing else is changed.  The id of
    the new row is the one that the count of the store names; in a store
    whose ids were handed out by [gen_random_uuid] it is an id that no row
    carries, and the store stays such a store. *)
Theorem post_sales_missing_items now transaction s v :
  insertSalesTransactionSchema transaction (sale_invoiceNumber now) = Some v ->
  (forall t, In t (salesTransactions s) ->
             SalesTransaction.invoiceNumber t <> sale_invoiceNumber now) ->
  exists t,
    post_sales now (SalesRequest.mk transaction None) s
      = (with_salesTransactions (fun rows => rows ++ [t]) (with_nextId S s),
         mkResponse 400 (Message "Invalid sales data")) /\
    SalesTransaction.invoiceNumber t = sale_invoiceNumber now /\
    SalesTransaction.id t = "id-" +:+ pretty (nextId s) /\
    (ids_issued s ->
     unused_id s (SalesTransaction.id t) /\
     ids_issued (with_salesTransactions (fun rows => rows ++ [t]) (with_nextId S s))).
Proof.
  intros Hv Hfree.
  pose proof (insertSalesTransactionSchema_invoiceNumber _ _ _ Hv) as Hnumber.
  pose proof (post_sales_ids now (SalesRequest.mk transaction None) s) as Hkept.
  assert (Hrun : exists t,
    post_sales now (SalesRequest.mk transaction None) s
      = (with_salesTransactions (fun rows => rows ++ [t]) (with_nextId S s),
         mkResponse 400 (Message "Invalid sales data")) /\
    SalesTransaction.invoiceNumber t = sale_invoiceNumber now /\
    SalesTransaction.id t = "id-" +:+ pretty (nextId s)).
  { clear Hkept.
    unfold post_sales. rewrite post_sales_try_run. simpl. rewrite Hv.
    unfold createSalesTransaction, bind at 1, gets.
    rewrite Hnumber, (invoiceNumber_free _ _ Hfree).
    unfold bind, gen_random_uuid, modify, ret. simpl.
    eexists. split; [reflexivity|]. split; reflexivity. }
  destruct Hrun as (t & Hrun & Hinvoice & Hid).
  exists t. split; [exact Hrun|]. split; [exact Hinvoice|]. split; [exact Hid|].
  intros Hids. rewrite Hrun in Hkept. rewrite Hid.
  split; [by apply next_id_unused|by apply Hkept].
Qed.

Lemma post_sales_missing_items_witness :
  ids_issued Sample.store_after_sale /\
  exists t,
    post_sales "1700000654321" (SalesRequest.mk Sample.credit_sale None) Sample.store_after_sale
      = (with_salesTransactions (fun rows => rows ++ [t]) (with_nextId S Sample.store_after_sale),
         mkResponse 400 (Message "Invalid sales data")) /\
    SalesTransaction.invoiceNumber t = "SAL654321" /\
    SalesTransaction.id t = "id-3" /\
    unused_id Sample.store_after_sale "id-3".
Proof.
  assert (Hids : ids_issued Sample.store_after_sale).
  { apply post_sales_ids. repeat split; constructor. }
  split; [exact Hids|].
  destruct (post_sales_missing_items "1700000654321" Sample.credit_sale Sample.store_after_sale
              _ eq_refl)
    as (t & Hrun & Hnumber & Hid & Hfresh).
  { intros t [<-|[]]. vm_compute. discriminate. }
  exists t. destruct (Hfresh Hids) as [Hunused _]. rewrite Hid in Hunused.
  split; [exact Hrun|]. split; [exact Hnumber|]. split; [exact Hid|exact Hunused].
Defined.

(** X3: the answer 201 of POST /api/sales reports what was stored: its
    transaction is the one row added to the sales transactions, under the
    id that the count of the store names and the invoice number made from
    the clock, and its items are the rows added to the items, one per
    submitted item and in their order, each filed under the id of that
    transaction.  In a store whose ids were handed out by
    [gen_random_uuid] the id of the transaction is fresh: no row of the
    store carried it; and the store stays such a store. *)
Theorem post_sales_answer_is_stored now req s s' response :
  post_sales now req s = (s', response) ->
  status response = 201%nat ->
  exists t rows items,
    response = mkResponse 201 (SaleBody t rows) /\
    SalesRequest.items req = Some items /\
    SalesTransaction.id t = "id-" +:+ pretty (nextId s) /\
    SalesTransaction.invoiceNumber t = sale_invoiceNumber now /\
    salesTransactions s' = salesTransactions s ++ [t] /\
    salesTransactionItems s' = salesTransactionItems s ++ rows /\
    Forall2 (stored_as (SalesTransaction.id t)) items rows /\
    (ids_issued s -> unused_id s (SalesTransaction.id t) /\ ids_issued s').
Proof.
  intros Hrun Hstatus.
  assert (Hkept : ids_issued s -> ids_issued s')
    by (pose proof (post_sales_ids now req s) as H; by rewrite Hrun in H).
  destruct (post_sales_created _ _ _ _ _ Hrun Hstatus)
    as (v & t & items & rows & s1 & s2 & Hv & Ht & Hitems & Hrows & Hcredit & ->).
  apply insertSalesTransactionSchema_invoiceNumber in Hv.
  pose proof (createSalesTransaction_id _ _ _ _ Ht) as Hid.
  apply createSalesTransaction_inv in Ht
    as [(? & ? & _)|(t' & Ht' & -> & Hnumber & _)]; [discriminate|].
  injection Ht' as <-.
  pose proof (create_sale_items_frame _ _ _ _ _ _ _ Hrows) as (_ & _ & _ & Hheaders & _).
  apply create_sale_items_ok in Hrows as (rows' & ms & Hcreated & Hstored & Hall & _).
  simpl in Hcreated. subst rows'.
  rewrite update_outstanding_for_credit_run in Hcredit.
  assert (salesTransactions s' = salesTransactions s2 /\
          salesTransactionItems s' = salesTransactionItems s2) as [Hs Hi]
    by (injection Hcredit as <-; by destruct (is_credit _ && _)).
  exists t, rows, items. split; [reflexivity|]. split; [exact Hitems|].
  split; [exact Hid|]. split; [congruence|]. split; [rewrite Hs; exact Hheaders|].
  split; [rewrite Hi; exact Hstored|]. split; [exact Hall|].
  intros Hids. split; [rewrite Hid; by apply next_id_unused|by apply Hkept].
Qed.

Lemma post_sales_answer_is_stored_witness :
  ids_issued Sample.store_after_sale /\
  exists t row,
    snd (post_sales "1700000654321" Sample.sale_request Sample.store_after_sale)
      = mkResponse 201 (SaleBody t [row]) /\
    SalesTransaction.id t = "id-3" /\
    unused_id Sample.store_after_sale "id-3" /\
    stored_as "id-3" Sample.fuel row.
Proof.
  assert (Hids : ids_issued Sample.store_after_sale).
  { apply post_sales_ids. repeat split; constructor. }
  split; [exact Hids|].
  destruct (post_sales_answer_is_stored "1700000654321" Sample.sale_request
              Sample.store_after_sale _ _ (surjective_pairing _))
    as (t & rows & items & Hresponse & Hitems & Hid & _ & _ & _ & Hstored & Hfresh);
    [vm_compute; reflexivity|].
  injection Hitems as <-.
  inversion Hstored as [|item row items' rows' Hrow Hrest]; subst.
  inversion Hrest; subst.
  exists t, row. destruct (Hfresh Hids) as [Hunused _].
  rewrite Hid in Hrow, Hunused.
  split; [exact Hresponse|]. split; [exact Hid|]. split; [exact Hunused|exact Hrow].
Defined.

(** X4: whatever the request and however it ends, POST /api/sales answers
    201 or 400 and only adds to the tables of the sale: the sales
    transactions, their items and the stock movements that were stored stay
    as they were, in their order, with at most one sales transaction added;
    suppliers, settings, purchase orders and their items are not touched. *)
Theorem post_sales_appends now req s s' response :
  post_sales now req s = (s', response) ->
  (status response = 201%nat \/ status response = 400%nat) /\
  (salesTransactions s' = salesTransactions s \/
   exists t, salesTransactions s' = salesTransactions s ++ [t]) /\
  (exists rows, salesTransactionItems s' = salesTransactionItems s ++ rows) /\
  (exists ms, stockMovements s' = stockMovements s ++ ms) /\
  suppliers s' = suppliers s /\ settings s' = settings s /\
  purchaseOrders s' = purchaseOrders s /\ purchaseOrderItems s' = purchaseOrderItems s.
Proof.
  unfold post_sales. rewrite post_sales_try_run. intros H.
  assert (Hsame : forall r, (s, r) = (s', response) -> status r = 400%nat ->
            (status response = 201%nat \/ status response = 400%nat) /\
            (salesTransactions s' = salesTransactions s \/
             exists t, salesTransactions s' = salesTransactions s ++ [t]) /\
            (exists rows, salesTransactionItems s' = salesTransactionItems s ++ rows) /\
            (exists ms, stockMovements s' = stockMovements s ++ ms) /\
            suppliers s' = suppliers s /\ settings s' = settings s /\
            purchaseOrders s' = purchaseOrders s /\ purchaseOrderItems s' = purchaseOrderItems s).
  { intros r Hr Hs. injection Hr as <- <-.
    repeat split; auto; exists []; by rewrite app_nil_r. }
  destruct (insertSalesTransactionSchema _ _) as [v|]; [|by apply (Hsame _ H)].
  destruct (createSalesTransaction v s) as [s1 [e|t]] eqn:Ht.
  { apply createSalesTransaction_inv in Ht as [(? & ? & ->)|(? & ? & _)]; [|discriminate].
    apply (Hsame _ H). by destruct e. }
  apply createSalesTransaction_inv in Ht as [(? & ? & _)|(t' & Ht' & -> & _)]; [discriminate|].
  injection Ht' as <-. clear Hsame.
  destruct (SalesRequest.items req) as [items|].
  2:{ injection H as <- <-. simpl.
      repeat split; eauto; exists []; by rewrite app_nil_r. }
  destruct (create_sale_items v t items [] _) as [s2 [e|rows]] eqn:Hrows.
  all: pose proof (create_sale_items_frame _ _ _ _ _ _ _ Hrows)
         as (_ & Hsuppliers & Hsettings & Hheaders & Horders & Horderitems).
  all: apply create_sale_items_appends in Hrows as (Hitems & Hmoves).
  all: simpl in *.
  - injection H as <- <-.
    split; [right; by destruct e|]. repeat split; eauto.
  - rewrite update_outstanding_for_credit_run in H. injection H as <- <-.
    split; [by left|].
    destruct (is_credit _ && _); simpl; repeat split; eauto.
Qed.

Lemma post_sales_appends_witness :
  status (snd (post_sales Sample.now Sample.failing_request Sample.store)) = 400%nat /\
  exists t,
    salesTransactions (fst (post_sales Sample.now Sample.failing_request Sample.store))
      = salesTransactions Sample.store ++ [t].
Proof.
  split; [reflexivity|].
  destruct (post_sales_appends Sample.now Sample.failing_request Sample.store _ _ eq_refl)
    as (_ & [Hsame|Hadded] & _).
  - vm_compute in Hsame. discriminate.
  - exact Hadded.
Defined.

(** ** PUT /api/sales/:transactionId: refusals and the station check *)

(** After an update the row found under the id is the patched one. *)
Lemma find_patched id patch paymentMethod (rows : list SalesTransaction.t) :
  List.find (fun t => String.eqb (SalesTransaction.id t) id)
    (List.map (fun row =>
       if String.eqb (SalesTransaction.id row) id
       then patch_transaction patch paymentMethod row else row) rows) =
  option_map (patch_transaction patch paymentMethod)
    (List.find (fun t => String.eqb (SalesTransaction.id t) id) rows).
Proof.
  induction rows as [|row rows IH]; simpl; [reflexivity|].
  destruct (String.eqb (SalesTransaction.id row) id) eqn:Hid; simpl; rewrite Hid.
  - reflexivity.
  - exact IH.
Qed.

(** The course of a PUT that is answered 200. *)
Lemma put_sales_updated user transactionId req s s' response :
  put_sales user transactionId req s = (s', response) ->
  status response = 200%nat ->
  exists existing paymentMethod,
    List.find (fun t => String.eqb (SalesTransaction.id t) transactionId) (salesTransactions s)
      = Some existing /\
    access_denied user (SalesTransaction.stationId existing) = false /\
    salesTransactions s' =
      List.map (fun row =>
        if String.eqb (SalesTransaction.id row) transactionId
        then patch_transaction (SalesRequest.transaction req) paymentMethod row else row)
        (salesTransactions s).
Proof.
  unfold put_sales. rewrite put_sales_try_run. intros H Hstatus.
  destruct (List.find _ _) as [existing|] eqn:Hfind; [|by simplify_eq].
  destruct (access_denied _ _) eqn:Haccess; [by simplify_eq|].
  destruct (updateSalesTransaction _ _ s) as [s1 [e|t]] eqn:Hupdate; [by simplify_eq|].
  apply updateSalesTransaction_inv in Hupdate
    as [(? & ? & _)|(existing' & paymentMethod & _ & _ & ->)]; [discriminate|].
  simpl in H.
  destruct (SalesRequest.items req) as [items|]; [|by simplify_eq].
  destruct (recreate_sale_items _ _ _ _) as [s3 [e|rows]] eqn:Hloop; [by simplify_eq|].
  apply recreate_sale_items_inv in Hloop as ((_ & _ & _ & _ & Hheaders & _) & _).
  simplify_eq. exists existing, paymentMethod. repeat split; assumption.
Qed.

(** X5: PUT /api/sales/:transactionId answers 404 exactly when no sales
    transaction has the id, and 403 exactly when there is one and the user
    is neither an admin nor of its station; in both cases the answer is the
    fixed message and nothing is written, whatever the body carries. *)
Theorem put_sales_refusals user transactionId req s s' response :
  put_sales user transactionId req s = (s', response) ->
  let found :=
    List.find (fun t => String.eqb (SalesTransaction.id t) transactionId) (salesTransactions s) in
  (status response = 404%nat <-> found = None) /\
  (status response = 403%nat <->
   exists existing,
     found = Some existing /\ access_denied user (SalesTransaction.stationId existing) = true) /\
  (status response = 404%nat -> s' = s /\ response = mkResponse 404 (Message "Transaction not found")) /\
  (status response = 403%nat -> s' = s /\ response = mkResponse 403 (Message "Access denied")).
Proof.
  unfold put_sales. rewrite put_sales_try_run. intros H. cbv zeta.
  destruct (List.find _ _) as [existing|] eqn:Hfind.
  2:{ simplify_eq. simpl. repeat split; try done. by intros (? & ? & _). }
  destruct (access_denied _ _) eqn:Haccess.
  { simplify_eq. simpl. repeat split; try done. eauto. }
  assert (status response = 200%nat \/ status response = 500%nat) as Hstatus.
  { destruct (updateSalesTransaction _ _ s) as [s1 [e|t]]; [simplify_eq; by right|].
    simpl in H. destruct (SalesRequest.items req) as [items|]; [|simplify_eq; by right].
    destruct (recreate_sale_items _ _ _ _) as [s3 [e|rows]]; simplify_eq; [by right|by left]. }
  split; [split; [intros ?; exfalso; destruct Hstatus; lia|discriminate]|].
  split; [split; [intros ?; exfalso; destruct Hstatus; lia|]|].
  { intros (existing' & Hexisting & Hdenied). congruence. }
  split; intros ?; exfalso; destruct Hstatus; lia.
Qed.

Lemma put_sales_refusals_witness :
  put_sales Sample2.other_manager "id-0" Sample.edit_request Sample.store_after_sale
    = (Sample.store_after_sale, mkResponse 403 (Message "Access denied")) /\
  put_sales Sample.cashier "id-7" Sample.edit_request Sample.store_after_sale
    = (Sample.store_after_sale, mkResponse 404 (Message "Transaction not found")).
Proof.
  pose proof (put_sales_refusals Sample2.other_manager "id-0" Sample.edit_request
                Sample.store_after_sale _ _ (surjective_pairing _)) as (_ & _ & _ & Hdenied).
  pose proof (put_sales_refusals Sample.cashier "id-7" Sample.edit_request
                Sample.store_after_sale _ _ (surjective_pairing _)) as (_ & _ & Hmissing & _).
  split.
  - rewrite (surjective_pairing (put_sales Sample2.other_manager _ _ _)).
    destruct Hdenied as [-> ->]; [vm_compute|]; reflexivity.
  - rewrite (surjective_pairing (put_sales Sample.cashier _ _ _)).
    destruct Hmissing as [-> ->]; [vm_compute|]; reflexivity.
Defined.

(** X6: the station of a sale is checked against the stored row before the
    update, and the update takes the station of the body unchecked.  So a
    user other than an admin whose edit names another station than their
    own is answered 200, and from then on every PUT of that user on the
    sale is answered 403 and writes nothing. *)
Theorem put_sales_moves_sale_out_of_reach user transactionId req other s s' response :
  put_sales user transactionId req s = (s', response) ->
  status response = 200%nat ->
  AuthenticatedUser.role user <> "admin" ->
  RawSalesTransaction.stationId (SalesRequest.transaction req) = Some other ->
  AuthenticatedUser.stationId user <> Some other ->
  forall req',
    put_sales user transactionId req' s' = (s', mkResponse 403 (Message "Access denied")).
Proof.
  intros Hrun Hstatus Hrole Hmoved Hstation req'.
  destruct (put_sales_updated _ _ _ _ _ _ Hrun Hstatus)
    as (existing & paymentMethod & Hfind & _ & Hheaders).
  unfold put_sales. rewrite put_sales_try_run, Hheaders, find_patched, Hfind. simpl.
  rewrite Hmoved. simpl.
  replace (access_denied user other) with true; [reflexivity|].
  unfold access_denied. apply String.eqb_neq in Hrole. rewrite Hrole. simpl.
  by rewrite bool_decide_eq_false_2.
Qed.

Lemma put_sales_moves_sale_out_of_reach_witness :
  status (snd (put_sales Sample.cashier "id-0"
                 (SalesRequest.mk Sample2.move_to_S2 (Some [Sample.fuel]))
                 Sample.store_after_sale)) = 200%nat /\
  let moved := fst (put_sales Sample.cashier "id-0"
                      (SalesRequest.mk Sample2.move_to_S2 (Some [Sample.fuel]))
                      Sample.store_after_sale) in
  put_sales Sample.cashier "id-0" Sample.edit_request moved
    = (moved, mkResponse 403 (Message "Access denied")).
Proof.
  split; [reflexivity|].
  apply (put_sales_moves_sale_out_of_reach Sample.cashier "id-0"
           (SalesRequest.mk Sample2.move_to_S2 (Some [Sample.fuel])) "S2"
           Sample.store_after_sale _ _ eq_refl eq_refl).
  - discriminate.
  - reflexivity.
  - discriminate.
Defined.

(** ** POST /api/purchase-orders: what a refused request leaves behind *)

(** X7: the purchase handler reads the settings of the station, and creates
    the default record when there is none, before it looks at the body.  So
    a request without its [items] or without its [order], sent for a station
    that has no settings yet, is answered 400 "Invalid purchase order data"
    and still leaves the default settings record of the station behind. *)
Theorem post_purchase_orders_refused_after_settings user stationId req s :
  AuthenticatedUser.stationId user = Some stationId ->
  stationId <> "" ->
  settings s !! stationId = None ->
  PurchaseRequest.items req = None \/ PurchaseRequest.order req = None ->
  post_purchase_orders user req s
    = (with_settings (<[stationId := defaultSettings]>) s,
       mkResponse 400 (Message "Invalid purchase order data")).
Proof.
  intros Hstation Hnonempty Hnone Hmissing.
  unfold post_purchase_orders. rewrite post_purchase_orders_try_run, Hstation. simpl.
  apply String.eqb_neq in Hnonempty. rewrite Hnonempty. simpl.
  unfold purchase_settings. rewrite Hnone. simpl.
  destruct Hmissing as [-> | Horder]; [reflexivity|].
  destruct (PurchaseRequest.items req); [|reflexivity].
  by rewrite Horder.
Qed.

Lemma post_purchase_orders_refused_after_settings_witness :
  settings Sample.store !! "S" = None /\
  post_purchase_orders Sample.manager (PurchaseRequest.mk (Some Sample.order) None) Sample.store
    = (with_settings (<["S" := defaultSettings]>) Sample.store,
       mkResponse 400 (Message "Invalid purchase order data")).
Proof.
  split; [reflexivity|].
  apply (post_purchase_orders_refused_after_settings Sample.manager "S").
  - reflexivity.
  - discriminate.
  - reflexivity.
  - by left.
Defined.

(** The loop over the items of an order stops at the first item that the
    schema refuses, with the rows of the items before it stored. *)
Lemma create_order_items_refused createdOrder pre bad post :
  Forall (fun item => forall subtotal orderId,
            is_Some (insertPurchaseOrderItemSchema (ProcessedItem.mk item subtotal) orderId)) pre ->
  (forall subtotal orderId,
     insertPurchaseOrderItemSchema (ProcessedItem.mk bad subtotal) orderId = None) ->
  forall acc s,
  exists s' rows,
    create_order_items createdOrder
      (List.map (fun item => ProcessedItem.mk item (Double.toString (itemSubtotal item)))
         (pre ++ bad :: post)) acc s = (s', inl ZodError) /\
    purchaseOrderItems s' = purchaseOrderItems s ++ rows /\
    length rows = length pre.
Proof.
  intros Hpre Hbad. induction Hpre as [|item pre Hitem _ IH]; intros acc s; simpl.
  - exists s, []. unfold bind, parse. rewrite Hbad. rewrite app_nil_r. by repeat split.
  - unfold bind at 1, parse.
    destruct (Hitem (Double.toString (itemSubtotal item)) (PurchaseOrder.id createdOrder))
      as [v ->].
    unfold ret at 1, bind at 1, createPurchaseOrderItem, bind at 1, gen_random_uuid.
    unfold bind at 1, modify, ret at 1.
    match goal with
    | |- context [create_order_items _ _ ?acc' ?s1] =>
        destruct (IH acc' s1) as (s' & rows & Hrun & Hrows & Hlength)
    end.
    eexists s', (_ :: rows). split; [exact Hrun|]. split.
    + rewrite Hrows. simpl. by rewrite <- app_assoc.
    + simpl. by rewrite Hlength.
Qed.

(** The course of a request that stores a purchase order. *)
Lemma post_purchase_orders_stored user req s s' response :
  post_purchase_orders user req s = (s', response) ->
  purchaseOrders s' <> purchaseOrders s ->
  exists items createdOrder s1 out,
    PurchaseRequest.items req = Some items /\
    purchaseOrders s1 = purchaseOrders s ++ [createdOrder] /\
    purchaseOrderItems s1 = purchaseOrderItems s /\
    PurchaseOrder.subtotal createdOrder = Double.toString (fst (process_items items)) /\
    create_order_items createdOrder (snd (process_items items)) [] s1 = (s', out) /\
    response = match out with
               | inl e => post_purchase_orders_catch e
               | inr rows => mkResponse 201 (OrderBody createdOrder rows)
               end.
Proof.
  unfold post_purchase_orders. rewrite post_purchase_orders_try_run. intros H Hchanged.
  destruct (AuthenticatedUser.stationId user) as [stationId|]; simpl in H;
    [|by simplify_eq].
  destruct (negb (String.eqb stationId "")); simpl in H; [|by simplify_eq].
  pose proof (purchase_settings_inv stationId s) as (_ & Horders0 & Hitems0 & _).
  set (s0 := fst (purchase_settings stationId s)) in *.
  set (config := snd (purchase_settings stationId s)) in *.
  assert (Hfailed : forall e, (s0, post_purchase_orders_catch e) = (s', response) -> False).
  { intros e He. injection He as <- _. by apply Hchanged. }
  destruct (PurchaseRequest.items req) as [items|]; [|by destruct (Hfailed _ H)].
  destruct (PurchaseRequest.order req) as [order|]; [|by destruct (Hfailed _ H)].
  destruct (RawPurchaseOrder.orderDate order) as [| |orderDate];
    try (by destruct (Hfailed _ H)).
  assert ((exists e, (s0, post_purchase_orders_catch e) = (s', response)) \/
          exists expectedDeliveryDate out,
            purchase_store_order
              (purchase_orderData user stationId config items order orderDate expectedDeliveryDate)
              items s0 = (s', out) /\
            match out with
            | inl e => response = post_purchase_orders_catch e
            | inr r => response = r
            end) as [(e & He)|(expected & out & Hout & Hresponse)].
  { destruct (RawPurchaseOrder.expectedDeliveryDate order) as [| |time]; [|left; eauto|].
    all: right.
    all: match type of H with
         | (let (s', out) := ?run in _) = _ =>
             destruct run as [s2 [e|r]] eqn:Hrun; simplify_eq
         end.
    all: eexists _, _; split; [exact Hrun|reflexivity]. }
  { by destruct (Hfailed _ He). }
  unfold purchase_store_order in Hout.
  destruct (insertPurchaseOrderSchema _) as [validatedOrder|] eqn:Hvalid;
    [|exfalso; apply Hchanged; injection Hout as <- _; exact Horders0].
  destruct (createPurchaseOrder validatedOrder s0) as [s1 [e|createdOrder]] eqn:Hcreate.
  { apply createPurchaseOrder_inv in Hcreate as [(? & ? & ->)|(? & ? & _)]; [|discriminate].
    exfalso. apply Hchanged. injection Hout as <- _. exact Horders0. }
  apply createPurchaseOrder_inv in Hcreate
    as [(? & ? & _)|(order' & Horder' & Hs1 & _ & Hsubtotal & _)]; [discriminate|].
  injection Horder' as <-.
  unfold insertPurchaseOrderSchema in Hvalid.
  destruct (OrderData.orderNumber _); [|discriminate].
  destruct (OrderData.supplierId _); [|discriminate].
  injection Hvalid as <-. simpl in Hsubtotal.
  destruct (create_order_items createdOrder _ [] s1) as [final [e|rows]] eqn:Hloop.
  - exists items, createdOrder, s1, (inl e). injection Hout as <- <-. subst s1. simpl.
    repeat split; first [exact Hsubtotal|exact Hresponse|congruence].
  - exists items, createdOrder, s1, (inr rows). injection Hout as <- <-. subst s1. simpl.
    repeat split; first [exact Hsubtotal|exact Hresponse|congruence].
Qed.

(** X8: the items of a purchase order are validated one by one after the
    order has been stored.  When the request carries an item that the schema
    refuses, behind items that it accepts, the answer is 400 in every case;
    and when the order itself went through, it stays stored, with a
    subtotal that counts every item of the request, next to the rows of the
    items before the refused one only. *)
Theorem post_purchase_orders_item_refused user req s s' response pre bad post :
  post_purchase_orders user req s = (s', response) ->
  PurchaseRequest.items req = Some (pre ++ bad :: post) ->
  Forall (fun item => forall subtotal orderId,
            is_Some (insertPurchaseOrderItemSchema (ProcessedItem.mk item subtotal) orderId)) pre ->
  (forall subtotal orderId,
     insertPurchaseOrderItemSchema (ProcessedItem.mk bad subtotal) orderId = None) ->
  status response = 400%nat /\
  ((purchaseOrders s' = purchaseOrders s /\ purchaseOrderItems s' = purchaseOrderItems s) \/
   exists order rows,
     response = mkResponse 400 ValidationFailed /\
     purchaseOrders s' = purchaseOrders s ++ [order] /\
     purchaseOrderItems s' = purchaseOrderItems s ++ rows /\
     length rows = length pre /\
     PurchaseOrder.subtotal order = Double.toString (fst (process_items (pre ++ bad :: post)))).
Proof.
  intros Hrun Hitems Hpre Hbad.
  destruct (post_purchase_orders_inv _ _ _ _ _ Hrun)
    as (_ & _ & [(Horders & Hrows & Hstatus)|(? & ? & order & ? & _ & _ & Horders & _)]).
  { split; [exact Hstatus|]. left. by split. }
  assert (Hchanged : purchaseOrders s' <> purchaseOrders s).
  { rewrite Horders. intros Heq. apply (f_equal length) in Heq.
    rewrite length_app in Heq. simpl in Heq. lia. }
  destruct (post_purchase_orders_stored _ _ _ _ _ Hrun Hchanged)
    as (items & createdOrder & s1 & out & Hitems' & Horders1 & Hrows1 & Hsubtotal & Hloop & ->).
  rewrite Hitems in Hitems'. injection Hitems' as <-.
  pose proof (create_order_items_inv _ _ _ _ _ _ Hloop) as (_ & _ & Hkept & _).
  unfold process_items in Hloop. rewrite process_items_processed in Hloop. simpl in Hloop.
  destruct (create_order_items_refused createdOrder pre bad post Hpre Hbad [] s1)
    as (s2 & rows & Hrefused & Hrows & Hlength).
  rewrite Hrefused in Hloop. injection Hloop as <- <-.
  split; [reflexivity|]. right. exists createdOrder, rows.
  repeat split; try assumption; congruence.
Qed.

Lemma post_purchase_orders_item_refused_witness :
  exists order row,
    post_purchase_orders Sample.manager
      (PurchaseRequest.mk (Some Sample.order)
         (Some [Sample.delivery; Sample2.incomplete_delivery; Sample.additive]))
      Sample.taxed_store
    = (with_purchaseOrderItems (fun rows => rows ++ [row])
         (with_purchaseOrders (fun rows => rows ++ [order])
            (with_nextId (fun n => S (S n)) Sample.taxed_store)),
       mkResponse 400 ValidationFailed) /\
    PurchaseOrder.subtotal order = Double.of_Z 2580.
Proof.
  destruct (post_purchase_orders_item_refused Sample.manager
              (PurchaseRequest.mk (Some Sample.order)
                 (Some [Sample.delivery; Sample2.incomplete_delivery; Sample.additive]))
              Sample.taxed_store _ _ [Sample.delivery] Sample2.incomplete_delivery
              [Sample.additive] eq_refl eq_refl) as (_ & _).
  - constructor; [|constructor]. intros subtotal orderId. by eexists.
  - reflexivity.
  - eexists _, _. split; [reflexivity|]. vm_compute. reflexivity.
Defined.

(** ** GET and POST /api/settings/:stationId *)

Lemma insertSettingsSchema_inv body stationId v :
  insertSettingsSchema body stationId = Some v ->
  v = InsertSettings.mk stationId (RawSettings.taxEnabled body) (RawSettings.taxRate body)
        (RawSettings.currencyCode body).
Proof.
  unfold insertSettingsSchema. intros H.
  destruct (RawSettings.currencyCode body) as [code|]; [|by simplify_eq].
  destruct (currencyCodeEnum code); by simplify_eq.
Qed.

(** POST /api/settings/:stationId, call by call. *)
Lemma post_settings_run stationId body s :
  post_settings stationId body s =
  match insertSettingsSchema body stationId with
  | None => (s, mkSettingsResponse 400 (SettingsMessage "Invalid settings data"))
  | Some v =>
      match settings s !! stationId with
      | Some existing => (s, mkSettingsResponse 409 (SettingsConflict existing))
      | None =>
          (with_settings (<[stationId := settings_row v]>) s,
           mkSettingsResponse 201 (SettingsRecord stationId (settings_row v)))
      end
  end.
Proof.
  unfold post_settings, bind, parse.
  destruct (insertSettingsSchema body stationId) as [v|]; [|reflexivity].
  unfold ret, create_settings_or_conflict, createSettings, getSettings, bind, gets.
  destruct (settings s !! stationId) as [existing|] eqn:Hexisting; [|reflexivity].
  unfold throw. simpl. by rewrite Hexisting.
Qed.

(** X10: GET /api/settings/:stationId and the purchase handler fall back on
    the same defaults (tax disabled, rate 0, currency PKR), but only the
    purchase handler stores them.  For a station without settings, GET
    answers the defaults and leaves the station without settings, so that a
    POST of settings is then answered 201; whereas after any request to
    POST /api/purchase-orders by a user of the station, recorded or
    refused, the same POST of settings is answered 409 with the default
    record in place. *)
Theorem post_settings_after_purchase_conflicts user stationId req body v s :
  AuthenticatedUser.stationId user = Some stationId ->
  stationId <> "" ->
  settings s !! stationId = None ->
  insertSettingsSchema body stationId = Some v ->
  get_settings stationId s
    = (s, mkSettingsResponse 200 (SettingsRecord stationId defaultSettings)) /\
  post_settings stationId body (fst (get_settings stationId s))
    = (with_settings (<[stationId := settings_row v]>) s,
       mkSettingsResponse 201 (SettingsRecord stationId (settings_row v))) /\
  post_settings stationId body (fst (post_purchase_orders user req s))
    = (fst (post_purchase_orders user req s),
       mkSettingsResponse 409 (SettingsConflict defaultSettings)).
Proof.
  intros Hstation Hnonempty Hnone Hv.
  assert (Hget : get_settings stationId s
            = (s, mkSettingsResponse 200 (SettingsRecord stationId defaultSettings))).
  { unfold get_settings, getSettings, gets. by rewrite Hnone. }
  split; [exact Hget|]. rewrite Hget. simpl. split.
  - by rewrite post_settings_run, Hv, Hnone.
  - rewrite post_settings_run, Hv.
    rewrite (post_purchase_orders_settings user stationId req s Hstation Hnonempty).
    unfold purchase_settings. rewrite Hnone. simpl. by rewrite lookup_insert_eq.
Qed.

Lemma post_settings_after_purchase_conflicts_witness :
  status (snd (post_purchase_orders Sample.manager Sample.purchase_request Sample.store))
    = 201%nat /\
  settings_status
    (snd (post_settings "S" Sample2.taxed_settings
            (fst (post_purchase_orders Sample.manager Sample.purchase_request Sample.store))))
    = 409%nat /\
  settings_status
    (snd (post_settings "S" Sample2.taxed_settings (fst (get_settings "S" Sample.store))))
    = 201%nat.
Proof.
  split; [reflexivity|].
  destruct (post_settings_after_purchase_conflicts Sample.manager "S" Sample.purchase_request
              Sample2.taxed_settings
              (InsertSettings.mk "S" (Some true) (Some (Double.of_decimal 17 2)) (Some "PKR"))
              Sample.store eq_refl) as (_ & Hget & Hpurchase);
    [discriminate|reflexivity|reflexivity|].
  split; [by rewrite Hpurchase|by rewrite Hget].
Defined.

(** X11: a POST /api/settings/:stationId that is answered 201 has stored,
    for a station that had no settings and under the station of the URL
    whatever station the body names, the record it answers with: the
    submitted values, and for the values left out the defaults of the
    columns (tax disabled, rate 0, currency PKR); the settings of no other
    station are changed, and a GET for the station answers that record. *)
Theorem post_settings_then_get stationId body s s' response :
  post_settings stationId body s = (s', response) ->
  settings_status response = 201%nat ->
  exists record,
    response = mkSettingsResponse 201 (SettingsRecord stationId record) /\
    settings s !! stationId = None /\
    s' = with_settings (<[stationId := record]>) s /\
    Settings.taxEnabled record = Some (default false (RawSettings.taxEnabled body)) /\
    Settings.taxRate record = Double.or_zero (RawSettings.taxRate body) /\
    Settings.currencyCode record = default "PKR" (RawSettings.currencyCode body) /\
    is_Some (currencyCodeEnum (Settings.currencyCode record)) /\
    get_settings stationId s' = (s', mkSettingsResponse 200 (SettingsRecord stationId record)).
Proof.
  rewrite post_settings_run. intros H Hstatus.
  destruct (insertSettingsSchema body stationId) as [v|] eqn:Hv; [|by simplify_eq].
  destruct (settings s !! stationId) as [existing|] eqn:Hexisting; [by simplify_eq|].
  injection H as <- <-.
  pose proof (insertSettingsSchema_inv _ _ _ Hv) as ->.
  exists (settings_row (InsertSettings.mk stationId (RawSettings.taxEnabled body)
                          (RawSettings.taxRate body) (RawSettings.currencyCode body))).
  repeat split.
  - unfold insertSettingsSchema in Hv. simpl.
    destruct (RawSettings.currencyCode body) as [code|]; simpl; [|by eexists].
    destruct (currencyCodeEnum code); [by eexists|discriminate].
  - unfold get_settings, getSettings, gets. simpl. by rewrite lookup_insert_eq.
Qed.

Lemma post_settings_then_get_witness :
  exists record,
    post_settings "S" Sample2.taxed_settings Sample.store
      = (with_settings (<["S" := record]>) Sample.store,
         mkSettingsResponse 201 (SettingsRecord "S" record)) /\
    record = Settings.mk (Some true) (Some (Double.of_decimal 17 2)) "PKR" /\
    settings (with_settings (<["S" := record]>) Sample.store) !! "elsewhere" = None.
Proof.
  destruct (post_settings_then_get "S" Sample2.taxed_settings Sample.store _ _ eq_refl eq_refl)
    as (record & Hresponse & _ & Hstore & Henabled & Hrate & Hcode & _).
  exists record. split; [|split].
  - apply injective_projections; assumption.
  - destruct record as [taxEnabled taxRate currencyCode]. simpl in *.
    by rewrite Henabled, Hrate, Hcode.
  - reflexivity.
Defined.

(** X12: POST /api/settings/:stationId never replaces the settings of a
    station: when the station has settings, a body that the schema accepts
    is answered 409 with the settings in place, any other body 400, and in
    both cases nothing is written. *)
Theorem post_settings_keeps_existing stationId body s existing :
  settings s !! stationId = Some existing ->
  post_settings stationId body s =
    (s, match insertSettingsSchema body stationId with
        | Some _ => mkSettingsResponse 409 (SettingsConflict existing)
        | None => mkSettingsResponse 400 (SettingsMessage "Invalid settings data")
        end).
Proof.
  intros Hexisting. rewrite post_settings_run, Hexisting.
  by destruct (insertSettingsSchema body stationId).
Qed.

Lemma post_settings_keeps_existing_witness :
  post_settings "S" Sample2.taxed_settings Sample.taxed_store
    = (Sample.taxed_store,
       mkSettingsResponse 409
         (SettingsConflict (Settings.mk (Some true) (Some (Double.of_Z 17)) "PKR"))).
Proof.
  exact (post_settings_keeps_existing "S" Sample2.taxed_settings Sample.taxed_store _ eq_refl).
Defined.



(** ** POST /api/auth/signup and POST /api/auth/login *)

Lemma insertUserSchema_inv body v :
  insertUserSchema body = Some v ->
  RawUser.username body = Some (InsertUser.username v) /\
  RawUser.password body = Some (InsertUser.password v) /\
  InsertUser.role v = RawUser.role body.
Proof.
  unfold insertUserSchema. intros H.
  repeat case_match; simplify_eq; by repeat split.
Qed.

Section AuthProperties.

Variable bcrypt_hash : string -> string.
Variable bcrypt_compare : string -> string -> bool.
Variable generateToken : AuthUser.t -> string.

(** What [bcrypt] is for: a password matches its own hash. *)
Hypothesis bcrypt_compare_hash :
  forall password, bcrypt_compare password (bcrypt_hash password) = true.

(** The course of a signup that is answered 201. *)
Lemma signup_created body db db' response :
  signup bcrypt_hash body db = (db', response) ->
  auth_status response = 201%nat ->
  exists v user,
    insertUserSchema body = Some v /\
    users db !! InsertUser.username v = None /\
    user = User.mk ("id-" +:+ pretty (nextUserId db)) (InsertUser.username v)
             (bcrypt_hash (InsertUser.password v)) (InsertUser.fullName v)
             (default "cashier" (InsertUser.role v)) (InsertUser.stationId v)
             (Some (bool_decide (InsertUser.role v = Some "admin"))) /\
    db' = mkUserDb (<[InsertUser.username v := user]> (users db)) (S (nextUserId db)).
Proof.
  unfold signup, getUserByUsername, createUser. intros H Hstatus.
  destruct (insertUserSchema body) as [v|]; [|by simplify_eq].
  simpl in H.
  destruct (users db !! InsertUser.username v) as [taken|] eqn:Htaken; [by simplify_eq|].
  injection H as <- _. eexists v, _. by repeat split.
Qed.

(** X14: who signs up as an admin can log in at once.  After a signup with
    role admin that is answered 201, the login with the name and password of
    the signup is answered 200 with a token for that user, whatever
    [isActive] the body of the signup carried. *)
Theorem signup_admin_then_login body username password db db' response :
  signup bcrypt_hash body db = (db', response) ->
  auth_status response = 201%nat ->
  RawUser.role body = Some "admin" ->
  RawUser.username body = Some username ->
  RawUser.password body = Some password ->
  exists authUser,
    login bcrypt_compare generateToken (Credentials.mk username (Some password)) db'
      = (db', mkAuthResponse 200 (LoggedIn authUser (generateToken authUser))) /\
    AuthUser.username authUser = username /\
    AuthUser.role authUser = "admin".
Proof.
  intros Hrun Hstatus Hrole Hname Hpassword.
  destruct (signup_created _ _ _ _ Hrun Hstatus) as (v & user & Hv & _ & -> & ->).
  apply insertUserSchema_inv in Hv as (Hname' & Hpassword' & Hrole').
  rewrite Hname in Hname'. injection Hname' as ->.
  rewrite Hpassword in Hpassword'. injection Hpassword' as ->.
  rewrite Hrole in Hrole'.
  unfold login, getUserByUsername. simpl. rewrite lookup_insert_eq.
  unfold pending_approval. simpl.
  rewrite Hrole', bool_decide_eq_true_2 by reflexivity. simpl.
  rewrite bcrypt_compare_hash. eexists. by repeat split.
Qed.

(** X15: who signs up with another role, or with none, waits for approval,
    whatever [isActive] the body of the signup carried: after such a signup
    is answered 201, every login under the name is answered 401 "Account
    pending approval", before the password is looked at. *)
Theorem signup_others_wait_for_approval body username db db' response :
  signup bcrypt_hash body db = (db', response) ->
  auth_status response = 201%nat ->
  RawUser.role body <> Some "admin" ->
  RawUser.username body = Some username ->
  forall password,
    login bcrypt_compare generateToken (Credentials.mk username password) db'
      = (db', mkAuthResponse 401
                (AuthMessage "Account pending approval. Please contact administrator.")).
Proof.
  intros Hrun Hstatus Hrole Hname password.
  destruct (signup_created _ _ _ _ Hrun Hstatus) as (v & user & Hv & _ & -> & ->).
  apply insertUserSchema_inv in Hv as (Hname' & _ & Hrole').
  rewrite Hname in Hname'. injection Hname' as ->.
  unfold login, getUserByUsername. simpl. rewrite lookup_insert_eq.
  unfold pending_approval. simpl.
  rewrite Hrole', bool_decide_eq_false_2 by exact Hrole. simpl.
  replace (String.eqb (default "cashier" (RawUser.role body)) "admin") with false;
    [reflexivity|].
  symmetry. apply String.eqb_neq.
  destruct (RawUser.role body) as [role|]; simpl; congruence.
Qed.

(** X16: a signup changes no account that exists: every user of the table
    is there afterwards, unchanged.  It is answered 201, with the new
    account stored under the hash of its password, or it is answered 400
    and writes nothing. *)
Theorem signup_keeps_accounts body db db' response :
  signup bcrypt_hash body db = (db', response) ->
  (forall name user, users db !! name = Some user -> users db' !! name = Some user) /\
  ((auth_status response = 201%nat /\
    exists v user,
      insertUserSchema body = Some v /\
      users db !! InsertUser.username v = None /\
      users db' !! InsertUser.username v = Some user /\
      User.password user = bcrypt_hash (InsertUser.password v)) \/
   (auth_status response = 400%nat /\ db' = db)).
Proof.
  intros Hrun.
  destruct (decide (auth_status response = 201%nat)) as [Hstatus|Hstatus].
  - destruct (signup_created _ _ _ _ Hrun Hstatus) as (v & user & Hv & Hfree & Huser & ->).
    split.
    + intros name other Hother. simpl.
      rewrite lookup_insert_ne; [exact Hother|]. intros <-. congruence.
    + left. split; [exact Hstatus|]. exists v, user. repeat split; try assumption.
      * simpl. apply lookup_insert_eq.
      * by subst user.
  - unfold signup, getUserByUsername, createUser in Hrun.
    destruct (insertUserSchema body) as [v|];
      [|injection Hrun as <- <-; split; [auto|right; by split]].
    simpl in Hrun.
    destruct (users db !! InsertUser.username v) as [taken|];
      [injection Hrun as <- <-; split; [auto|right; by split]|].
    injection Hrun as _ <-. by destruct Hstatus.
Qed.

(** X17: a login never writes, and it is answered 200 exactly when the name
    is that of a user who is active or an admin and the password matches
    the stored hash. *)
Theorem login_reads_only body db :
  fst (login bcrypt_compare generateToken body db) = db /\
  (auth_status (snd (login bcrypt_compare generateToken body db)) = 200%nat <->
   exists user password,
     users db !! Credentials.username body = Some user /\
     pending_approval user = false /\
     Credentials.password body = Some password /\
     bcrypt_compare password (User.password user) = true).
Proof.
  unfold login, getUserByUsername.
  destruct (users db !! Credentials.username body) as [user|].
  2:{ split; [reflexivity|]. split; [discriminate|]. by intros (? & ? & ? & _). }
  destruct (pending_approval user) eqn:Hpending.
  { split; [reflexivity|]. split; [discriminate|].
    intros (? & ? & ? & ? & _). congruence. }
  destruct (Credentials.password body) as [password|].
  2:{ split; [reflexivity|]. split; [discriminate|]. by intros (? & ? & _ & _ & ? & _). }
  destruct (bcrypt_compare password (User.password user)) eqn:Hmatch.
  - split; [reflexivity|]. split; [|reflexivity]. intros _. by exists user, password.
  - split; [reflexivity|]. split; [discriminate|].
    intros (? & ? & ? & _ & ? & ?). congruence.
Qed.

(** X18: the answer to a failed login does not tell an unknown name from a
    wrong password: a login under a name that no user has and a login under
    the name of a user who may log in, with a password that does not match,
    are answered alike. *)
Theorem login_hides_which_credential_failed unknown known user password db :
  users db !! Credentials.username unknown = None ->
  users db !! Credentials.username known = Some user ->
  pending_approval user = false ->
  Credentials.password known = Some password ->
  bcrypt_compare password (User.password user) = false ->
  snd (login bcrypt_compare generateToken unknown db)
    = snd (login bcrypt_compare generateToken known db) /\
  snd (login bcrypt_compare generateToken known db)
    = mkAuthResponse 401 (AuthMessage "Invalid credentials").
Proof.
  intros Hunknown Hknown Hpending Hpassword Hmatch.
  unfold login, getUserByUsername.
  by rewrite Hunknown, Hknown, Hpending, Hpassword, Hmatch.
Qed.

End AuthProperties.

Lemma signup_admin_then_login_witness :
  exists authUser,
    login Sample2.toy_compare Sample2.toy_token (Credentials.mk "root" (Some "secret"))
      (fst (signup Sample2.toy_hash Sample2.admin_signup Sample2.no_users))
    = (fst (signup Sample2.toy_hash Sample2.admin_signup Sample2.no_users),
       mkAuthResponse 200 (LoggedIn authUser (Sample2.toy_token authUser))) /\
    AuthUser.role authUser = "admin".
Proof.
  destruct (signup_admin_then_login Sample2.toy_hash Sample2.toy_compare Sample2.toy_token
              (fun password => String.eqb_refl _)
              Sample2.admin_signup "root" "secret" Sample2.no_users _ _
              eq_refl eq_refl eq_refl eq_refl eq_refl) as (authUser & Hlogin & _ & Hrole).
  exists authUser. split; [exact Hlogin|exact Hrole].
Defined.

Lemma signup_others_wait_for_approval_witness :
  RawUser.isActive Sample2.cashier_signup = Some true /\
  login Sample2.toy_compare Sample2.toy_token (Credentials.mk "ali" (Some "petrol"))
    (fst (signup Sample2.toy_hash Sample2.cashier_signup Sample2.no_users))
  = (fst (signup Sample2.toy_hash Sample2.cashier_signup Sample2.no_users),
     mkAuthResponse 401
       (AuthMessage "Account pending approval. Please contact administrator.")).
Proof.
  split; [reflexivity|].
  apply (signup_others_wait_for_approval Sample2.toy_hash Sample2.toy_compare Sample2.toy_token
           Sample2.cashier_signup "ali" Sample2.no_users _ _ eq_refl eq_refl).
  - discriminate.
  - reflexivity.
Defined.

Lemma signup_keeps_accounts_witness :
  let db := fst (signup Sample2.toy_hash Sample2.admin_signup Sample2.no_users) in
  signup Sample2.toy_hash Sample2.admin_signup db
    = (db, mkAuthResponse 400 (AuthMessage "Username already exists")) /\
  exists user, users db !! "root" = Some user /\ User.password user = "$2b$10$secret".
Proof.
  split; [reflexivity|].
  destruct (signup_keeps_accounts Sample2.toy_hash Sample2.admin_signup Sample2.no_users _ _
              eq_refl) as (_ & [(_ & v & user & Hv & _ & Huser & Hpassword)|(Hstatus & _)]);
    [|discriminate].
  injection Hv as <-. exists user. split; [exact Huser|exact Hpassword].
Defined.

Lemma login_reads_only_witness :
  let db := fst (signup Sample2.toy_hash Sample2.admin_signup Sample2.no_users) in
  fst (login Sample2.toy_compare Sample2.toy_token (Credentials.mk "root" (Some "guess")) db) = db /\
  auth_status (snd (login Sample2.toy_compare Sample2.toy_token
                      (Credentials.mk "root" (Some "guess")) db)) <> 200%nat.
Proof.
  destruct (login_reads_only Sample2.toy_compare Sample2.toy_token
              (Credentials.mk "root" (Some "guess"))
              (fst (signup Sample2.toy_hash Sample2.admin_signup Sample2.no_users)))
    as (Hsame & Hok).
  split; [exact Hsame|].
  intros Hstatus. apply Hok in Hstatus as (user & password & Huser & _ & Hpassword & Hmatch).
  injection Hpassword as <-. vm_compute in Huser. injection Huser as <-.
  vm_compute in Hmatch. discriminate.
Defined.

Lemma login_hides_which_credential_failed_witness :
  let db := fst (signup Sample2.toy_hash Sample2.admin_signup Sample2.no_users) in
  snd (login Sample2.toy_compare Sample2.toy_token (Credentials.mk "nobody" (Some "secret")) db)
    = snd (login Sample2.toy_compare Sample2.toy_token (Credentials.mk "root" (Some "guess")) db).
Proof.
  refine (proj1 (login_hides_which_credential_failed Sample2.toy_compare Sample2.toy_token
           (Credentials.mk "nobody" (Some "secret")) (Credentials.mk "root" (Some "guess"))
           _ "guess" (fst (signup Sample2.toy_hash Sample2.admin_signup Sample2.no_users))
           eq_refl eq_refl eq_refl eq_refl eq_refl)).
Defined.

(** ** The lines of the ledger form *)

(** Filtering out the position [index], counted from [position], is
    cutting the list there. *)
Lemma without_index_cut {A : Type} index (lines : list A) :
  forall position,
    without_index index position lines =
    if (position <=? index)%nat
    then take (index - position) lines ++ drop (S (index - position)) lines
    else lines.
Proof.
  induction lines as [|line rest IH]; intros position.
  - simpl. destruct (position <=? index)%nat; [|reflexivity].
    by destruct (index - position)%nat.
  - cbn [without_index]. rewrite IH.
    destruct (Nat.eqb_spec position index) as [->|Hne].
    + rewrite Nat.leb_refl, Nat.sub_diag.
      replace (S index <=? index)%nat with false by (symmetry; apply Nat.leb_gt; lia).
      reflexivity.
    + destruct (Nat.leb_spec position index) as [Hle|Hgt].
      * replace (S position <=? index)%nat with true by (symmetry; apply Nat.leb_le; lia).
        replace (index - position)%nat with (S (index - S position)) by lia.
        reflexivity.
      * replace (S position <=? index)%nat with false by (symmetry; apply Nat.leb_gt; lia).
        reflexivity.
Qed.

Lemma removeJournalLine_cut index lines :
  removeJournalLine index lines =
  if (2 <? length lines)%nat then take index lines ++ drop (S index) lines else lines.
Proof.
  unfold removeJournalLine. rewrite without_index_cut. simpl. by rewrite Nat.sub_0_r.
Qed.

Lemma removeJournalLine_length index lines :
  length (removeJournalLine index lines) =
  if (2 <? length lines)%nat && (index <? length lines)%nat
  then (length lines - 1)%nat else length lines.
Proof.
  rewrite removeJournalLine_cut.
  destruct (Nat.ltb_spec 2 (length lines)) as [Hmany|Hfew]; simpl; [|reflexivity].
  rewrite length_app, length_take, length_drop.
  destruct (Nat.ltb_spec index (length lines)); lia.
Qed.

(** X19: the form never holds fewer than two lines.  It starts with two,
    and whatever the user does, adding lines and removing the line at any
    position in any order, lines that were two or more stay two or more. *)
Theorem journal_lines_at_least_two actions :
  forall lines,
    (2 <= length lines)%nat ->
    (2 <= length (List.fold_left apply_action actions lines))%nat.
Proof.
  induction actions as [|action actions IH]; intros lines Hlines; simpl; [exact Hlines|].
  apply IH. destruct action as [|index]; simpl.
  - unfold addJournalLine. rewrite length_app. simpl. lia.
  - rewrite removeJournalLine_length.
    destruct (Nat.ltb_spec 2 (length lines)); simpl; [|exact Hlines].
    destruct (index <? length lines)%nat; lia.
Qed.

Lemma journal_lines_at_least_two_witness :
  (2 <= length (List.fold_left apply_action
                  [RemoveLine 0; AddLine; RemoveLine 1; RemoveLine 0; RemoveLine 5]
                  defaultJournalLines))%nat.
Proof.
  apply (journal_lines_at_least_two
           [RemoveLine 0; AddLine; RemoveLine 1; RemoveLine 0; RemoveLine 5] defaultJournalLines).
  simpl. lia.
Defined.

(** X20: [removeJournalLine] takes out the line at the position it is given
    and no other, when the form holds more than two lines; it leaves the
    lines as they are when the form holds two lines or fewer, and also when
    the position is past the last line.  The form loses one line exactly
    in the first case. *)
Theorem removeJournalLine_removes index lines :
  removeJournalLine index lines =
    (if (2 <? length lines)%nat then take index lines ++ drop (S index) lines else lines) /\
  ((length lines <= index)%nat -> removeJournalLine index lines = lines) /\
  length (removeJournalLine index lines) =
    (if (2 <? length lines)%nat && (index <? length lines)%nat
     then (length lines - 1)%nat else length lines).
Proof.
  split; [apply removeJournalLine_cut|]. split; [|apply removeJournalLine_length].
  intros Hpast. rewrite removeJournalLine_cut.
  destruct (2 <? length lines)%nat; [|reflexivity].
  rewrite take_ge, drop_ge by lia. apply app_nil_r.
Qed.

Lemma removeJournalLine_removes_witness :
  removeJournalLine 1 Sample2.three_lines
    = [JournalLine.mk "1001" (Some (Double.of_Z 100)) (Some (Double.of_Z 0));
       JournalLine.mk "4002" (Some (Double.of_Z 0)) (Some (Double.of_Z 40))] /\
  removeJournalLine 3 Sample2.three_lines = Sample2.three_lines.
Proof.
  destruct (removeJournalLine_removes 1 Sample2.three_lines) as (Hcut & _).
  destruct (removeJournalLine_removes 3 Sample2.three_lines) as (_ & Hpast & _).
  split; [exact Hcut|]. apply Hpast. simpl. lia.
Defined.

(** X21: on a form of two lines or more, adding a line and then removing
    the last line gives back the lines as they were. *)
Theorem add_then_remove_last lines :
  (2 <= length lines)%nat ->
  removeJournalLine (length lines) (addJournalLine lines) = lines.
Proof.
  intros Hlines. rewrite removeJournalLine_cut. unfold addJournalLine.
  rewrite length_app. simpl.
  replace (2 <? length lines + 1)%nat with true by (symmetry; apply Nat.ltb_lt; lia).
  rewrite take_app_length.
  rewrite drop_ge by (rewrite length_app; simpl; lia).
  apply app_nil_r.
Qed.

Lemma add_then_remove_last_witness :
  removeJournalLine 3 (addJournalLine Sample2.three_lines) = Sample2.three_lines.
Proof.
  apply (add_then_remove_last Sample2.three_lines). simpl. lia.
Defined.

Lemma filter_none {A : Type} (test : A -> bool) (lines : list A) :
  (0 <? length (List.filter test lines))%nat = false <->
  Forall (fun line => test line = false) lines.
Proof.
  induction lines as [|line rest IH]; simpl.
  - split; [constructor|reflexivity].
  - destruct (test line) eqn:Htest; simpl.
    + split; [discriminate|]. intros Hall. inversion Hall; congruence.
    + rewrite IH. split; [by constructor|]. intros Hall. by inversion Hall.
Qed.

(** The lines of an entry that is sent are none of them invalid. *)
Lemma onJournalSubmit_sent_valid lines payload :
  onJournalSubmit lines = Mutate payload ->
  Forall (fun line => invalid_line line = false) lines.
Proof.
  unfold onJournalSubmit. intros Hsent. apply filter_none.
  destruct (Double.gtb _ _); [discriminate|].
  by destruct (0 <? length (List.filter invalid_line lines))%nat.
Qed.

(** X22: a line as [addJournalLine] adds it, with both amounts 0 and no
    account, stops the form from sending: lines among which there is one
    are answered by an error message, so neither the form as it starts nor
    a form to which a line was just added can be submitted. *)
Theorem blank_line_blocks_submit lines :
  In blankJournalLine lines ->
  exists description, onJournalSubmit lines = Toast description.
Proof.
  intros Hblank.
  destruct (onJournalSubmit lines) as [description|payload] eqn:Hsubmit; [by eexists|].
  apply onJournalSubmit_sent_valid in Hsubmit.
  rewrite Forall_forall in Hsubmit. apply list_elem_of_In in Hblank.
  specialize (Hsubmit _ Hblank). vm_compute in Hsubmit. discriminate.
Qed.

Lemma blank_line_blocks_submit_witness :
  (exists description, onJournalSubmit defaultJournalLines = Toast description) /\
  (exists description, onJournalSubmit (addJournalLine Sample2.three_lines) = Toast description).
Proof.
  split.
  - apply (blank_line_blocks_submit defaultJournalLines). by left.
  - apply (blank_line_blocks_submit (addJournalLine Sample2.three_lines)).
    apply in_or_app. right. by left.
Defined.

(** A number below another is not above it. *)
Lemma Double_ltb_not_gtb a b : Double.ltb a b = true -> Double.gtb a b = false.
Proof.
  unfold Double.ltb, Double.gtb, SFltb.
  destruct a as [sa|sa| |sa ma ea], b as [sb|sb| |sb mb eb]; simpl;
    try discriminate; try reflexivity.
  all: try (destruct sa; try destruct sb; simpl; (discriminate || reflexivity)).
  all: try (destruct sb; simpl; (discriminate || reflexivity)).
  destruct sa, sb; simpl; try discriminate; try reflexivity.
  all: rewrite (Z.compare_antisym ea eb); destruct (ea ?= eb)%Z; simpl;
         try discriminate; try reflexivity.
  all: pose proof (Pos.compare_cont_antisym ma mb Eq) as Hopp; simpl in Hopp; rewrite <- Hopp.
  all: destruct (Pos.compare_cont Eq ma mb); simpl; try discriminate; reflexivity.
Qed.

(** X23: the "Difference" under the lines is shown in green when it is
    below 0.01, and the submit refuses a difference above 0.01: whenever
    the difference is green, the balance check of [onJournalSubmit]
    passes. *)
Theorem green_difference_passes lines :
  difference_is_green lines = true ->
  Double.gtb (Double.abs (Double.sub (totalDebits lines) (totalCredits lines))) Double.cent
    = false /\
  onJournalSubmit lines <> Toast "Total debits must equal total credits".
Proof.
  unfold difference_is_green. intros Hgreen.
  apply Double_ltb_not_gtb in Hgreen.
  split; [exact Hgreen|].
  unfold onJournalSubmit. rewrite Hgreen. repeat case_match; discriminate.
Qed.

Lemma green_difference_passes_witness :
  difference_is_green Sample.nearly_balanced_lines = true /\
  onJournalSubmit Sample.nearly_balanced_lines <> Toast "Total debits must equal total credits".
Proof.
  split; [reflexivity|].
  apply (green_difference_passes Sample.nearly_balanced_lines). reflexivity.
Defined.

(** The converse fails at the boundary: lines of 0.02 against 0.01 have a
    computed difference of 0.01, which is shown in red and passes the
    balance check. *)
Example red_difference_sent :
  difference_is_green Sample2.lines_of_difference_a_cent = false /\
  exists payload, onJournalSubmit Sample2.lines_of_difference_a_cent = Mutate payload.
Proof. split; [vm_compute; reflexivity|]. eexists. vm_compute. reflexivity. Qed.

(** X24: the form validates its lines against [journalEntrySchema] before
    it calls [onJournalSubmit], and that schema asks for an account on every
    line.  So on lines that the schema accepts, the third check of
    [onJournalSubmit] never fires: the message "All journal lines must have
    an account selected" is never shown. *)
Theorem account_check_never_fires lines :
  journalEntrySchema_lines lines = true ->
  onJournalSubmit lines <> Toast "All journal lines must have an account selected".
Proof.
  unfold journalEntrySchema_lines. intros Hschema.
  apply andb_true_iff in Hschema as [_ Hnamed].
  assert (Haccounts :
    (0 <? length (List.filter (fun line => String.eqb (JournalLine.accountId line) "") lines))%nat
    = false).
  { apply filter_none. rewrite forallb_forall in Hnamed. apply Forall_forall.
    intros line Hline. apply list_elem_of_In in Hline.
    specialize (Hnamed _ Hline). apply String.eqb_neq. intros Hempty.
    rewrite Hempty in Hnamed. discriminate. }
  unfold onJournalSubmit. rewrite Haccounts. repeat case_match; discriminate.
Qed.

Lemma account_check_never_fires_witness :
  journalEntrySchema_lines Sample.unbalanced_lines = true /\
  onJournalSubmit Sample.unbalanced_lines
    <> Toast "All journal lines must have an account selected".
Proof.
  split; [reflexivity|].
  apply (account_check_never_fires Sample.unbalanced_lines). reflexivity.
Defined.

(** Once the running sum is not a number it stays so. *)
Lemma running_sum_NaN {A : Type} (amount : A -> Double.t) (lines : list A) :
  List.fold_left (fun sum line => Double.add sum (amount line)) lines Double.NaN = Double.NaN.
Proof. induction lines as [|line rest IH]; simpl; [reflexivity|exact IH]. Qed.

Lemma running_sum_unreadable {A : Type} (amount : A -> Double.t) (lines : list A) line :
  In line lines -> amount line = Double.NaN ->
  forall sum,
    List.fold_left (fun sum line => Double.add sum (amount line)) lines sum = Double.NaN.
Proof.
  intros Hin Hline. induction lines as [|first rest IH]; intros sum; simpl; [destruct Hin|].
  destruct Hin as [->|Hin]; [|by apply IH].
  rewrite Hline. replace (Double.add sum Double.NaN) with Double.NaN by (by destruct sum).
  apply running_sum_NaN.
Qed.

(** X25: an amount that does not read as a number switches two checks of
    [onJournalSubmit] off.  A line whose debit [parseFloat] reads as [NaN]
    is not counted among the invalid lines, and lines among which there is
    one pass the balance check whatever the other amounts are, the total of
    the debits being [NaN]. *)
Theorem unreadable_debit_passes_checks lines line :
  In line lines ->
  Double.parseFloat (Double.or_zero (JournalLine.debit line)) = Double.NaN ->
  invalid_line line = false /\
  totalDebits lines = Double.NaN /\
  onJournalSubmit lines <> Toast "Total debits must equal total credits".
Proof.
  intros Hin Hline.
  assert (Htotal : totalDebits lines = Double.NaN).
  { unfold totalDebits.
    apply (running_sum_unreadable
             (fun line => Double.parseFloat (Double.or_zero (JournalLine.debit line)))
             lines line Hin Hline). }
  split; [unfold invalid_line; by rewrite Hline|]. split; [exact Htotal|].
  unfold onJournalSubmit. rewrite Htotal. simpl. repeat case_match; discriminate.
Qed.

Lemma unreadable_debit_passes_checks_witness :
  exists payload,
    onJournalSubmit Sample2.lines_with_unreadable_debit = Mutate payload /\
    JournalRequest.totalDebit payload = Some Double.NaN /\
    onJournalSubmit Sample2.lines_with_unreadable_debit
      <> Toast "Total debits must equal total credits".
Proof.
  eexists. split; [reflexivity|]. split; [reflexivity|].
  apply (unreadable_debit_passes_checks Sample2.lines_with_unreadable_debit
           (JournalLine.mk "1001" (Some Double.NaN) (Some (Double.of_Z 0)))).
  - by left.
  - reflexivity.
Defined.
